(** * Catalog services: minerals (catalog.py) and games (Game.py)

    A shallow embedding of the two FastAPI services of the repository and the
    properties of their validation rules, query pipeline and CRUD handlers.

    Conventions of the embedding.
    - A Python [str] is a [string]: a sequence of characters with code points
      below 256.  On that range [str.strip], [\d] and [[A-Za-z]] are exactly
      the classes written out in [Py].  The texts of messages, which nothing
      inspects, are kept as the bytes of their UTF-8 encoding.
    - A Python [float] is [Py.float]: a finite value (a rational), an
      infinity or NaN; an [int] is a [Z]; a naive [datetime] is the record
      [Py.datetime].
    - The SQLite table behind the SQLAlchemy session is the list of its rows
      in the order a plain [SELECT] returns them.  A handler takes the table
      and returns its outcome together with the table after the call.
      Integers bound to a statement have to fit 64 bits, a [REAL NOT NULL]
      column refuses NaN, and [LIKE] reads a text up to its first NUL.
    - An [HTTPException] carries its status code and detail; any other
      exception that leaves a handler is [Unhandled].
    - What lies outside the two files is a parameter of the handlers that
      depend on it: the text SQLite and Python print for a float, what the
      mapped class holds under a name that is not a column, and whether the
      QR encoder can hold a text.  Resource limits (memory, the size of a
      request, SQLite's bound on the length of a LIKE pattern) are left
      out. *)

From Stdlib Require Import ZArith QArith List String Ascii Bool Lia.
From Stdlib Require Import DecimalString.
From Stdlib Require Import Sorted Permutation.
Import ListNotations.

Open Scope string_scope.
Open Scope Z_scope.

(** ** Python primitives used by the two services *)
Module Py.

(** [c.isspace()] for a character below 256: TAB, LF, VT, FF, CR, the four
    separators FS GS RS US, SPACE, NEL and NBSP. *)
Definition isspace (c : ascii) : bool :=
  let n := N_of_ascii c in
  ((9 <=? n) && (n <=? 13))%N || ((28 <=? n) && (n <=? 32))%N
  || (n =? 133)%N || (n =? 160)%N.

(** [[A-Z]] *)
Definition isupper (c : ascii) : bool :=
  let n := N_of_ascii c in ((65 <=? n) && (n <=? 90))%N.

(** [[a-z]] *)
Definition islower (c : ascii) : bool :=
  let n := N_of_ascii c in ((97 <=? n) && (n <=? 122))%N.

(** [[A-Za-z]] *)
Definition isletter (c : ascii) : bool := isupper c || islower c.

(** [\d] *)
Definition isdigit (c : ascii) : bool :=
  let n := N_of_ascii c in ((48 <=? n) && (n <=? 57))%N.

Fixpoint lstrip (s : string) : string :=
  match s with
  | EmptyString => EmptyString
  | String c s' => if isspace c then lstrip s' else s
  end.

Fixpoint reverse (acc s : string) : string :=
  match s with
  | EmptyString => acc
  | String c s' => reverse (String c acc) s'
  end.

Definition rstrip (s : string) : string :=
  reverse EmptyString (lstrip (reverse EmptyString s)).

(** [s.strip()] *)
Definition strip (s : string) : string := rstrip (lstrip s).

(** [len(s)] *)
Definition len (s : string) : Z := Z.of_nat (String.length s).

(** Truth value of a [str]: only the empty string is false. *)
Definition bool_str (s : string) : bool :=
  match s with EmptyString => false | String _ _ => true end.

(** [if p: query = query.filter(...)] for an optional string parameter. *)
Definition when_given {A : Type} (p : option string)
  (narrow : string -> list A -> list A) (query : list A) : list A :=
  match p with
  | Some s => if bool_str s then narrow s query else query
  | None => query
  end.

(** [s.startswith("-")] *)
Definition startswith_minus (s : string) : bool :=
  match s with
  | String c _ => Ascii.eqb c "-"
  | EmptyString => false
  end.

(** [s[1:]] *)
Definition slice_from_1 (s : string) : string :=
  match s with
  | String _ s' => s'
  | EmptyString => EmptyString
  end.

(** [re.match(r'^[A-Z]{2}-\d{4}$', s)]: two capitals, a hyphen, four digits;
    [$] matches at the end of the string and also just before a final
    newline. *)
Definition re_match_id (s : string) : bool :=
  match s with
  | String a (String b (String h (String d1 (String d2 (String d3 (String d4 rest)))))) =>
      isupper a && isupper b && Ascii.eqb h "-"
      && isdigit d1 && isdigit d2 && isdigit d3 && isdigit d4
      && match rest with
         | EmptyString => true
         | String nl EmptyString => (N_of_ascii nl =? 10)%N
         | _ => false
         end
  | _ => false
  end.

(** The characters a spreadsheet cell may not hold:
    [[\000-\010]|[\013-\014]|[\016-\037]]. *)
Definition illegal_character (c : ascii) : bool :=
  let n := N_of_ascii c in
  (n <=? 8)%N || ((11 <=? n) && (n <=? 12))%N || ((14 <=? n) && (n <=? 31))%N.

(** [re.search(cls, s)] for a one-character class [cls]. *)
Fixpoint re_search (cls : ascii -> bool) (s : string) : bool :=
  match s with
  | EmptyString => false
  | String c s' => cls c || re_search cls s'
  end.

(** What a validator does: [raise ValueError(msg)] or [return v]. *)
Inductive raises (A : Type) : Type :=
| ValueError (msg : string)
| Return (v : A).
Arguments ValueError {A} msg.
Arguments Return {A} v.

(** A naive [datetime]; [datetime] values compare field by field. *)
Record datetime : Type := mk_datetime {
  year : Z; month : Z; day : Z;
  hour : Z; minute : Z; second : Z; microsecond : Z
}.

Definition datetime_fields (d : datetime) : list Z :=
  [year d; month d; day d; hour d; minute d; second d; microsecond d].

Fixpoint lex_compare (xs ys : list Z) : comparison :=
  match xs, ys with
  | [], [] => Eq
  | [], _ :: _ => Lt
  | _ :: _, [] => Gt
  | x :: xs', y :: ys' =>
      match x ?= y with
      | Eq => lex_compare xs' ys'
      | c => c
      end
  end.

Definition datetime_compare (a b : datetime) : comparison :=
  lex_compare (datetime_fields a) (datetime_fields b).

(** [a > b] on [datetime] *)
Definition datetime_gt (a b : datetime) : bool :=
  match datetime_compare a b with Gt => true | _ => false end.

(** A [float]. *)
Inductive float : Type :=
| Finite (q : Q)
| Infinity (negative : bool)
| NaN.

(** [a < b] and [a <= b] on [float]: false as soon as one side is NaN. *)
Definition float_lt (a b : float) : bool :=
  match a, b with
  | Finite x, Finite y => negb (Qle_bool y x)
  | Finite _, Infinity negative => negb negative
  | Infinity negative, Finite _ => negative
  | Infinity n, Infinity m => n && negb m
  | NaN, _ => false
  | _, NaN => false
  end.

Definition float_le (a b : float) : bool :=
  match a, b with
  | Finite x, Finite y => Qle_bool x y
  | Finite _, Infinity negative => negb negative
  | Infinity negative, Finite _ => negative
  | Infinity n, Infinity m => n || negb m
  | NaN, _ => false
  | _, NaN => false
  end.

(** [x] is a NaN. *)
Definition isnan (x : float) : bool :=
  match x with NaN => true | _ => false end.

(** The line feed of an f-string. *)
Definition nl : string := String (ascii_of_N 10) EmptyString.

(** [str(n)] for an [int]. *)
Definition str_int (n : Z) : string := NilZero.string_of_int (Z.to_int n).

Fixpoint zeros (k : nat) : string :=
  match k with O => EmptyString | S k' => String "0" (zeros k') end.

(** ["%0wd" % n] for a non-negative [n]. *)
Definition zfill (w : nat) (n : Z) : string :=
  let s := str_int n in
  zeros (w - String.length s) ++ s.

(** [d.isoformat()]: the fraction is printed only when it is not zero. *)
Definition isoformat (d : datetime) : string :=
  zfill 4 (year d) ++ "-" ++ zfill 2 (month d) ++ "-" ++ zfill 2 (day d)
  ++ "T" ++ zfill 2 (hour d) ++ ":" ++ zfill 2 (minute d) ++ ":"
  ++ zfill 2 (second d)
  ++ (if microsecond d =? 0 then "" else "." ++ zfill 6 (microsecond d)).

End Py.

(** ** The SQL primitives the queries are built from (SQLite semantics) *)
Module Sql.

(** SQLite's [lower()] folds the 26 ASCII capitals only. *)
Definition lower_char (c : ascii) : ascii :=
  if Py.isupper c then ascii_of_N (N_of_ascii c + 32) else c.

Fixpoint lower (s : string) : string :=
  match s with
  | EmptyString => EmptyString
  | String c s' => String (lower_char c) (lower s')
  end.

(** The part of a text before its first NUL character. *)
Fixpoint until_nul (s : string) : string :=
  match s with
  | EmptyString => EmptyString
  | String c s' =>
      if (N_of_ascii c =? 0)%N then EmptyString else String c (until_nul s')
  end.

(** The matcher of LIKE with no escape character: [%] stands for any run of
    characters (also the empty one), [_] for exactly one character, any
    other character for itself up to ASCII case. *)
Fixpoint match_like (pattern : string) : string -> bool :=
  match pattern with
  | EmptyString =>
      fun text => match text with EmptyString => true | String _ _ => false end
  | String p pattern' =>
      if Ascii.eqb p "%" then
        fix any_run (text : string) : bool :=
          match_like pattern' text
          || match text with
             | EmptyString => false
             | String _ text' => any_run text'
             end
      else if Ascii.eqb p "_" then
        fun text =>
          match text with
          | EmptyString => false
          | String _ text' => match_like pattern' text'
          end
      else
        fun text =>
          match text with
          | EmptyString => false
          | String c text' =>
              Ascii.eqb (lower_char p) (lower_char c) && match_like pattern' text'
          end
  end.

(** [text LIKE pattern]: both operands are read as C strings, that is up to
    their first NUL. *)
Definition like (pattern text : string) : bool :=
  match_like (until_nul pattern) (until_nul text).

(** [column.ilike(pattern)], rendered for SQLite as
    [lower(column) LIKE lower(pattern)]. *)
Definition ilike (column pattern : string) : bool :=
  like (lower pattern) (lower column).

(** The same on a nullable column: [NULL LIKE p] is [NULL], which a
    [WHERE] clause and an [OR] treat as not true. *)
Definition ilike_null (column : option string) (pattern : string) : bool :=
  match column with
  | None => false
  | Some c => ilike c pattern
  end.

(** An [int] that the driver can bind to a statement: it fits a signed
    64-bit integer.  Binding any other raises [OverflowError]. *)
Definition int64 (n : Z) : bool := (- 2 ^ 63 <=? n) && (n <? 2 ^ 63).

(** [query.offset(n)]: a negative [OFFSET] skips nothing; [None] when [n]
    cannot be bound. *)
Definition offset {A : Type} (n : Z) (rows : list A) : option (list A) :=
  if int64 n then Some (skipn (Z.to_nat n) rows) else None.

(** [query.limit(n)]: a negative [LIMIT] means no limit; [None] when [n]
    cannot be bound. *)
Definition limit {A : Type} (n : Z) (rows : list A) : option (list A) :=
  if int64 n then Some (if n <? 0 then rows else firstn (Z.to_nat n) rows)
  else None.

(** [query.first()] *)
Definition first {A : Type} (rows : list A) : option A :=
  match rows with
  | [] => None
  | r :: _ => Some r
  end.

(** [ORDER BY]: rows are placed by a stable insertion sort on the sort key,
    so rows with equal keys keep their store order. *)
Fixpoint place {A : Type} (cmp : A -> A -> comparison) (x : A) (sorted : list A)
  : list A :=
  match sorted with
  | [] => [x]
  | y :: sorted' =>
      match cmp x y with
      | Gt => y :: place cmp x sorted'
      | _ => x :: sorted
      end
  end.

Definition order_by {A : Type} (cmp : A -> A -> comparison) (rows : list A)
  : list A :=
  fold_right (place cmp) [] rows.

(** [column.desc()] *)
Definition desc {A : Type} (cmp : A -> A -> comparison) : A -> A -> comparison :=
  fun a b => CompOpp (cmp a b).

(** A nullable text key: [NULL] sorts before every value. *)
Definition compare_null (a b : option string) : comparison :=
  match a, b with
  | None, None => Eq
  | None, Some _ => Lt
  | Some _, None => Gt
  | Some x, Some y => String.compare x y
  end.

(** The order of two [REAL] values; a NaN is bound as [NULL], which sorts
    before every value (no row of a stored table holds one). *)
Definition compare_real (a b : Py.float) : comparison :=
  match a, b with
  | Py.NaN, Py.NaN => Eq
  | Py.NaN, _ => Lt
  | _, Py.NaN => Gt
  | Py.Infinity true, Py.Infinity true => Eq
  | Py.Infinity true, _ => Lt
  | _, Py.Infinity true => Gt
  | Py.Infinity false, Py.Infinity false => Eq
  | Py.Infinity false, _ => Gt
  | _, Py.Infinity false => Lt
  | Py.Finite x, Py.Finite y => Qcompare x y
  end.

(** Timestamps are stored as ['YYYY-MM-DD HH:MM:SS.ffffff']. *)
Definition DATETIME_text (d : Py.datetime) : string :=
  Py.zfill 4 (Py.year d) ++ "-" ++ Py.zfill 2 (Py.month d) ++ "-"
  ++ Py.zfill 2 (Py.day d) ++ " " ++ Py.zfill 2 (Py.hour d) ++ ":"
  ++ Py.zfill 2 (Py.minute d) ++ ":" ++ Py.zfill 2 (Py.second d) ++ "."
  ++ Py.zfill 6 (Py.microsecond d).

End Sql.

(** ** What a handler call ends with *)
Module Http.

(** The exceptions that leave a handler, the ones the two files can be
    seen to raise by their names, any other by the name of its class. *)
Inductive exception : Type :=
| AttributeError
| ArgumentError
| OverflowError
| IntegrityError
| DataOverflowError
| IllegalCharacterError
| Raised (class_name : string).

Inductive outcome (A : Type) : Type :=
| OK (response : A)
| HTTPException (status_code : Z) (detail : string)
| Unhandled (e : exception).
Arguments OK {A} response.
Arguments HTTPException {A} status_code detail.
Arguments Unhandled {A} e.

(** What sorting by an attribute of the mapped class that is not a column
    does, given whether descending order was asked: an exception, or the
    rows in some order. *)
Definition ordering (A : Type) : Type :=
  bool -> exception + (A -> A -> comparison).

(** One entry of a pydantic [ValidationError]: the field and the message. *)
Record ErrorWrapper : Type := mk_error { loc : string; msg : string }.

Definition errors_of {A : Type} (field : string) (r : Py.raises A)
  : list ErrorWrapper :=
  match r with
  | Py.ValueError m => [mk_error field m]
  | Py.Return _ => []
  end.

End Http.

(** ** catalog.py: the minerals service *)
Module Catalog.
Import Py Http.

Inductive RarityType : Type := COMMON | UNCOMMON | RARE | EXTREMELY_RARE.

(** [r.value]; every member of this enumeration is named by its value, so
    this is also the text the [rarity] column stores. *)
Definition RarityType_value (r : RarityType) : string :=
  match r with
  | COMMON => "COMMON"
  | UNCOMMON => "UNCOMMON"
  | RARE => "RARE"
  | EXTREMELY_RARE => "EXTREMELY_RARE"
  end.

Definition RarityType_eqb (a b : RarityType) : bool :=
  match a, b with
  | COMMON, COMMON | UNCOMMON, UNCOMMON | RARE, RARE
  | EXTREMELY_RARE, EXTREMELY_RARE => true
  | _, _ => false
  end.

(** [RarityType(s)]: the member whose value is [s], if any. *)
Definition RarityType_of (s : string) : option RarityType :=
  if String.eqb s "COMMON" then Some COMMON
  else if String.eqb s "UNCOMMON" then Some UNCOMMON
  else if String.eqb s "RARE" then Some RARE
  else if String.eqb s "EXTREMELY_RARE" then Some EXTREMELY_RARE
  else None.

(** A row of the table [minerals]. *)
Module MineralDB.
Record t : Type := mk {
  catalog_id : string;
  name : string;
  chemical_formula : string;
  hardness : float;
  weight_carats : float;
  rarity : RarityType;
  origin_country : string;
  specimens_count : Z
}.
End MineralDB.

(** A candidate record: the fields of a request body, each already of its
    declared type, the rarity still the literal it was sent as. *)
Module Body.
Record t : Type := mk {
  catalog_id : string;
  name : string;
  chemical_formula : string;
  hardness : float;
  weight_carats : float;
  rarity : string;
  origin_country : string;
  specimens_count : Z
}.
End Body.

(** The pydantic model [Mineral] and its validators. *)
Module Mineral.
Record t : Type := mk {
  catalog_id : string;
  name : string;
  chemical_formula : string;
  hardness : float;
  weight_carats : float;
  rarity : RarityType;
  origin_country : string;
  specimens_count : Z
}.

Definition validator_catalog_id (catalog_id : string) : raises string :=
  if negb (re_match_id catalog_id)
  then ValueError "ID каталога должен иметь формат XX-1234"
  else Return catalog_id.

Definition validator_name (name : string) : raises string :=
  if len (strip name) <? 3
  then ValueError "Название минерала должно содержать минимум 3 символа"
  else Return name.

Definition validator_formula (chemical_formula : string) : raises string :=
  if negb (re_search isletter chemical_formula)
     || negb (re_search isdigit chemical_formula)
  then ValueError "Химическая формула должна содержать буквы и цифры"
  else Return chemical_formula.

Definition validator_hardness (hardness : float) : raises float :=
  if float_lt hardness (Finite 1) || float_lt (Finite 10) hardness
  then ValueError "Твердость должна быть от 1 до 10"
  else Return hardness.

Definition validator_weight (weight_carats : float) : raises float :=
  if float_le weight_carats (Finite 0)
  then ValueError "Вес в каратах должен быть положительным"
  else Return weight_carats.

Definition validator_country (origin_country : string) : raises string :=
  if len (strip origin_country) <? 2
  then ValueError "Название страны должно содержать минимум 2 символа"
  else Return origin_country.

Definition validator_count (specimens_count : Z) : raises Z :=
  if specimens_count <? 0
  then ValueError "Количество образцов не может быть отрицательным"
  else Return specimens_count.

(** The check pydantic makes itself for a field of type [RarityType]. *)
Definition enum_member (rarity : string) : raises RarityType :=
  match RarityType_of rarity with
  | Some r => Return r
  | None => ValueError "value is not a valid enumeration member"
  end.

(** Building a [Mineral] from a body: the fields are validated in the order they are
    declared, every failure is collected, and the model is built from
    what the validators return only when none failed. *)
Definition validate (body : Body.t) : list ErrorWrapper + t :=
  let r1 := validator_catalog_id (Body.catalog_id body) in
  let r2 := validator_name (Body.name body) in
  let r3 := validator_formula (Body.chemical_formula body) in
  let r4 := validator_hardness (Body.hardness body) in
  let r5 := validator_weight (Body.weight_carats body) in
  let r6 := enum_member (Body.rarity body) in
  let r7 := validator_country (Body.origin_country body) in
  let r8 := validator_count (Body.specimens_count body) in
  match r1, r2, r3, r4, r5, r6, r7, r8 with
  | Return v1, Return v2, Return v3, Return v4,
    Return v5, Return v6, Return v7, Return v8 =>
      inr (mk v1 v2 v3 v4 v5 v6 v7 v8)
  | _, _, _, _, _, _, _, _ =>
      inl (errors_of "catalog_id" r1 ++ errors_of "name" r2
           ++ errors_of "chemical_formula" r3 ++ errors_of "hardness" r4
           ++ errors_of "weight_carats" r5 ++ errors_of "rarity" r6
           ++ errors_of "origin_country" r7
           ++ errors_of "specimens_count" r8)%list
  end.

(** A value of [mineral.dict()]. *)
Inductive value : Type :=
| VStr (s : string)
| VFloat (x : float)
| VInt (n : Z)
| VRarity (r : RarityType).

(** [mineral.dict()], in declaration order. *)
Definition dict (mineral : t) : list (string * value) :=
  [("catalog_id", VStr (catalog_id mineral));
   ("name", VStr (name mineral));
   ("chemical_formula", VStr (chemical_formula mineral));
   ("hardness", VFloat (hardness mineral));
   ("weight_carats", VFloat (weight_carats mineral));
   ("rarity", VRarity (rarity mineral));
   ("origin_country", VStr (origin_country mineral));
   ("specimens_count", VInt (specimens_count mineral))].
End Mineral.

Definition table : Type := list MineralDB.t.

(** [MineralDB(kwargs)] for the keyword arguments of [mineral.dict()]. *)
Definition MineralDB_new (mineral : Mineral.t) : MineralDB.t :=
  MineralDB.mk (Mineral.catalog_id mineral) (Mineral.name mineral)
    (Mineral.chemical_formula mineral) (Mineral.hardness mineral)
    (Mineral.weight_carats mineral) (Mineral.rarity mineral)
    (Mineral.origin_country mineral) (Mineral.specimens_count mineral).

(** [setattr(db_mineral, key, value)] *)
Definition setattr (db_mineral : MineralDB.t) (key : string) (value : Mineral.value)
  : MineralDB.t :=
  let '(MineralDB.mk i n f h w r o c) := db_mineral in
  match value with
  | Mineral.VStr s =>
      if String.eqb key "catalog_id" then MineralDB.mk s n f h w r o c
      else if String.eqb key "name" then MineralDB.mk i s f h w r o c
      else if String.eqb key "chemical_formula" then MineralDB.mk i n s h w r o c
      else if String.eqb key "origin_country" then MineralDB.mk i n f h w r s c
      else db_mineral
  | Mineral.VFloat x =>
      if String.eqb key "hardness" then MineralDB.mk i n f x w r o c
      else if String.eqb key "weight_carats" then MineralDB.mk i n f h x r o c
      else db_mineral
  | Mineral.VInt k =>
      if String.eqb key "specimens_count" then MineralDB.mk i n f h w r o k
      else db_mineral
  | Mineral.VRarity x =>
      if String.eqb key "rarity" then MineralDB.mk i n f h w x o c
      else db_mineral
  end.

(** The columns of [MineralDB]. *)
Inductive column : Type :=
| Col_catalog_id | Col_name | Col_chemical_formula | Col_hardness
| Col_weight_carats | Col_rarity | Col_origin_country | Col_specimens_count.

(** What [getattr(MineralDB, attr)] finds: a column, or something else the
    class holds (the declarative base gives it [metadata], [__doc__] and
    the like). *)
Inductive attribute : Type :=
| Column (c : column)
| Other (o : ordering MineralDB.t).

(** The attributes of the class that are not columns. *)
Definition other_attributes : Type := string -> option (ordering MineralDB.t).

Definition column_named (attr : string) : option column :=
  if String.eqb attr "catalog_id" then Some Col_catalog_id
  else if String.eqb attr "name" then Some Col_name
  else if String.eqb attr "chemical_formula" then Some Col_chemical_formula
  else if String.eqb attr "hardness" then Some Col_hardness
  else if String.eqb attr "weight_carats" then Some Col_weight_carats
  else if String.eqb attr "rarity" then Some Col_rarity
  else if String.eqb attr "origin_country" then Some Col_origin_country
  else if String.eqb attr "specimens_count" then Some Col_specimens_count
  else None.

(** [getattr(MineralDB, attr)]; [None] when it raises [AttributeError]. *)
Definition getattr (others : other_attributes) (attr : string)
  : option attribute :=
  match column_named attr with
  | Some c => Some (Column c)
  | None => option_map Other (others attr)
  end.

(** The order of two rows on a column. *)
Definition compare_on (c : column) (a b : MineralDB.t) : comparison :=
  match c with
  | Col_catalog_id => String.compare (MineralDB.catalog_id a) (MineralDB.catalog_id b)
  | Col_name => String.compare (MineralDB.name a) (MineralDB.name b)
  | Col_chemical_formula =>
      String.compare (MineralDB.chemical_formula a) (MineralDB.chemical_formula b)
  | Col_hardness =>
      Sql.compare_real (MineralDB.hardness a) (MineralDB.hardness b)
  | Col_weight_carats =>
      Sql.compare_real (MineralDB.weight_carats a) (MineralDB.weight_carats b)
  | Col_rarity =>
      String.compare (RarityType_value (MineralDB.rarity a))
                     (RarityType_value (MineralDB.rarity b))
  | Col_origin_country =>
      String.compare (MineralDB.origin_country a) (MineralDB.origin_country b)
  | Col_specimens_count =>
      Z.compare (MineralDB.specimens_count a) (MineralDB.specimens_count b)
  end.

(** [query.order_by(...)] for an attribute that is not a column. *)
Definition order_by_other (o : ordering MineralDB.t) (descending : bool)
  (query : list MineralDB.t) : outcome (list MineralDB.t) :=
  match o descending with
  | inl e => Unhandled e
  | inr cmp => OK (Sql.order_by cmp query)
  end.

(** The [sort] step shared by both branches of [if sort:]. *)
Definition sorted (others : other_attributes) (sort : option string)
  (query : list MineralDB.t) : outcome (list MineralDB.t) :=
  match sort with
  | Some s =>
      if bool_str s then
        if startswith_minus s then
          match getattr others (slice_from_1 s) with
          | Some (Column c) => OK (Sql.order_by (Sql.desc (compare_on c)) query)
          | Some (Other o) => order_by_other o true query
          | None => Unhandled AttributeError
          end
        else
          match getattr others s with
          | Some (Column c) => OK (Sql.order_by (compare_on c) query)
          | Some (Other o) => order_by_other o false query
          | None => Unhandled AttributeError
          end
      else OK query
  | None => OK query
  end.

(** What writing a row raises, if anything: an integer that does not fit
    64 bits cannot be bound ([OverflowError]); a NaN is bound as [NULL],
    which the [NOT NULL] columns refuse ([IntegrityError]). *)
Definition write_error (row : MineralDB.t) : option exception :=
  if negb (Sql.int64 (MineralDB.specimens_count row)) then Some OverflowError
  else if isnan (MineralDB.hardness row) || isnan (MineralDB.weight_carats row)
       then Some IntegrityError
       else None.

(** First-row lookup by identifier:
    [db.query(MineralDB).filter(MineralDB.catalog_id == catalog_id).first()] *)
Definition first_by_id (catalog_id : string) (db : table) : option MineralDB.t :=
  Sql.first (filter (fun r => String.eqb (MineralDB.catalog_id r) catalog_id) db).

(** The table after the row found by [first_by_id] was changed by [f]. *)
Fixpoint update_row (catalog_id : string) (f : MineralDB.t -> MineralDB.t)
  (db : table) : table :=
  match db with
  | [] => []
  | r :: db' =>
      if String.eqb (MineralDB.catalog_id r) catalog_id
      then f r :: db'
      else r :: update_row catalog_id f db'
  end.

(** The table after the row found by [first_by_id] was deleted. *)
Fixpoint delete_row (catalog_id : string) (db : table) : table :=
  match db with
  | [] => []
  | r :: db' =>
      if String.eqb (MineralDB.catalog_id r) catalog_id
      then db'
      else r :: delete_row catalog_id db'
  end.

Record listing : Type := mk_listing { message : string; data : list MineralDB.t }.

Section Service.
(** [CAST(x AS VARCHAR)] of a [REAL] in SQLite, and Python's [str(x)]. *)
Variable cast_real : float -> string.
Variable str_float : float -> string.
(** The attributes of [MineralDB] that are not columns. *)
Variable others : other_attributes.
(** Whether the QR encoder can hold a text. *)
Variable qr_fits : string -> bool.

(** The disjunction of [ilike] conditions of the search filter. *)
Definition search_clause (search_pattern : string) (r : MineralDB.t) : bool :=
  Sql.ilike (MineralDB.catalog_id r) search_pattern
  || Sql.ilike (MineralDB.name r) search_pattern
  || Sql.ilike (MineralDB.chemical_formula r) search_pattern
  || Sql.ilike (MineralDB.origin_country r) search_pattern
  || Sql.ilike (cast_real (MineralDB.hardness r)) search_pattern
  || Sql.ilike (cast_real (MineralDB.weight_carats r)) search_pattern
  || Sql.ilike (str_int (MineralDB.specimens_count r)) search_pattern
  || Sql.ilike (RarityType_value (MineralDB.rarity r)) search_pattern.

(** The query [get_minerals] has built when it reaches the pagination:
    search, then the four exact filters, then the sort. *)
Definition minerals_query (catalog_id name : option string)
  (rarity : option RarityType) (origin_country search sort : option string)
  (db : table) : outcome (list MineralDB.t) :=
  let query := db in
  let query :=
    when_given search
      (fun search => filter (search_clause ("%" ++ search ++ "%"))) query in
  let query :=
    when_given catalog_id
      (fun v => filter (fun r => String.eqb (MineralDB.catalog_id r) v)) query in
  let query :=
    when_given name
      (fun v => filter (fun r => String.eqb (MineralDB.name r) v)) query in
  let query :=
    match rarity with
    | Some v => filter (fun r => RarityType_eqb (MineralDB.rarity r) v) query
    | None => query
    end in
  let query :=
    when_given origin_country
      (fun v => filter (fun r => String.eqb (MineralDB.origin_country r) v)) query in
  sorted others sort query.

Definition get_minerals (catalog_id name : option string)
  (rarity : option RarityType) (origin_country search sort : option string)
  (page per_page : Z) (db : table) : outcome listing :=
  match minerals_query catalog_id name rarity origin_country search sort db with
  | OK query =>
      let offset := (page - 1) * per_page in
      match Sql.offset offset query with
      | None => Unhandled OverflowError
      | Some skipped =>
          match Sql.limit per_page skipped with
          | None => Unhandled OverflowError
          | Some results =>
              OK {| message :=
                      "Найдено " ++ str_int (Z.of_nat (List.length results))
                      ++ " минералов на странице " ++ str_int page;
                    data := results |}
          end
      end
  | HTTPException c d => HTTPException c d
  | Unhandled e => Unhandled e
  end.

Definition create_mineral (mineral : Mineral.t) (db : table)
  : outcome (string * Mineral.t) * table :=
  match first_by_id (Mineral.catalog_id mineral) db with
  | Some _ => (HTTPException 400 "Минерал с таким ID уже существует", db)
  | None =>
      let db_mineral := MineralDB_new mineral in
      match write_error db_mineral with
      | Some e => (Unhandled e, db)
      | None => (OK ("Минерал добавлен", mineral), (db ++ [db_mineral])%list)
      end
  end.

Definition update_mineral (catalog_id : string) (mineral : Mineral.t) (db : table)
  : outcome (string * Mineral.t) * table :=
  if negb (String.eqb catalog_id (Mineral.catalog_id mineral))
  then (HTTPException 400 "ID в пути и теле не совпадают", db)
  else
    match first_by_id catalog_id db with
    | None => (HTTPException 404 "Минерал не найден", db)
    | Some db_mineral =>
        let assign db_mineral :=
          fold_left (fun row kv => setattr row (fst kv) (snd kv))
                    (Mineral.dict mineral) db_mineral in
        match write_error (assign db_mineral) with
        | Some e => (Unhandled e, db)
        | None =>
            (OK ("Минерал обновлён", mineral), update_row catalog_id assign db)
        end
    end.

Definition delete_mineral (catalog_id : string) (db : table)
  : outcome (string * string) * table :=
  match first_by_id catalog_id db with
  | None => (HTTPException 404 "Минерал не найден", db)
  | Some _ => (OK ("Минерал удалён", catalog_id), delete_row catalog_id db)
  end.

(** [get_mineral_qr]: the answer is the text that the image encodes; the
    encoder raises [DataOverflowError] when the text is beyond its largest
    symbol. *)
Definition get_mineral_qr (catalog_id : string) (db : table) : outcome string :=
  match first_by_id catalog_id db with
  | None => HTTPException 404 "Минерал не найден"
  | Some db_mineral =>
      let mineral_info :=
         ("Catalog ID: " ++ MineralDB.catalog_id db_mineral ++ nl
          ++ "Name: " ++ MineralDB.name db_mineral ++ nl
          ++ "Chemical Formula: " ++ MineralDB.chemical_formula db_mineral ++ nl
          ++ "Hardness: " ++ str_float (MineralDB.hardness db_mineral) ++ nl
          ++ "Weight (carats): " ++ str_float (MineralDB.weight_carats db_mineral) ++ nl
          ++ "Rarity: " ++ RarityType_value (MineralDB.rarity db_mineral) ++ nl
          ++ "Origin Country: " ++ MineralDB.origin_country db_mineral ++ nl
          ++ "Specimens Count: " ++ str_int (MineralDB.specimens_count db_mineral))
      in
      if qr_fits mineral_info then OK mineral_info
      else Unhandled DataOverflowError
  end.

(** A call of one of the five endpoints. *)
Inductive call : Type :=
| Get_minerals (catalog_id name : option string) (rarity : option RarityType)
    (origin_country search sort : option string) (page per_page : Z)
| Get_mineral_qr (catalog_id : string)
| Create_mineral (mineral : Mineral.t)
| Update_mineral (catalog_id : string) (mineral : Mineral.t)
| Delete_mineral (catalog_id : string).

Definition is_read (c : call) : bool :=
  match c with
  | Get_minerals _ _ _ _ _ _ _ _ | Get_mineral_qr _ => true
  | _ => false
  end.

(** The table a call leaves behind; the two [GET] handlers only select. *)
Definition table_after (c : call) (db : table) : table :=
  match c with
  | Get_minerals _ _ _ _ _ _ _ _ => db
  | Get_mineral_qr _ => db
  | Create_mineral mineral => snd (create_mineral mineral db)
  | Update_mineral catalog_id mineral => snd (update_mineral catalog_id mineral db)
  | Delete_mineral catalog_id => snd (delete_mineral catalog_id db)
  end.

Definition table_after_all (cs : list call) (db : table) : table :=
  fold_left (fun db c => table_after c db) cs db.

End Service.

(** The primary key: no two rows of the table share a [catalog_id]. *)
Definition primary_key (db : table) : Prop :=
  NoDup (map MineralDB.catalog_id db).

End Catalog.

(** ** Game.py: the games service *)
Module Game.
Import Py Http.

Inductive RatingType : Type := PEGI_3 | PEGI_7 | PEGI_12 | PEGI_16 | PEGI_18.

(** [r.value] *)
Definition RatingType_value (r : RatingType) : string :=
  match r with
  | PEGI_3 => "PEGI 3"
  | PEGI_7 => "PEGI 7"
  | PEGI_12 => "PEGI 12"
  | PEGI_16 => "PEGI 16"
  | PEGI_18 => "PEGI 18"
  end.

(** [r.name]: what an [Enum] column built from the class stores. *)
Definition RatingType_name (r : RatingType) : string :=
  match r with
  | PEGI_3 => "PEGI_3"
  | PEGI_7 => "PEGI_7"
  | PEGI_12 => "PEGI_12"
  | PEGI_16 => "PEGI_16"
  | PEGI_18 => "PEGI_18"
  end.

Definition RatingType_eqb (a b : RatingType) : bool :=
  match a, b with
  | PEGI_3, PEGI_3 | PEGI_7, PEGI_7 | PEGI_12, PEGI_12
  | PEGI_16, PEGI_16 | PEGI_18, PEGI_18 => true
  | _, _ => false
  end.

(** [RatingType(s)]: the member whose value is [s], if any. *)
Definition RatingType_of (s : string) : option RatingType :=
  if String.eqb s "PEGI 3" then Some PEGI_3
  else if String.eqb s "PEGI 7" then Some PEGI_7
  else if String.eqb s "PEGI 12" then Some PEGI_12
  else if String.eqb s "PEGI 16" then Some PEGI_16
  else if String.eqb s "PEGI 18" then Some PEGI_18
  else None.

(** A row of the table [games]; [rating] is the one nullable column. *)
Module GamesDB.
Record t : Type := mk {
  game_id : string;
  name : string;
  genre : string;
  platform : string;
  release_date : datetime;
  rating : option RatingType;
  description : string
}.
End GamesDB.

(** A candidate record, the rating still the literal it was sent as. *)
Module Body.
Record t : Type := mk {
  game_id : string;
  name : string;
  genre : string;
  platform : string;
  release_date : datetime;
  rating : string;
  description : string
}.
End Body.

(** The pydantic model [Games] and its validators. *)
Module Games.
Record t : Type := mk {
  game_id : string;
  name : string;
  genre : string;
  platform : string;
  release_date : datetime;
  rating : RatingType;
  description : string
}.

Definition validator_game_id (game_id : string) : raises string :=
  if negb (re_match_id game_id)
  then ValueError "ID игры должен иметь формат XX-1234"
  else Return game_id.

Definition validator_name (name : string) : raises string :=
  if len (strip name) <? 3
  then ValueError "Название игры должно содержать минимум 3 символа"
  else Return name.

Definition validator_description (description : string) : raises string :=
  if len (strip description) <? 20
  then ValueError "Описание игры должно содержать минимум 20 символов"
  else Return description.

Definition validator_genre (genre : string) : raises string :=
  if len (strip genre) <? 3
  then ValueError "Жанр игры должен содержать минимум 3 символа"
  else Return genre.

Definition validator_platform (platform : string) : raises string :=
  if len (strip platform) <? 3
  then ValueError "Платформа игры должна содержать минимум 3 символа"
  else Return platform.

(** [now] is what [datetime.now()] returns when the validator runs. *)
Definition validator_release_date (now release_date : datetime)
  : raises datetime :=
  if datetime_gt release_date now
  then ValueError "Дата релиза не может быть в будущем"
  else Return release_date.

(** The check pydantic makes itself for a field of type [RatingType]. *)
Definition enum_member (rating : string) : raises RatingType :=
  match RatingType_of rating with
  | Some r => Return r
  | None => ValueError "value is not a valid enumeration member"
  end.

(** Building a [Games] from a body: fields in declaration order, every
    failure collected. *)
Definition validate (now : datetime) (body : Body.t) : list ErrorWrapper + t :=
  let r1 := validator_game_id (Body.game_id body) in
  let r2 := validator_name (Body.name body) in
  let r3 := validator_genre (Body.genre body) in
  let r4 := validator_platform (Body.platform body) in
  let r5 := validator_release_date now (Body.release_date body) in
  let r6 := enum_member (Body.rating body) in
  let r7 := validator_description (Body.description body) in
  match r1, r2, r3, r4, r5, r6, r7 with
  | Return v1, Return v2, Return v3, Return v4,
    Return v5, Return v6, Return v7 =>
      inr (mk v1 v2 v3 v4 v5 v6 v7)
  | _, _, _, _, _, _, _ =>
      inl (errors_of "game_id" r1 ++ errors_of "name" r2
           ++ errors_of "genre" r3 ++ errors_of "platform" r4
           ++ errors_of "release_date" r5 ++ errors_of "rating" r6
           ++ errors_of "description" r7)%list
  end.

(** A value of [game.dict()]. *)
Inductive value : Type :=
| VStr (s : string)
| VDatetime (d : datetime)
| VRating (r : RatingType).

(** [game.dict()], in declaration order. *)
Definition dict (game : t) : list (string * value) :=
  [("game_id", VStr (game_id game));
   ("name", VStr (name game));
   ("genre", VStr (genre game));
   ("platform", VStr (platform game));
   ("release_date", VDatetime (release_date game));
   ("rating", VRating (rating game));
   ("description", VStr (description game))].
End Games.

Definition table : Type := list GamesDB.t.

(** [GamesDB(kwargs)] for the keyword arguments of [game.dict()]. *)
Definition GamesDB_new (game : Games.t) : GamesDB.t :=
  GamesDB.mk (Games.game_id game) (Games.name game) (Games.genre game)
    (Games.platform game) (Games.release_date game)
    (Some (Games.rating game)) (Games.description game).

(** [setattr(db_game, key, value)] *)
Definition setattr (db_game : GamesDB.t) (key : string) (value : Games.value)
  : GamesDB.t :=
  let '(GamesDB.mk i n g p d r t) := db_game in
  match value with
  | Games.VStr s =>
      if String.eqb key "game_id" then GamesDB.mk s n g p d r t
      else if String.eqb key "name" then GamesDB.mk i s g p d r t
      else if String.eqb key "genre" then GamesDB.mk i n s p d r t
      else if String.eqb key "platform" then GamesDB.mk i n g s d r t
      else if String.eqb key "description" then GamesDB.mk i n g p d r s
      else db_game
  | Games.VDatetime x =>
      if String.eqb key "release_date" then GamesDB.mk i n g p x r t
      else db_game
  | Games.VRating x =>
      if String.eqb key "rating" then GamesDB.mk i n g p d (Some x) t
      else db_game
  end.

(** The columns of [GamesDB]. *)
Inductive column : Type :=
| Col_game_id | Col_name | Col_genre | Col_platform | Col_release_date
| Col_rating | Col_description.

(** What [getattr(GamesDB, attr)] finds: a column, or something else the
    class holds. *)
Inductive attribute : Type :=
| Column (c : column)
| Other (o : ordering GamesDB.t).

(** The attributes of the class that are not columns. *)
Definition other_attributes : Type := string -> option (ordering GamesDB.t).

Definition column_named (attr : string) : option column :=
  if String.eqb attr "game_id" then Some Col_game_id
  else if String.eqb attr "name" then Some Col_name
  else if String.eqb attr "genre" then Some Col_genre
  else if String.eqb attr "platform" then Some Col_platform
  else if String.eqb attr "release_date" then Some Col_release_date
  else if String.eqb attr "rating" then Some Col_rating
  else if String.eqb attr "description" then Some Col_description
  else None.

(** [getattr(GamesDB, attr)]; [None] when it raises [AttributeError]. *)
Definition getattr (others : other_attributes) (attr : string)
  : option attribute :=
  match column_named attr with
  | Some c => Some (Column c)
  | None => option_map Other (others attr)
  end.

(** The text the [rating] column holds, [None] for [NULL]. *)
Definition rating_text (r : GamesDB.t) : option string :=
  option_map RatingType_name (GamesDB.rating r).

Definition compare_on (c : column) (a b : GamesDB.t) : comparison :=
  match c with
  | Col_game_id => String.compare (GamesDB.game_id a) (GamesDB.game_id b)
  | Col_name => String.compare (GamesDB.name a) (GamesDB.name b)
  | Col_genre => String.compare (GamesDB.genre a) (GamesDB.genre b)
  | Col_platform => String.compare (GamesDB.platform a) (GamesDB.platform b)
  | Col_release_date =>
      String.compare (Sql.DATETIME_text (GamesDB.release_date a))
                     (Sql.DATETIME_text (GamesDB.release_date b))
  | Col_rating => Sql.compare_null (rating_text a) (rating_text b)
  | Col_description =>
      String.compare (GamesDB.description a) (GamesDB.description b)
  end.

(** [query.order_by(...)] for an attribute that is not a column. *)
Definition order_by_other (o : ordering GamesDB.t) (descending : bool)
  (query : list GamesDB.t) : outcome (list GamesDB.t) :=
  match o descending with
  | inl e => Unhandled e
  | inr cmp => OK (Sql.order_by cmp query)
  end.

Definition sorted (others : other_attributes) (sort : option string)
  (query : list GamesDB.t) : outcome (list GamesDB.t) :=
  match sort with
  | Some s =>
      if bool_str s then
        if startswith_minus s then
          match getattr others (slice_from_1 s) with
          | Some (Column c) => OK (Sql.order_by (Sql.desc (compare_on c)) query)
          | Some (Other o) => order_by_other o true query
          | None => Unhandled AttributeError
          end
        else
          match getattr others s with
          | Some (Column c) => OK (Sql.order_by (compare_on c) query)
          | Some (Other o) => order_by_other o false query
          | None => Unhandled AttributeError
          end
      else OK query
  | None => OK query
  end.

(** [db.query(GamesDB).filter(GamesDB.game_id == game_id).first()] *)
Definition first_by_id (game_id : string) (db : table) : option GamesDB.t :=
  Sql.first (filter (fun r => String.eqb (GamesDB.game_id r) game_id) db).

Fixpoint update_row (game_id : string) (f : GamesDB.t -> GamesDB.t) (db : table)
  : table :=
  match db with
  | [] => []
  | r :: db' =>
      if String.eqb (GamesDB.game_id r) game_id
      then f r :: db'
      else r :: update_row game_id f db'
  end.

Fixpoint delete_row (game_id : string) (db : table) : table :=
  match db with
  | [] => []
  | r :: db' =>
      if String.eqb (GamesDB.game_id r) game_id
      then db'
      else r :: delete_row game_id db'
  end.

Record listing : Type := mk_listing { message : string; data : list GamesDB.t }.

(** The disjunction of [ilike] conditions of the search filter: six
    columns, [release_date] not among them. *)
Definition search_clause (search_pattern : string) (r : GamesDB.t) : bool :=
  Sql.ilike (GamesDB.game_id r) search_pattern
  || Sql.ilike (GamesDB.name r) search_pattern
  || Sql.ilike (GamesDB.genre r) search_pattern
  || Sql.ilike (GamesDB.platform r) search_pattern
  || Sql.ilike (GamesDB.description r) search_pattern
  || Sql.ilike_null (rating_text r) search_pattern.

(** The query [get_games] has built when it reaches the pagination;
    [others] are the attributes of [GamesDB] that are not columns. *)
Definition games_query (others : other_attributes)
  (game_id name genre platform : option string)
  (rating : option RatingType) (search sort : option string) (db : table)
  : outcome (list GamesDB.t) :=
  let query := db in
  let query :=
    when_given search
      (fun search => filter (search_clause ("%" ++ search ++ "%"))) query in
  let query :=
    when_given game_id
      (fun v => filter (fun r => String.eqb (GamesDB.game_id r) v)) query in
  let query :=
    when_given name
      (fun v => filter (fun r => String.eqb (GamesDB.name r) v)) query in
  let query :=
    when_given genre
      (fun v => filter (fun r => String.eqb (GamesDB.genre r) v)) query in
  let query :=
    when_given platform
      (fun v => filter (fun r => String.eqb (GamesDB.platform r) v)) query in
  let query :=
    match rating with
    | Some v =>
        filter (fun r => match GamesDB.rating r with
                         | Some x => RatingType_eqb x v
                         | None => false
                         end) query
    | None => query
    end in
  sorted others sort query.

Definition get_games (others : other_attributes)
  (game_id name genre platform : option string)
  (rating : option RatingType) (search sort : option string)
  (page per_page : Z) (db : table) : outcome listing :=
  match games_query others game_id name genre platform rating search sort db
  with
  | OK query =>
      let offset := (page - 1) * per_page in
      match Sql.offset offset query with
      | None => Unhandled OverflowError
      | Some skipped =>
          match Sql.limit per_page skipped with
          | None => Unhandled OverflowError
          | Some results =>
              OK {| message :=
                      "Найдено " ++ str_int (Z.of_nat (List.length results))
                      ++ " игр на странице " ++ str_int page;
                    data := results |}
          end
      end
  | HTTPException c d => HTTPException c d
  | Unhandled e => Unhandled e
  end.

Definition create_game (game : Games.t) (db : table)
  : outcome (string * Games.t) * table :=
  match first_by_id (Games.game_id game) db with
  | Some _ => (HTTPException 400 "Игра с таким ID уже существует", db)
  | None =>
      let db_game := GamesDB_new game in
      (OK ("Игра добавлена", game), (db ++ [db_game])%list)
  end.

Definition update_game (game_id : string) (game : Games.t) (db : table)
  : outcome (string * Games.t) * table :=
  if negb (String.eqb game_id (Games.game_id game))
  then (HTTPException 400 "ID в пути и теле не совпадают", db)
  else
    match first_by_id game_id db with
    | None => (HTTPException 404 "Игра не найдена", db)
    | Some _ =>
        let assign db_game :=
          fold_left (fun row kv => setattr row (fst kv) (snd kv))
                    (Games.dict game) db_game in
        (OK ("Игра обновлена", game), update_row game_id assign db)
    end.

Definition delete_game (game_id : string) (db : table)
  : outcome (string * string) * table :=
  match first_by_id game_id db with
  | None => (HTTPException 404 "Игра не найдена", db)
  | Some _ => (OK ("Игра удалена", game_id), delete_row game_id db)
  end.

(** A cell of an exported row. *)
Inductive cell : Type :=
| Text (s : string)
| Null
| Timestamp (d : datetime).

(** [game.rating.value if game.rating else None] *)
Definition rating_cell (game : GamesDB.t) : cell :=
  match GamesDB.rating game with
  | Some r => Text (RatingType_value r)
  | None => Null
  end.

(** What [export_games] hands to the encoder of each format (the writer of
    the spreadsheet raises [IllegalCharacterError] on a text cell with a
    control character): the rows given
    to [csv.writer], the list under ["data"], the records of the
    [DataFrame]. *)
Inductive document : Type :=
| Csv (rows : list (list cell))
| Json (data : list (list (string * cell)))
| Xlsx (frame : list (list (string * cell))).

Definition export_games (format : string) (db : table) : outcome document :=
  let games := db in
  if String.eqb format "csv" then
    OK (Csv ([Text "game_id"; Text "name"; Text "genre"; Text "platform";
              Text "release_date"; Text "rating"; Text "description"]
             :: map (fun game =>
                       [Text (GamesDB.game_id game); Text (GamesDB.name game);
                        Text (GamesDB.genre game); Text (GamesDB.platform game);
                        Text (isoformat (GamesDB.release_date game));
                        rating_cell game; Text (GamesDB.description game)])
                    games))
  else if String.eqb format "json" then
    OK (Json (map (fun game =>
                     [("game_id", Text (GamesDB.game_id game));
                      ("name", Text (GamesDB.name game));
                      ("genre", Text (GamesDB.genre game));
                      ("platform", Text (GamesDB.platform game));
                      ("release_date", Text (isoformat (GamesDB.release_date game)));
                      ("rating", rating_cell game);
                      ("description", Text (GamesDB.description game))])
                  games))
  else if String.eqb format "xlsx" then
    if existsb (fun game =>
                  existsb (re_search illegal_character)
                    [GamesDB.game_id game; GamesDB.name game; GamesDB.genre game;
                     GamesDB.platform game; GamesDB.description game])
               games
    then Unhandled IllegalCharacterError
    else
    OK (Xlsx (map (fun game =>
                     [("game_id", Text (GamesDB.game_id game));
                      ("name", Text (GamesDB.name game));
                      ("genre", Text (GamesDB.genre game));
                      ("platform", Text (GamesDB.platform game));
                      ("release_date", Timestamp (GamesDB.release_date game));
                      ("rating", rating_cell game);
                      ("description", Text (GamesDB.description game))])
                  games))
  else HTTPException 400 "Неподдерживаемый формат экспорта".

(** A call of one of the five endpoints. *)
Inductive call : Type :=
| Get_games (game_id name genre platform : option string)
    (rating : option RatingType) (search sort : option string) (page per_page : Z)
| Export_games (format : string)
| Create_game (game : Games.t)
| Update_game (game_id : string) (game : Games.t)
| Delete_game (game_id : string).

Definition is_read (c : call) : bool :=
  match c with
  | Get_games _ _ _ _ _ _ _ _ _ | Export_games _ => true
  | _ => false
  end.

(** The table a call leaves behind; the two [GET] handlers only select. *)
Definition table_after (c : call) (db : table) : table :=
  match c with
  | Get_games _ _ _ _ _ _ _ _ _ => db
  | Export_games _ => db
  | Create_game game => snd (create_game game db)
  | Update_game game_id game => snd (update_game game_id game db)
  | Delete_game game_id => snd (delete_game game_id db)
  end.

Definition table_after_all (cs : list call) (db : table) : table :=
  fold_left (fun db c => table_after c db) cs db.

(** The primary key: no two rows of the table share a [game_id]. *)
Definition primary_key (db : table) : Prop :=
  NoDup (map GamesDB.game_id db).

End Game.

(** ** The vocabulary of the specification *)
Module Spec.
Import Py Http.

(** The 26 letters, each as a capital and as a small letter. *)
Definition alphabet : list (ascii * ascii) :=
  combine (list_ascii_of_string "ABCDEFGHIJKLMNOPQRSTUVWXYZ")
          (list_ascii_of_string "abcdefghijklmnopqrstuvwxyz").

(** [a] and [b] are the same character, or the capital and the small form
    of one letter. *)
Definition same_letter (a b : ascii) : bool :=
  Ascii.eqb a b
  || existsb (fun p => (Ascii.eqb a (fst p) && Ascii.eqb b (snd p))
                       || (Ascii.eqb a (snd p) && Ascii.eqb b (fst p)))
             alphabet.

(** [needle] is a prefix of [text], up to the case of letters. *)
Fixpoint prefix_nocase (needle text : string) : bool :=
  match needle, text with
  | EmptyString, _ => true
  | String _ _, EmptyString => false
  | String a needle', String b text' =>
      same_letter a b && prefix_nocase needle' text'
  end.

(** [text] case-insensitively contains [needle] as a substring. *)
Fixpoint contains_nocase (needle text : string) : bool :=
  prefix_nocase needle text
  || match text with
     | EmptyString => false
     | String _ text' => contains_nocase needle text'
     end.

(** No character of [s] is one of the two LIKE wildcards or NUL. *)
Fixpoint plain (s : string) : bool :=
  match s with
  | EmptyString => true
  | String c s' =>
      negb (Ascii.eqb c "%") && negb (Ascii.eqb c "_")
      && negb (N_of_ascii c =? 0)%N && plain s'
  end.

(** Some text among [texts] contains [search], case-insensitively. *)
Definition search_includes (search : string) (texts : list string) : bool :=
  existsb (contains_nocase search) texts.

(** Every field of a mineral, cast to text. *)
Definition mineral_texts (cast_real : float -> string) (r : Catalog.MineralDB.t)
  : list string :=
  [Catalog.MineralDB.catalog_id r; Catalog.MineralDB.name r;
   Catalog.MineralDB.chemical_formula r; Catalog.MineralDB.origin_country r;
   cast_real (Catalog.MineralDB.hardness r);
   cast_real (Catalog.MineralDB.weight_carats r);
   str_int (Catalog.MineralDB.specimens_count r);
   Catalog.RarityType_value (Catalog.MineralDB.rarity r)].

(** The text of a nullable column, nothing for [NULL]. *)
Definition text_if_any (column : option string) : list string :=
  match column with Some s => [s] | None => [] end.

(** The fields of a game other than the release date, cast to text. *)
Definition game_texts_but_date (r : Game.GamesDB.t) : list string :=
  ([Game.GamesDB.game_id r; Game.GamesDB.name r; Game.GamesDB.genre r;
    Game.GamesDB.platform r; Game.GamesDB.description r]
   ++ text_if_any (Game.rating_text r))%list.

(** Every field of a game, the release date among them, cast to text. *)
Definition game_texts (r : Game.GamesDB.t) : list string :=
  Sql.DATETIME_text (Game.GamesDB.release_date r) :: game_texts_but_date r.

(** The field a sort specifier names: what follows an optional ["-"]. *)
Definition sort_field (sort : string) : string :=
  if startswith_minus sort then slice_from_1 sort else sort.

(** The page numbers [1..N]. *)
Definition pages (N : nat) : list Z := map Z.of_nat (seq 1 N).

(** The records a list call answers with (none when it fails). *)
Definition minerals_of (o : outcome Catalog.listing) : list Catalog.MineralDB.t :=
  match o with OK l => Catalog.data l | _ => [] end.

Definition games_of (o : outcome Game.listing) : list Game.GamesDB.t :=
  match o with OK l => Game.data l | _ => [] end.

(** A validator hands back the very value it was given. *)
Definition returns_its_input {A : Type} (validator : A -> raises A) : Prop :=
  forall x v, validator x = Return v -> v = x.

Definition raised {A : Type} (r : raises A) : bool :=
  match r with ValueError _ => true | Return _ => false end.

(** The first field, in declaration order, whose check raised. *)
Fixpoint first_failing (checks : list (string * bool)) : option string :=
  match checks with
  | [] => None
  | (field, failed) :: checks' =>
      if failed then Some field else first_failing checks'
  end.

Definition mineral_checks (body : Catalog.Body.t) : list (string * bool) :=
  [("catalog_id", raised (Catalog.Mineral.validator_catalog_id (Catalog.Body.catalog_id body)));
   ("name", raised (Catalog.Mineral.validator_name (Catalog.Body.name body)));
   ("chemical_formula",
    raised (Catalog.Mineral.validator_formula (Catalog.Body.chemical_formula body)));
   ("hardness", raised (Catalog.Mineral.validator_hardness (Catalog.Body.hardness body)));
   ("weight_carats",
    raised (Catalog.Mineral.validator_weight (Catalog.Body.weight_carats body)));
   ("rarity", raised (Catalog.Mineral.enum_member (Catalog.Body.rarity body)));
   ("origin_country",
    raised (Catalog.Mineral.validator_country (Catalog.Body.origin_country body)));
   ("specimens_count",
    raised (Catalog.Mineral.validator_count (Catalog.Body.specimens_count body)))].

Definition game_checks (now : datetime) (body : Game.Body.t) : list (string * bool) :=
  [("game_id", raised (Game.Games.validator_game_id (Game.Body.game_id body)));
   ("name", raised (Game.Games.validator_name (Game.Body.name body)));
   ("genre", raised (Game.Games.validator_genre (Game.Body.genre body)));
   ("platform", raised (Game.Games.validator_platform (Game.Body.platform body)));
   ("release_date",
    raised (Game.Games.validator_release_date now (Game.Body.release_date body)));
   ("rating", raised (Game.Games.enum_member (Game.Body.rating body)));
   ("description",
    raised (Game.Games.validator_description (Game.Body.description body)))].

(** The model holds the candidate's fields exactly as they were sent. *)
Definition mineral_as_sent (body : Catalog.Body.t) (m : Catalog.Mineral.t) : Prop :=
  Catalog.Mineral.catalog_id m = Catalog.Body.catalog_id body
  /\ Catalog.Mineral.name m = Catalog.Body.name body
  /\ Catalog.Mineral.chemical_formula m = Catalog.Body.chemical_formula body
  /\ Catalog.Mineral.hardness m = Catalog.Body.hardness body
  /\ Catalog.Mineral.weight_carats m = Catalog.Body.weight_carats body
  /\ Catalog.RarityType_value (Catalog.Mineral.rarity m) = Catalog.Body.rarity body
  /\ Catalog.Mineral.origin_country m = Catalog.Body.origin_country body
  /\ Catalog.Mineral.specimens_count m = Catalog.Body.specimens_count body.

Definition game_as_sent (body : Game.Body.t) (g : Game.Games.t) : Prop :=
  Game.Games.game_id g = Game.Body.game_id body
  /\ Game.Games.name g = Game.Body.name body
  /\ Game.Games.genre g = Game.Body.genre body
  /\ Game.Games.platform g = Game.Body.platform body
  /\ Game.Games.release_date g = Game.Body.release_date body
  /\ Game.RatingType_value (Game.Games.rating g) = Game.Body.rating body
  /\ Game.Games.description g = Game.Body.description body.

(** The scenario records of the specification, and padded variants. *)
Definition quartz_body : Catalog.Body.t :=
  Catalog.Body.mk "AB-1234" "Quartz" "SiO2" (Finite 7) (Finite (5 # 2)) "COMMON" "Brazil" 5.

Definition quartz : Catalog.Mineral.t :=
  Catalog.Mineral.mk "AB-1234" "Quartz" "SiO2" (Finite 7) (Finite (5 # 2)) Catalog.COMMON "Brazil" 5.

Definition padded_quartz_body : Catalog.Body.t :=
  Catalog.Body.mk "AB-1234" "  Quartz  " "SiO2" (Finite 7) (Finite (5 # 2)) "COMMON" " Brazil" 5.

Definition padded_quartz : Catalog.Mineral.t :=
  Catalog.Mineral.mk "AB-1234" "  Quartz  " "SiO2" (Finite 7) (Finite (5 # 2)) Catalog.COMMON " Brazil" 5.

Definition noon : datetime := mk_datetime 2025 4 6 12 0 0 0.

Definition tetris_body : Game.Body.t :=
  Game.Body.mk "AB-0001" "Tetris" "Puzzle" "Game Boy"
    (mk_datetime 1989 6 14 0 0 0 0) "PEGI 3"
    "Falling blocks to be stacked in rows".

Definition tetris : Game.Games.t :=
  Game.Games.mk "AB-0001" "Tetris" "Puzzle" "Game Boy"
    (mk_datetime 1989 6 14 0 0 0 0) Game.PEGI_3
    "Falling blocks to be stacked in rows".

Definition beryl : Catalog.Mineral.t :=
  Catalog.Mineral.mk "CD-0002" "Beryl" "Be3Al2Si6O18" (Finite (15 # 2)) (Finite 4)
    Catalog.RARE "Brazil" 2.

Definition topaz : Catalog.Mineral.t :=
  Catalog.Mineral.mk "EF-0003" "Topaz" "Al2SiO4F2" (Finite 8) (Finite 1)
    Catalog.UNCOMMON "Russia" 0.

Definition three_minerals : Catalog.table :=
  map Catalog.MineralDB_new [quartz; beryl; topaz].

Definition doom : Game.Games.t :=
  Game.Games.mk "AB-0002" "Doom" "Shooter" "MS-DOS"
    (mk_datetime 1993 12 10 0 0 0 0) Game.PEGI_18
    "Demons are fought on the moons of Mars".

Definition two_games : Game.table := map Game.GamesDB_new [tetris; doom].

(** Bodies for an update of the second record of each table: every field
    but the identifier differs from the stored one. *)
Definition emerald : Catalog.Mineral.t :=
  Catalog.Mineral.mk "CD-0002" "Emerald" "Be3Al2Si6O18Cr" (Finite 8) (Finite 3)
    Catalog.EXTREMELY_RARE "Colombia" 1.

Definition doom_64 : Game.Games.t :=
  Game.Games.mk "AB-0002" "Doom 64" "Horror" "Nintendo 64"
    (mk_datetime 1997 3 31 0 0 0 0) Game.PEGI_16
    "Demons are fought once more, on a console".

(** A printer of floats for the concrete examples; every statement below
    holds for any printer. *)
Definition show_real (x : float) : string :=
  match x with
  | Finite q => str_int (Qnum q) ++ "/" ++ str_int (Zpos (Qden q))
  | Infinity negative => if negative then "-Inf" else "Inf"
  | NaN => "NaN"
  end.

(** Two of the names the declarative base gives a mapped class, for the
    concrete examples: [__doc__] holds [None], which sorts nothing and has
    no [desc]; [metadata] is not something to sort by.  Every statement
    below holds whatever the class holds besides its columns. *)
Definition base_attributes {A : Type} (attr : string) : option (ordering A) :=
  if String.eqb attr "__doc__" then
    Some (fun descending : bool =>
            if descending then inl AttributeError
            else inr (fun _ _ : A => Eq))
  else if String.eqb attr "metadata" then
    Some (fun descending : bool =>
            if descending then inl AttributeError else inl ArgumentError)
  else None.

(** A capacity of the QR encoder for the concrete examples. *)
Definition qr_holds (text : string) : bool :=
  (String.length text <=? 2953)%nat.

(** A row holds the fields of a body exactly as they were sent. *)
Definition mineral_row_as_sent (body : Catalog.Body.t) (row : Catalog.MineralDB.t)
  : Prop :=
  Catalog.MineralDB.catalog_id row = Catalog.Body.catalog_id body
  /\ Catalog.MineralDB.name row = Catalog.Body.name body
  /\ Catalog.MineralDB.chemical_formula row = Catalog.Body.chemical_formula body
  /\ Catalog.MineralDB.hardness row = Catalog.Body.hardness body
  /\ Catalog.MineralDB.weight_carats row = Catalog.Body.weight_carats body
  /\ Catalog.RarityType_value (Catalog.MineralDB.rarity row)
     = Catalog.Body.rarity body
  /\ Catalog.MineralDB.origin_country row = Catalog.Body.origin_country body
  /\ Catalog.MineralDB.specimens_count row = Catalog.Body.specimens_count body.

Definition game_row_as_sent (body : Game.Body.t) (row : Game.GamesDB.t) : Prop :=
  Game.GamesDB.game_id row = Game.Body.game_id body
  /\ Game.GamesDB.name row = Game.Body.name body
  /\ Game.GamesDB.genre row = Game.Body.genre body
  /\ Game.GamesDB.platform row = Game.Body.platform body
  /\ Game.GamesDB.release_date row = Game.Body.release_date body
  /\ option_map Game.RatingType_value (Game.GamesDB.rating row)
     = Some (Game.Body.rating body)
  /\ Game.GamesDB.description row = Game.Body.description body.

(** A mineral that passes validation and cannot be stored: its count does
    not fit 64 bits. *)
Definition countless_quartz : Catalog.Mineral.t :=
  Catalog.Mineral.mk "AB-1234" "Quartz" "SiO2" (Finite 7) (Finite (5 # 2))
    Catalog.COMMON "Brazil" (2 ^ 63).

End Spec.

(** ** Further notions used to state what the handlers do *)
Module Notions.
Import Py Http.

(** The body that sends a model again: every field as the model holds it,
    the enumeration member by its value. *)
Definition mineral_body (m : Catalog.Mineral.t) : Catalog.Body.t :=
  Catalog.Body.mk (Catalog.Mineral.catalog_id m) (Catalog.Mineral.name m)
    (Catalog.Mineral.chemical_formula m) (Catalog.Mineral.hardness m)
    (Catalog.Mineral.weight_carats m)
    (Catalog.RarityType_value (Catalog.Mineral.rarity m))
    (Catalog.Mineral.origin_country m) (Catalog.Mineral.specimens_count m).

Definition game_body (g : Game.Games.t) : Game.Body.t :=
  Game.Body.mk (Game.Games.game_id g) (Game.Games.name g) (Game.Games.genre g)
    (Game.Games.platform g) (Game.Games.release_date g)
    (Game.RatingType_value (Game.Games.rating g)) (Game.Games.description g).

(** Every character of [s] is whitespace. *)
Fixpoint blank (s : string) : bool :=
  match s with
  | EmptyString => true
  | String c s' => isspace c && blank s'
  end.

(** Every character of [s] is the wildcard [%]. *)
Fixpoint percents (s : string) : bool :=
  match s with
  | EmptyString => true
  | String c s' => Ascii.eqb c "%" && percents s'
  end.

(** The condition an optional exact filter puts on a field: none when the
    parameter is absent or empty, equality otherwise. *)
Definition passes (p : option string) (field : string) : bool :=
  match p with
  | Some v => if bool_str v then String.eqb field v else true
  | None => true
  end.

(** The condition an optional search puts on a row, given the disjunction
    [clause] of the service. *)
Definition found {A : Type} (search : option string) (clause : string -> A -> bool)
  (r : A) : bool :=
  match search with
  | Some s => if bool_str s then clause ("%" ++ s ++ "%") r else true
  | None => true
  end.

(** A mineral passes the search and every filter that was supplied. *)
Definition mineral_selected (cast_real : float -> string)
  (catalog_id name : option string) (rarity : option Catalog.RarityType)
  (origin_country search : option string) (r : Catalog.MineralDB.t) : bool :=
  found search (Catalog.search_clause cast_real) r
  && passes catalog_id (Catalog.MineralDB.catalog_id r)
  && passes name (Catalog.MineralDB.name r)
  && match rarity with
     | Some v => Catalog.RarityType_eqb (Catalog.MineralDB.rarity r) v
     | None => true
     end
  && passes origin_country (Catalog.MineralDB.origin_country r).

(** A game passes the search and every filter that was supplied. *)
Definition game_selected (game_id name genre platform : option string)
  (rating : option Game.RatingType) (search : option string)
  (r : Game.GamesDB.t) : bool :=
  found search Game.search_clause r
  && passes game_id (Game.GamesDB.game_id r)
  && passes name (Game.GamesDB.name r)
  && passes genre (Game.GamesDB.genre r)
  && passes platform (Game.GamesDB.platform r)
  && match rating with
     | Some v =>
         match Game.GamesDB.rating r with
         | Some x => Game.RatingType_eqb x v
         | None => false
         end
     | None => true
     end.

(** The order a sort specifier asks for between two neighbouring rows:
    not descending for a plain name, not ascending after a ["-"]. *)
Definition in_order {A : Type} (sort : string) (cmp : A -> A -> comparison)
  (a b : A) : Prop :=
  if startswith_minus sort then cmp a b <> Lt else cmp a b <> Gt.

(** Every row of a games table has a rating. *)
Definition rated (db : Game.table) : Prop :=
  Forall (fun r => Game.GamesDB.rating r <> None) db.

(** The seven column names, as the three export formats head their data. *)
Definition export_header : list string :=
  ["game_id"; "name"; "genre"; "platform"; "release_date"; "rating";
   "description"].

(** The rows from [offset] on, [limit] of them at most (all of them for a
    negative [limit]): what the two page parameters select when both can be
    bound. *)
Definition slice {A : Type} (offset limit : Z) (rows : list A) : list A :=
  let skipped := skipn (Z.to_nat offset) rows in
  if limit <? 0 then skipped else firstn (Z.to_nat limit) skipped.

(** The rows of a query that succeeded (none when it failed). *)
Definition rows {A : Type} (o : outcome (list A)) : list A :=
  match o with OK l => l | _ => [] end.

End Notions.

(** * Properties *)

(** ** Lists and pages *)
Section Paging.
Context {A : Type}.

Lemma firstn_plus (a b : nat) (l : list A) :
  firstn (a + b) l = (firstn a l ++ firstn b (skipn a l))%list.
Proof.
  revert l; induction a as [|a IH]; intros l; simpl.
  - reflexivity.
  - destruct l as [|x l]; simpl.
    + now rewrite firstn_nil.
    + now rewrite IH.
Qed.

Lemma pages_concat (k : nat) (l : list A) (N : nat) :
  flat_map (fun p => firstn k (skipn ((p - 1) * k) l)) (seq 1 N)
  = firstn (N * k) l.
Proof.
  induction N as [|N IH].
  - reflexivity.
  - rewrite seq_S, flat_map_app, IH. simpl flat_map.
    rewrite app_nil_r.
    rewrite Nat.sub_0_r.
    replace (S N * k)%nat with (N * k + k)%nat by lia.
    now rewrite firstn_plus.
Qed.

Lemma slice_in_range (page per_page : Z) (l : list A) :
  1 <= per_page ->
  Notions.slice ((page - 1) * per_page) per_page l
  = firstn (Z.to_nat per_page) (skipn (Z.to_nat ((page - 1) * per_page)) l).
Proof.
  intros Hk. unfold Notions.slice.
  destruct (per_page <? 0) eqn:E; [apply Z.ltb_lt in E; lia | reflexivity].
Qed.

Lemma pages_cover (per_page : Z) (l : list A) (N : nat) :
  1 <= per_page ->
  Z.of_nat (List.length l) <= Z.of_nat N * per_page ->
  flat_map (fun page => Notions.slice ((page - 1) * per_page) per_page l)
           (Spec.pages N)
  = l.
Proof.
  intros Hk Hlen. unfold Spec.pages. rewrite flat_map_concat_map, map_map.
  rewrite <- flat_map_concat_map.
  erewrite flat_map_ext.
  - rewrite (pages_concat (Z.to_nat per_page) l N).
    apply firstn_all2. nia.
  - intros p. simpl. rewrite slice_in_range by assumption.
    do 2 f_equal. destruct p as [|p].
    + simpl. destruct per_page; try lia; reflexivity.
    + replace (Z.of_nat (S p) - 1) with (Z.of_nat p) by lia.
      rewrite Z2Nat.inj_mul, Nat2Z.id by lia.
      f_equal. lia.
Qed.
Lemma in_skipn (n : nat) (l : list A) (x : A) : In x (skipn n l) -> In x l.
Proof.
  intros H. rewrite <- (firstn_skipn n l). apply in_or_app. now right.
Qed.

Lemma in_firstn (n : nat) (l : list A) (x : A) : In x (firstn n l) -> In x l.
Proof.
  intros H. rewrite <- (firstn_skipn n l). apply in_or_app. now left.
Qed.

Lemma slice_incl (offset limit : Z) (l : list A) (x : A) :
  In x (Notions.slice offset limit l) -> In x l.
Proof.
  unfold Notions.slice. intros H.
  destruct (limit <? 0).
  - eapply in_skipn; eauto.
  - apply in_firstn in H. eapply in_skipn; eauto.
Qed.


Lemma int64_iff (n : Z) : Sql.int64 n = true <-> - 2 ^ 63 <= n < 2 ^ 63.
Proof.
  unfold Sql.int64. rewrite andb_true_iff, Z.leb_le, Z.ltb_lt. tauto.
Qed.

(** The two page parameters, when both can be bound. *)
Lemma fetch_in_range (offset limit : Z) (l : list A) :
  Sql.int64 offset = true ->
  Sql.int64 limit = true ->
  Sql.offset offset l = Some (skipn (Z.to_nat offset) l)
  /\ Sql.limit limit (skipn (Z.to_nat offset) l)
     = Some (Notions.slice offset limit l).
Proof.
  intros Ho Hl. unfold Sql.offset, Sql.limit, Notions.slice.
  now rewrite Ho, Hl.
Qed.

End Paging.

(** A list call whose query succeeds and whose page parameters can be bound
    answers with the slice of the query. *)
Lemma mineral_page (cast_real : Py.float -> string)
  (others : Catalog.other_attributes) (catalog_id name : option string)
  (rarity : option Catalog.RarityType)
  (origin_country search sort : option string) (page per_page : Z)
  (db : Catalog.table) (query : list Catalog.MineralDB.t) :
  Catalog.minerals_query cast_real others catalog_id name rarity origin_country
    search sort db = Http.OK query ->
  Sql.int64 ((page - 1) * per_page) = true ->
  Sql.int64 per_page = true ->
  exists message,
    Catalog.get_minerals cast_real others catalog_id name rarity origin_country
      search sort page per_page db
    = Http.OK (Catalog.mk_listing message
                 (Notions.slice ((page - 1) * per_page) per_page query)).
Proof.
  intros Hq Ho Hl. unfold Catalog.get_minerals. rewrite Hq.
  destruct (fetch_in_range ((page - 1) * per_page) per_page query Ho Hl)
    as [H1 H2].
  rewrite H1, H2. eexists. reflexivity.
Qed.

Lemma game_page (others : Game.other_attributes)
  (game_id name genre platform : option string)
  (rating : option Game.RatingType) (search sort : option string)
  (page per_page : Z) (db : Game.table) (query : list Game.GamesDB.t) :
  Game.games_query others game_id name genre platform rating search sort db
  = Http.OK query ->
  Sql.int64 ((page - 1) * per_page) = true ->
  Sql.int64 per_page = true ->
  exists message,
    Game.get_games others game_id name genre platform rating search sort
      page per_page db
    = Http.OK (Game.mk_listing message
                 (Notions.slice ((page - 1) * per_page) per_page query)).
Proof.
  intros Hq Ho Hl. unfold Game.get_games. rewrite Hq.
  destruct (fetch_in_range ((page - 1) * per_page) per_page query Ho Hl)
    as [H1 H2].
  rewrite H1, H2. eexists. reflexivity.
Qed.

(** Conversely, a list call that answers had a query that succeeded and page
    parameters that could be bound. *)
Lemma mineral_page_inv (cast_real : Py.float -> string)
  (others : Catalog.other_attributes) (catalog_id name : option string)
  (rarity : option Catalog.RarityType)
  (origin_country search sort : option string) (page per_page : Z)
  (db : Catalog.table) (listing : Catalog.listing) :
  Catalog.get_minerals cast_real others catalog_id name rarity origin_country
    search sort page per_page db = Http.OK listing ->
  exists query,
    Catalog.minerals_query cast_real others catalog_id name rarity
      origin_country search sort db = Http.OK query
    /\ Sql.int64 ((page - 1) * per_page) = true
    /\ Sql.int64 per_page = true
    /\ Catalog.data listing
       = Notions.slice ((page - 1) * per_page) per_page query.
Proof.
  unfold Catalog.get_minerals, Sql.offset, Sql.limit, Notions.slice.
  destruct (Catalog.minerals_query _ _ _ _ _ _ _ _ _) as [q| |];
    try discriminate.
  destruct (Sql.int64 ((page - 1) * per_page)); [|discriminate].
  destruct (Sql.int64 per_page); [|discriminate].
  intros H. injection H as <-. exists q. repeat split.
Qed.

Lemma game_page_inv (others : Game.other_attributes)
  (game_id name genre platform : option string)
  (rating : option Game.RatingType) (search sort : option string)
  (page per_page : Z) (db : Game.table) (listing : Game.listing) :
  Game.get_games others game_id name genre platform rating search sort
    page per_page db = Http.OK listing ->
  exists query,
    Game.games_query others game_id name genre platform rating search sort db
    = Http.OK query
    /\ Sql.int64 ((page - 1) * per_page) = true
    /\ Sql.int64 per_page = true
    /\ Game.data listing
       = Notions.slice ((page - 1) * per_page) per_page query.
Proof.
  unfold Game.get_games, Sql.offset, Sql.limit, Notions.slice.
  destruct (Game.games_query _ _ _ _ _ _ _ _ _) as [q| |];
    try discriminate.
  destruct (Sql.int64 ((page - 1) * per_page)); [|discriminate].
  destruct (Sql.int64 per_page); [|discriminate].
  intros H. injection H as <-. exists q. repeat split.
Qed.

(** A page parameter that cannot be bound makes a list call whose query
    succeeds end with an unhandled [OverflowError]. *)
Lemma mineral_page_overflow (cast_real : Py.float -> string)
  (others : Catalog.other_attributes) (catalog_id name : option string)
  (rarity : option Catalog.RarityType)
  (origin_country search sort : option string) (page per_page : Z)
  (db : Catalog.table) (query : list Catalog.MineralDB.t) :
  Catalog.minerals_query cast_real others catalog_id name rarity origin_country
    search sort db = Http.OK query ->
  Sql.int64 ((page - 1) * per_page) && Sql.int64 per_page = false ->
  Catalog.get_minerals cast_real others catalog_id name rarity origin_country
    search sort page per_page db
  = Http.Unhandled Http.OverflowError.
Proof.
  intros Hq H. unfold Catalog.get_minerals, Sql.offset, Sql.limit. rewrite Hq.
  destruct (Sql.int64 ((page - 1) * per_page)); [|reflexivity].
  simpl in H. now rewrite H.
Qed.

Lemma game_page_overflow (others : Game.other_attributes)
  (game_id name genre platform : option string)
  (rating : option Game.RatingType) (search sort : option string)
  (page per_page : Z) (db : Game.table) (query : list Game.GamesDB.t) :
  Game.games_query others game_id name genre platform rating search sort db
  = Http.OK query ->
  Sql.int64 ((page - 1) * per_page) && Sql.int64 per_page = false ->
  Game.get_games others game_id name genre platform rating search sort
    page per_page db
  = Http.Unhandled Http.OverflowError.
Proof.
  intros Hq H. unfold Game.get_games, Sql.offset, Sql.limit. rewrite Hq.
  destruct (Sql.int64 ((page - 1) * per_page)); [|reflexivity].
  simpl in H. now rewrite H.
Qed.

(** ** The query pipeline *)

(** C7, as the code has it.  The page parameters are bound to the statement
    as they come, so they have to fit 64 bits.  For a fixed search, filters
    and sort whose query succeeds, a fixed [per_page >= 1] and a number [N]
    of pages with [N * per_page < 2^63], every page [1 <= p <= N] of either
    list endpoint is the slice of the filtered and sorted result that skips
    [(p-1)*per_page] rows and takes [per_page] rows, and the pages [1..N]
    laid end to end are exactly that result (every row of it once, with no
    gap) as soon as [N*per_page] reaches its length. *)
Theorem pagination_covers_the_result :
  forall (cast_real : Py.float -> string) (m_others : Catalog.other_attributes)
         (g_others : Game.other_attributes) (per_page : Z) (N : nat),
    1 <= per_page ->
    Z.of_nat N * per_page < 2 ^ 63 ->
    (forall catalog_id name rarity origin_country search sort db query,
        Catalog.minerals_query cast_real m_others catalog_id name rarity
          origin_country search sort db = Http.OK query ->
        (forall page,
            1 <= page <= Z.of_nat N ->
            exists message,
              Catalog.get_minerals cast_real m_others catalog_id name rarity
                origin_country search sort page per_page db
              = Http.OK
                  (Catalog.mk_listing message
                     (firstn (Z.to_nat per_page)
                        (skipn (Z.to_nat ((page - 1) * per_page)) query))))
        /\ (Z.of_nat (List.length query) <= Z.of_nat N * per_page ->
            flat_map
              (fun page =>
                 Spec.minerals_of
                   (Catalog.get_minerals cast_real m_others catalog_id name
                      rarity origin_country search sort page per_page db))
              (Spec.pages N)
            = query))
    /\ (forall game_id name genre platform rating search sort db query,
        Game.games_query g_others game_id name genre platform rating search
          sort db = Http.OK query ->
        (forall page,
            1 <= page <= Z.of_nat N ->
            exists message,
              Game.get_games g_others game_id name genre platform rating
                search sort page per_page db
              = Http.OK
                  (Game.mk_listing message
                     (firstn (Z.to_nat per_page)
                        (skipn (Z.to_nat ((page - 1) * per_page)) query))))
        /\ (Z.of_nat (List.length query) <= Z.of_nat N * per_page ->
            flat_map
              (fun page =>
                 Spec.games_of
                   (Game.get_games g_others game_id name genre platform rating
                      search sort page per_page db))
              (Spec.pages N)
            = query)).
Proof.
  intros cast_real m_others g_others per_page N Hk HN.
  assert (Hfit : forall page,
             1 <= page <= Z.of_nat N ->
             Sql.int64 ((page - 1) * per_page) = true
             /\ Sql.int64 per_page = true).
  { intros page Hp. split; apply int64_iff; nia. }
  assert (Hpages : forall page, In page (Spec.pages N) -> 1 <= page <= Z.of_nat N).
  { intros page Hin. unfold Spec.pages in Hin.
    apply in_map_iff in Hin as (p & <- & Hp). apply in_seq in Hp. lia. }
  split.
  - intros cid name rarity oc search sort db query Hq. split.
    + intros page Hp. destruct (Hfit page Hp) as [Ho Hl].
      destruct (mineral_page _ _ _ _ _ _ _ _ page per_page _ _ Hq Ho Hl)
        as [message Hget].
      exists message. rewrite Hget. now rewrite slice_in_range.
    + intros Hlen.
      etransitivity; [|exact (pages_cover per_page query N Hk Hlen)].
      rewrite !flat_map_concat_map. f_equal. apply map_ext_in.
      intros page Hin. destruct (Hfit page (Hpages page Hin)) as [Ho Hl].
      destruct (mineral_page _ _ _ _ _ _ _ _ page per_page _ _ Hq Ho Hl)
        as [message Hget].
      now rewrite Hget.
  - intros gid name genre platform rating search sort db query Hq. split.
    + intros page Hp. destruct (Hfit page Hp) as [Ho Hl].
      destruct (game_page _ _ _ _ _ _ _ _ page per_page _ _ Hq Ho Hl)
        as [message Hget].
      exists message. rewrite Hget. now rewrite slice_in_range.
    + intros Hlen.
      etransitivity; [|exact (pages_cover per_page query N Hk Hlen)].
      rewrite !flat_map_concat_map. f_equal. apply map_ext_in.
      intros page Hin. destruct (Hfit page (Hpages page Hin)) as [Ho Hl].
      destruct (game_page _ _ _ _ _ _ _ _ page per_page _ _ Hq Ho Hl)
        as [message Hget].
      now rewrite Hget.
Qed.

Lemma pagination_covers_the_result_witness :
  1 <= 2
  /\ Z.of_nat 2 * 2 < 2 ^ 63
  /\ flat_map
       (fun page =>
          Spec.minerals_of
            (Catalog.get_minerals Spec.show_real Spec.base_attributes None None
               None None None (Some "-hardness") page 2 Spec.three_minerals))
       (Spec.pages 2)
     = map Catalog.MineralDB_new [Spec.topaz; Spec.beryl; Spec.quartz]
  /\ flat_map
       (fun page =>
          Spec.games_of
            (Game.get_games Spec.base_attributes None None None None None None
               (Some "name") page 2 Spec.two_games))
       (Spec.pages 2)
     = map Game.GamesDB_new [Spec.doom; Spec.tetris].
Proof.
  assert (H : 1 <= 2) by lia.
  assert (H' : Z.of_nat 2 * 2 < 2 ^ 63) by (simpl; lia).
  destruct (pagination_covers_the_result Spec.show_real Spec.base_attributes
              Spec.base_attributes 2 2%nat H H') as [Hm Hg].
  split; [exact H | split; [exact H' | split]].
  - apply (Hm None None None None None (Some "-hardness") Spec.three_minerals).
    + reflexivity.
    + simpl. lia.
  - apply (Hg None None None None None None (Some "name") Spec.two_games).
    + reflexivity.
    + simpl. lia.
Defined.

(** C7, as stated, fails: [per_page = 2^63] is at least 1 and does not fit
    64 bits, so the first page of either list call ends with an unhandled
    [OverflowError]; the one page that would cover the three stored
    minerals yields no record at all. *)
Lemma page_size_beyond_64_bits_overflows :
  1 <= 2 ^ 63
  /\ Catalog.minerals_query Spec.show_real Spec.base_attributes None None None
       None None None Spec.three_minerals
     = Http.OK Spec.three_minerals
  /\ Z.of_nat (List.length Spec.three_minerals) <= Z.of_nat 1 * 2 ^ 63
  /\ Catalog.get_minerals Spec.show_real Spec.base_attributes None None None
       None None None 1 (2 ^ 63) Spec.three_minerals
     = Http.Unhandled Http.OverflowError
  /\ flat_map
       (fun page =>
          Spec.minerals_of
            (Catalog.get_minerals Spec.show_real Spec.base_attributes None None
               None None None None page (2 ^ 63) Spec.three_minerals))
       (Spec.pages 1)
     = []
  /\ Spec.three_minerals <> []
  /\ Game.get_games Spec.base_attributes None None None None None None None 1
       (2 ^ 63) Spec.two_games
     = Http.Unhandled Http.OverflowError.
Proof.
  split; [lia|]. split; [reflexivity|]. split; [simpl; lia|].
  split; [reflexivity|]. split; [reflexivity|]. split; [discriminate|].
  reflexivity.
Qed.

(** C10 (empty parameters).  In both list endpoints a search or exact-match
    filter parameter given as the empty string does what an absent one does:
    the call answers exactly as the same call without the parameter, so an
    empty filter never narrows to the rows whose field is empty. *)
Theorem empty_parameter_is_absent :
  forall (cast_real : Py.float -> string) (m_others : Catalog.other_attributes)
         (g_others : Game.other_attributes) (page per_page : Z),
    (forall catalog_id name rarity origin_country search sort db,
        Catalog.get_minerals cast_real m_others catalog_id name rarity origin_country
          (Some "") sort page per_page db
        = Catalog.get_minerals cast_real m_others catalog_id name rarity origin_country
            None sort page per_page db
        /\ Catalog.get_minerals cast_real m_others (Some "") name rarity origin_country
             search sort page per_page db
           = Catalog.get_minerals cast_real m_others None name rarity origin_country
               search sort page per_page db
        /\ Catalog.get_minerals cast_real m_others catalog_id (Some "") rarity
             origin_country search sort page per_page db
           = Catalog.get_minerals cast_real m_others catalog_id None rarity
               origin_country search sort page per_page db
        /\ Catalog.get_minerals cast_real m_others catalog_id name rarity (Some "")
             search sort page per_page db
           = Catalog.get_minerals cast_real m_others catalog_id name rarity None
               search sort page per_page db)
    /\ (forall game_id name genre platform rating search sort db,
        Game.get_games g_others game_id name genre platform rating (Some "") sort
          page per_page db
        = Game.get_games g_others game_id name genre platform rating None sort
            page per_page db
        /\ Game.get_games g_others (Some "") name genre platform rating search sort
             page per_page db
           = Game.get_games g_others None name genre platform rating search sort
               page per_page db
        /\ Game.get_games g_others game_id (Some "") genre platform rating search sort
             page per_page db
           = Game.get_games g_others game_id None genre platform rating search sort
               page per_page db
        /\ Game.get_games g_others game_id name (Some "") platform rating search sort
             page per_page db
           = Game.get_games g_others game_id name None platform rating search sort
               page per_page db
        /\ Game.get_games g_others game_id name genre (Some "") rating search sort
             page per_page db
           = Game.get_games g_others game_id name genre None rating search sort
               page per_page db).
Proof.
  intros cast_real m_others g_others page per_page. split; intros; repeat split; reflexivity.
Qed.

(** ** Export *)

(** C8 (unsupported export format).  For every format other than ["csv"],
    ["json"] and ["xlsx"], [export_games] ends with the 400 error for an
    unsupported export format, so that no document is produced, and the
    table is left as it was. *)
Theorem unsupported_export_format_is_rejected :
  forall (format : string) (db : Game.table),
    format <> "csv" -> format <> "json" -> format <> "xlsx" ->
    Game.export_games format db
    = Http.HTTPException 400 "Неподдерживаемый формат экспорта"
    /\ Game.table_after (Game.Export_games format) db = db.
Proof.
  intros format db Hcsv Hjson Hxlsx. split; [|reflexivity].
  unfold Game.export_games.
  apply String.eqb_neq in Hcsv, Hjson, Hxlsx.
  now rewrite Hcsv, Hjson, Hxlsx.
Qed.

Lemma unsupported_export_format_is_rejected_witness :
  Game.export_games "pdf" Spec.two_games
  = Http.HTTPException 400 "Неподдерживаемый формат экспорта"
  /\ Game.table_after (Game.Export_games "pdf") Spec.two_games = Spec.two_games.
Proof.
  apply (unsupported_export_format_is_rejected "pdf" Spec.two_games);
    discriminate.
Defined.

(** ** Identity rules of the CRUD handlers *)

Lemma first_nil_iff {A : Type} (l : list A) : Sql.first l = None <-> l = [].
Proof.
  destruct l; simpl; split; intros H; try reflexivity; discriminate.
Qed.

Lemma mineral_reads_keep_table (cs : list Catalog.call) (db : Catalog.table) :
  forallb Catalog.is_read cs = true -> Catalog.table_after_all cs db = db.
Proof.
  unfold Catalog.table_after_all.
  induction cs as [|c cs IH]; simpl; intros H.
  - reflexivity.
  - apply andb_true_iff in H as [Hc Hcs].
    destruct c; simpl in *; try discriminate; now apply IH.
Qed.

Lemma game_reads_keep_table (cs : list Game.call) (db : Game.table) :
  forallb Game.is_read cs = true -> Game.table_after_all cs db = db.
Proof.
  unfold Game.table_after_all.
  induction cs as [|c cs IH]; simpl; intros H.
  - reflexivity.
  - apply andb_true_iff in H as [Hc Hcs].
    destruct c; simpl in *; try discriminate; now apply IH.
Qed.

Lemma mineral_created_is_found (mineral : Catalog.Mineral.t) (db : Catalog.table) :
  Catalog.first_by_id (Catalog.Mineral.catalog_id mineral) db = None ->
  filter (fun r => String.eqb (Catalog.MineralDB.catalog_id r)
                     (Catalog.Mineral.catalog_id mineral))
         (db ++ [Catalog.MineralDB_new mineral])
  = [Catalog.MineralDB_new mineral].
Proof.
  unfold Catalog.first_by_id. intros H. apply first_nil_iff in H.
  rewrite filter_app, H. simpl. now rewrite String.eqb_refl.
Qed.

Lemma game_created_is_found (game : Game.Games.t) (db : Game.table) :
  Game.first_by_id (Game.Games.game_id game) db = None ->
  filter (fun r => String.eqb (Game.GamesDB.game_id r) (Game.Games.game_id game))
         (db ++ [Game.GamesDB_new game])
  = [Game.GamesDB_new game].
Proof.
  unfold Game.first_by_id. intros H. apply first_nil_iff in H.
  rewrite filter_app, H. simpl. now rewrite String.eqb_refl.
Qed.

(** C5 (identifier uniqueness).  Once a create with identifier X has succeeded,
    then after any run of read calls a create of any record with identifier X
    ends with the 400 error for an existing identifier and leaves the table
    as the first create left it. *)
Theorem second_create_conflicts :
  (forall mineral db response db' reads mineral',
      Catalog.create_mineral mineral db = (Http.OK response, db') ->
      forallb Catalog.is_read reads = true ->
      Catalog.Mineral.catalog_id mineral' = Catalog.Mineral.catalog_id mineral ->
      Catalog.create_mineral mineral' (Catalog.table_after_all reads db')
      = (Http.HTTPException 400 "Минерал с таким ID уже существует", db'))
  /\ (forall game db response db' reads game',
      Game.create_game game db = (Http.OK response, db') ->
      forallb Game.is_read reads = true ->
      Game.Games.game_id game' = Game.Games.game_id game ->
      Game.create_game game' (Game.table_after_all reads db')
      = (Http.HTTPException 400 "Игра с таким ID уже существует", db')).
Proof.
  split.
  - intros mineral db response db' reads mineral' Hcreate Hreads Hid.
    rewrite mineral_reads_keep_table by assumption.
    unfold Catalog.create_mineral in Hcreate.
    destruct (Catalog.first_by_id (Catalog.Mineral.catalog_id mineral) db) eqn:Hnone;
      [discriminate|].
    destruct (Catalog.write_error (Catalog.MineralDB_new mineral));
      [discriminate|].
    inversion Hcreate; subst db'; clear Hcreate.
    unfold Catalog.create_mineral, Catalog.first_by_id.
    rewrite Hid, mineral_created_is_found by assumption. reflexivity.
  - intros game db response db' reads game' Hcreate Hreads Hid.
    rewrite game_reads_keep_table by assumption.
    unfold Game.create_game in Hcreate.
    destruct (Game.first_by_id (Game.Games.game_id game) db) eqn:Hnone;
      [discriminate|].
    inversion Hcreate; subst db'; clear Hcreate.
    unfold Game.create_game, Game.first_by_id.
    rewrite Hid, game_created_is_found by assumption. reflexivity.
Qed.

Lemma second_create_conflicts_witness :
  Catalog.create_mineral Spec.quartz
    (Catalog.table_after_all
       [Catalog.Get_minerals None None None None (Some "Brazil") None 1 10;
        Catalog.Get_mineral_qr "AB-1234"]
       [Catalog.MineralDB_new Spec.quartz])
  = (Http.HTTPException 400 "Минерал с таким ID уже существует",
     [Catalog.MineralDB_new Spec.quartz])
  /\ Game.create_game Spec.tetris
       (Game.table_after_all [Game.Export_games "json"]
          [Game.GamesDB_new Spec.tetris])
     = (Http.HTTPException 400 "Игра с таким ID уже существует",
        [Game.GamesDB_new Spec.tetris]).
Proof.
  destruct second_create_conflicts as [Hm Hg]. split.
  - apply (Hm Spec.quartz [] ("Минерал добавлен", Spec.quartz)); reflexivity.
  - apply (Hg Spec.tetris [] ("Игра добавлена", Spec.tetris)); reflexivity.
Defined.

Lemma mineral_assign_all (mineral : Catalog.Mineral.t) (old : Catalog.MineralDB.t) :
  fold_left (fun row kv => Catalog.setattr row (fst kv) (snd kv))
            (Catalog.Mineral.dict mineral) old
  = Catalog.MineralDB_new mineral.
Proof. destruct old, mineral. reflexivity. Qed.

Lemma game_assign_all (game : Game.Games.t) (old : Game.GamesDB.t) :
  fold_left (fun row kv => Game.setattr row (fst kv) (snd kv))
            (Game.Games.dict game) old
  = Game.GamesDB_new game.
Proof. destruct old, game. reflexivity. Qed.

Lemma mineral_update_row_split (id : string) (f : Catalog.MineralDB.t -> Catalog.MineralDB.t)
  (db : Catalog.table) (old : Catalog.MineralDB.t) :
  Catalog.first_by_id id db = Some old ->
  exists pre post,
    db = (pre ++ old :: post)%list
    /\ Forall (fun r => Catalog.MineralDB.catalog_id r <> id) pre
    /\ Catalog.update_row id f db = (pre ++ f old :: post)%list.
Proof.
  unfold Catalog.first_by_id.
  induction db as [|r db IH]; simpl; intros H.
  - discriminate.
  - destruct (String.eqb (Catalog.MineralDB.catalog_id r) id) eqn:E.
    + simpl in H. inversion H; subst r. now exists [], db.
    + destruct (IH H) as (pre & post & Hdb & Hpre & Hup).
      exists (r :: pre), post. repeat split.
      * simpl. now rewrite <- Hdb.
      * constructor; [now apply String.eqb_neq | assumption].
      * simpl. now rewrite Hup.
Qed.

Lemma game_update_row_split (id : string) (f : Game.GamesDB.t -> Game.GamesDB.t)
  (db : Game.table) (old : Game.GamesDB.t) :
  Game.first_by_id id db = Some old ->
  exists pre post,
    db = (pre ++ old :: post)%list
    /\ Forall (fun r => Game.GamesDB.game_id r <> id) pre
    /\ Game.update_row id f db = (pre ++ f old :: post)%list.
Proof.
  unfold Game.first_by_id.
  induction db as [|r db IH]; simpl; intros H.
  - discriminate.
  - destruct (String.eqb (Game.GamesDB.game_id r) id) eqn:E.
    + simpl in H. inversion H; subst r. now exists [], db.
    + destruct (IH H) as (pre & post & Hdb & Hpre & Hup).
      exists (r :: pre), post. repeat split.
      * simpl. now rewrite <- Hdb.
      * constructor; [now apply String.eqb_neq | assumption].
      * simpl. now rewrite Hup.
Qed.


(** C6, as the code has it.  When the path identifier differs from the
    body's, an update ends with the 400 error for mismatching identifiers
    whatever the table holds, and the table is untouched.  When they agree
    and no row has the identifier, it ends with the 404 error.  Otherwise
    the first row with the identifier, and no other, is replaced by the row
    of the body's fields, unless that row cannot be written (a mineral whose
    count does not fit 64 bits, or with a NaN): then the update ends with
    the unhandled error of the write and the table is untouched. *)
Theorem update_checks_identifier_then_row :
  (forall catalog_id mineral,
      (catalog_id <> Catalog.Mineral.catalog_id mineral ->
       forall db,
         Catalog.update_mineral catalog_id mineral db
         = (Http.HTTPException 400 "ID в пути и теле не совпадают", db))
      /\ (catalog_id = Catalog.Mineral.catalog_id mineral ->
          forall db,
            (Catalog.first_by_id catalog_id db = None ->
             Catalog.update_mineral catalog_id mineral db
             = (Http.HTTPException 404 "Минерал не найден", db))
            /\ (forall old,
                   Catalog.first_by_id catalog_id db = Some old ->
                   (forall e,
                       Catalog.write_error (Catalog.MineralDB_new mineral)
                       = Some e ->
                       Catalog.update_mineral catalog_id mineral db
                       = (Http.Unhandled e, db))
                   /\ (Catalog.write_error (Catalog.MineralDB_new mineral)
                       = None ->
                       exists pre post,
                         db = (pre ++ old :: post)%list
                         /\ Forall (fun r => Catalog.MineralDB.catalog_id r
                                             <> catalog_id) pre
                         /\ Catalog.update_mineral catalog_id mineral db
                            = (Http.OK ("Минерал обновлён", mineral),
                               (pre ++ Catalog.MineralDB_new mineral
                                    :: post)%list)))))
  /\ (forall game_id game,
      (game_id <> Game.Games.game_id game ->
       forall db,
         Game.update_game game_id game db
         = (Http.HTTPException 400 "ID в пути и теле не совпадают", db))
      /\ (game_id = Game.Games.game_id game ->
          forall db,
            (Game.first_by_id game_id db = None ->
             Game.update_game game_id game db
             = (Http.HTTPException 404 "Игра не найдена", db))
            /\ (forall old,
                   Game.first_by_id game_id db = Some old ->
                   exists pre post,
                     db = (pre ++ old :: post)%list
                     /\ Forall (fun r => Game.GamesDB.game_id r <> game_id) pre
                     /\ Game.update_game game_id game db
                        = (Http.OK ("Игра обновлена", game),
                           (pre ++ Game.GamesDB_new game :: post)%list)))).
Proof.
  split.
  - intros id mineral. split.
    + intros Hne db. unfold Catalog.update_mineral.
      apply String.eqb_neq in Hne. now rewrite Hne.
    + intros Heq db. unfold Catalog.update_mineral.
      apply String.eqb_eq in Heq. rewrite Heq. cbn [negb]. split.
      * intros Hnone. now rewrite Hnone.
      * intros old Hsome. rewrite Hsome. cbv zeta.
        rewrite mineral_assign_all. split.
        -- intros e He. now rewrite He.
        -- intros Hw. rewrite Hw.
           destruct (mineral_update_row_split id
                       (fun db_mineral =>
                          fold_left (fun row kv => Catalog.setattr row (fst kv) (snd kv))
                                    (Catalog.Mineral.dict mineral) db_mineral)
                       db old Hsome) as (pre & post & Hdb & Hpre & Hup).
           exists pre, post. repeat split; try assumption.
           rewrite Hup, mineral_assign_all. reflexivity.
  - intros id game. split.
    + intros Hne db. unfold Game.update_game.
      apply String.eqb_neq in Hne. now rewrite Hne.
    + intros Heq db. unfold Game.update_game.
      apply String.eqb_eq in Heq. rewrite Heq. cbn [negb]. split.
      * intros Hnone. now rewrite Hnone.
      * intros old Hsome. rewrite Hsome.
        destruct (game_update_row_split id
                    (fun db_game =>
                       fold_left (fun row kv => Game.setattr row (fst kv) (snd kv))
                                 (Game.Games.dict game) db_game)
                    db old Hsome) as (pre & post & Hdb & Hpre & Hup).
        exists pre, post. repeat split; try assumption.
        rewrite Hup, game_assign_all. reflexivity.
Qed.

Lemma update_checks_identifier_then_row_witness :
  (Game.update_game "AB-0001" Spec.doom_64 Spec.two_games
   = (Http.HTTPException 400 "ID в пути и теле не совпадают", Spec.two_games)
   /\ Game.update_game "AB-0002" Spec.doom_64 [Game.GamesDB_new Spec.tetris]
      = (Http.HTTPException 404 "Игра не найдена", [Game.GamesDB_new Spec.tetris])
   /\ exists pre post,
        Spec.two_games = (pre ++ Game.GamesDB_new Spec.doom :: post)%list
        /\ Forall (fun r => Game.GamesDB.game_id r <> "AB-0002") pre
        /\ Game.update_game "AB-0002" Spec.doom_64 Spec.two_games
           = (Http.OK ("Игра обновлена", Spec.doom_64),
              (pre ++ Game.GamesDB_new Spec.doom_64 :: post)%list))
  /\ (Catalog.update_mineral "AB-1234" Spec.emerald Spec.three_minerals
      = (Http.HTTPException 400 "ID в пути и теле не совпадают", Spec.three_minerals)
      /\ Catalog.update_mineral "CD-0002" Spec.emerald [Catalog.MineralDB_new Spec.quartz]
         = (Http.HTTPException 404 "Минерал не найден",
            [Catalog.MineralDB_new Spec.quartz])
      /\ (exists pre post,
           Spec.three_minerals = (pre ++ Catalog.MineralDB_new Spec.beryl :: post)%list
           /\ Forall (fun r => Catalog.MineralDB.catalog_id r <> "CD-0002") pre
           /\ Catalog.update_mineral "CD-0002" Spec.emerald Spec.three_minerals
              = (Http.OK ("Минерал обновлён", Spec.emerald),
                 (pre ++ Catalog.MineralDB_new Spec.emerald :: post)%list))
      /\ Catalog.update_mineral "AB-1234" Spec.countless_quartz Spec.three_minerals
         = (Http.Unhandled Http.OverflowError, Spec.three_minerals)).
Proof.
  destruct update_checks_identifier_then_row as [Hm Hg]. split.
  - destruct (Hg "AB-0001" Spec.doom_64) as [Hne _].
    destruct (Hg "AB-0002" Spec.doom_64) as [_ Heq].
    split; [apply Hne; discriminate | split].
    + apply (Heq eq_refl). reflexivity.
    + apply (Heq eq_refl Spec.two_games). reflexivity.
  - destruct (Hm "AB-1234" Spec.emerald) as [Hne _].
    destruct (Hm "CD-0002" Spec.emerald) as [_ Heq].
    destruct (Hm "AB-1234" Spec.countless_quartz) as [_ Hbig].
    split; [apply Hne; discriminate | split; [|split]].
    + apply (Heq eq_refl). reflexivity.
    + eapply (Heq eq_refl Spec.three_minerals); reflexivity.
    + eapply (Hbig eq_refl Spec.three_minerals); reflexivity.
Defined.

(** C6, as stated, fails for minerals: a body that passes validation, sent
    to the path of its own identifier while a row with that identifier is
    stored, replaces nothing when its count does not fit 64 bits; the update
    ends with an unhandled [OverflowError] and the row stays as it was. *)
Lemma update_with_a_count_beyond_64_bits_replaces_nothing :
  Catalog.Mineral.validate (Notions.mineral_body Spec.countless_quartz)
  = inr Spec.countless_quartz
  /\ Catalog.first_by_id "AB-1234" [Catalog.MineralDB_new Spec.padded_quartz]
     = Some (Catalog.MineralDB_new Spec.padded_quartz)
  /\ Catalog.update_mineral "AB-1234" Spec.countless_quartz
       [Catalog.MineralDB_new Spec.padded_quartz]
     = (Http.Unhandled Http.OverflowError,
        [Catalog.MineralDB_new Spec.padded_quartz])
  /\ Catalog.MineralDB_new Spec.padded_quartz
     <> Catalog.MineralDB_new Spec.countless_quartz.
Proof. split; [|split; [|split]]; try reflexivity. discriminate. Qed.

(** ** Validation *)

Lemma RarityType_of_value (s : string) (r : Catalog.RarityType) :
  Catalog.RarityType_of s = Some r -> Catalog.RarityType_value r = s.
Proof.
  unfold Catalog.RarityType_of.
  repeat match goal with
         | |- context [String.eqb s ?lit] =>
             destruct (String.eqb s lit) eqn:E;
             [apply String.eqb_eq in E; intros H; inversion H; subst;
              reflexivity | clear E]
         end.
  discriminate.
Qed.

Lemma RatingType_of_value (s : string) (r : Game.RatingType) :
  Game.RatingType_of s = Some r -> Game.RatingType_value r = s.
Proof.
  unfold Game.RatingType_of.
  repeat match goal with
         | |- context [String.eqb s ?lit] =>
             destruct (String.eqb s lit) eqn:E;
             [apply String.eqb_eq in E; intros H; inversion H; subst;
              reflexivity | clear E]
         end.
  discriminate.
Qed.

Ltac validator_returns f :=
  intros x v; unfold f;
  match goal with
  | |- context [if ?c then _ else _] => destruct c
  end;
  intros H; [discriminate | now inversion H].

Lemma mineral_validators_return_input :
  Spec.returns_its_input Catalog.Mineral.validator_catalog_id
  /\ Spec.returns_its_input Catalog.Mineral.validator_name
  /\ Spec.returns_its_input Catalog.Mineral.validator_formula
  /\ Spec.returns_its_input Catalog.Mineral.validator_hardness
  /\ Spec.returns_its_input Catalog.Mineral.validator_weight
  /\ Spec.returns_its_input Catalog.Mineral.validator_country
  /\ Spec.returns_its_input Catalog.Mineral.validator_count.
Proof.
  repeat split.
  - validator_returns Catalog.Mineral.validator_catalog_id.
  - validator_returns Catalog.Mineral.validator_name.
  - validator_returns Catalog.Mineral.validator_formula.
  - validator_returns Catalog.Mineral.validator_hardness.
  - validator_returns Catalog.Mineral.validator_weight.
  - validator_returns Catalog.Mineral.validator_country.
  - validator_returns Catalog.Mineral.validator_count.
Qed.

Lemma game_validators_return_input (now : Py.datetime) :
  Spec.returns_its_input Game.Games.validator_game_id
  /\ Spec.returns_its_input Game.Games.validator_name
  /\ Spec.returns_its_input Game.Games.validator_genre
  /\ Spec.returns_its_input Game.Games.validator_platform
  /\ Spec.returns_its_input (Game.Games.validator_release_date now)
  /\ Spec.returns_its_input Game.Games.validator_description.
Proof.
  repeat split.
  - validator_returns Game.Games.validator_game_id.
  - validator_returns Game.Games.validator_name.
  - validator_returns Game.Games.validator_genre.
  - validator_returns Game.Games.validator_platform.
  - validator_returns Game.Games.validator_release_date.
  - validator_returns Game.Games.validator_description.
Qed.

Lemma mineral_enum_member_value (s : string) (r : Catalog.RarityType) :
  Catalog.Mineral.enum_member s = Py.Return r -> Catalog.RarityType_value r = s.
Proof.
  unfold Catalog.Mineral.enum_member.
  destruct (Catalog.RarityType_of s) eqn:E; intros H; inversion H; subst.
  now apply RarityType_of_value.
Qed.

Lemma game_enum_member_value (s : string) (r : Game.RatingType) :
  Game.Games.enum_member s = Py.Return r -> Game.RatingType_value r = s.
Proof.
  unfold Game.Games.enum_member.
  destruct (Game.RatingType_of s) eqn:E; intros H; inversion H; subst.
  now apply RatingType_of_value.
Qed.

Ltac first_error := do 2 eexists; split; reflexivity.

Lemma mineral_validate_cases (body : Catalog.Body.t) :
  match Catalog.Mineral.validate body with
  | inr m =>
      Spec.mineral_as_sent body m
      /\ Spec.first_failing (Spec.mineral_checks body) = None
  | inl errors =>
      exists e rest,
        errors = e :: rest
        /\ Spec.first_failing (Spec.mineral_checks body) = Some (Http.loc e)
  end.
Proof.
  destruct mineral_validators_return_input
    as (R1 & R2 & R3 & R4 & R5 & R7 & R8).
  unfold Catalog.Mineral.validate, Spec.mineral_checks, Spec.mineral_as_sent.
  destruct (Catalog.Mineral.validator_catalog_id _) eqn:E1; [cbn; first_error|].
  destruct (Catalog.Mineral.validator_name _) eqn:E2; [cbn; first_error|].
  destruct (Catalog.Mineral.validator_formula _) eqn:E3; [cbn; first_error|].
  destruct (Catalog.Mineral.validator_hardness _) eqn:E4; [cbn; first_error|].
  destruct (Catalog.Mineral.validator_weight _) eqn:E5; [cbn; first_error|].
  destruct (Catalog.Mineral.enum_member _) eqn:E6; [cbn; first_error|].
  destruct (Catalog.Mineral.validator_country _) eqn:E7; [cbn; first_error|].
  destruct (Catalog.Mineral.validator_count _) eqn:E8; [cbn; first_error|].
  apply R1 in E1. apply R2 in E2. apply R3 in E3. apply R4 in E4.
  apply R5 in E5. apply mineral_enum_member_value in E6.
  apply R7 in E7. apply R8 in E8.
  cbn. repeat split; assumption.
Qed.

Lemma game_validate_cases (now : Py.datetime) (body : Game.Body.t) :
  match Game.Games.validate now body with
  | inr g =>
      Spec.game_as_sent body g
      /\ Spec.first_failing (Spec.game_checks now body) = None
  | inl errors =>
      exists e rest,
        errors = e :: rest
        /\ Spec.first_failing (Spec.game_checks now body) = Some (Http.loc e)
  end.
Proof.
  destruct (game_validators_return_input now)
    as (R1 & R2 & R3 & R4 & R5 & R7).
  unfold Game.Games.validate, Spec.game_checks, Spec.game_as_sent.
  destruct (Game.Games.validator_game_id _) eqn:E1; [cbn; first_error|].
  destruct (Game.Games.validator_name _) eqn:E2; [cbn; first_error|].
  destruct (Game.Games.validator_genre _) eqn:E3; [cbn; first_error|].
  destruct (Game.Games.validator_platform _) eqn:E4; [cbn; first_error|].
  destruct (Game.Games.validator_release_date _ _) eqn:E5; [cbn; first_error|].
  destruct (Game.Games.enum_member _) eqn:E6; [cbn; first_error|].
  destruct (Game.Games.validator_description _) eqn:E7; [cbn; first_error|].
  apply R1 in E1. apply R2 in E2. apply R3 in E3. apply R4 in E4.
  apply R5 in E5. apply game_enum_member_value in E6. apply R7 in E7.
  cbn. repeat split; assumption.
Qed.

(** C1, as the code has it.  Validation of a candidate record of either
    resource either fails with a non-empty list of errors whose first entry
    names the first field, in declaration order, whose check raised, or
    returns a model holding every field exactly as it was sent: strings are
    not trimmed (stripping is used for the length checks only), numbers are
    unchanged, and the enumeration member is the one the literal names. *)
Theorem validation_returns_the_record_as_sent :
  (forall body,
      match Catalog.Mineral.validate body with
      | inr m =>
          Spec.mineral_as_sent body m
          /\ Spec.first_failing (Spec.mineral_checks body) = None
      | inl errors =>
          exists e rest,
            errors = e :: rest
            /\ Spec.first_failing (Spec.mineral_checks body) = Some (Http.loc e)
      end)
  /\ (forall now body,
      match Game.Games.validate now body with
      | inr g =>
          Spec.game_as_sent body g
          /\ Spec.first_failing (Spec.game_checks now body) = None
      | inl errors =>
          exists e rest,
            errors = e :: rest
            /\ Spec.first_failing (Spec.game_checks now body) = Some (Http.loc e)
      end).
Proof.
  split.
  - exact mineral_validate_cases.
  - exact game_validate_cases.
Qed.

(** C1, as stated, fails: a mineral whose name and country carry surrounding
    blanks is accepted, and the model returned holds them untrimmed. *)
Lemma validation_does_not_trim :
  exists m,
    Catalog.Mineral.validate Spec.padded_quartz_body = inr m
    /\ Catalog.Mineral.name m = "  Quartz  "
    /\ Catalog.Mineral.name m
       <> Py.strip (Catalog.Body.name Spec.padded_quartz_body)
    /\ Catalog.Mineral.origin_country m
       <> Py.strip (Catalog.Body.origin_country Spec.padded_quartz_body).
Proof.
  exists Spec.padded_quartz. repeat split; try reflexivity; discriminate.
Qed.

Example hardness_eleven_is_rejected :
  Catalog.Mineral.validate
    (Catalog.Body.mk "AB-1234" "Quartz" "SiO2" (Py.Finite 11) (Py.Finite (5 # 2))
       "COMMON" "Brazil" 5)
  = inl [Http.mk_error "hardness" "Твердость должна быть от 1 до 10"].
Proof. reflexivity. Qed.

Example all_failures_are_collected_in_field_order :
  map Http.loc
    (match Game.Games.validate Spec.noon
             (Game.Body.mk "ab-1" "Tetris" "Puzzle" "GB"
                (Py.mk_datetime 2030 1 1 0 0 0 0) "PEGI 5" "short")
     with inl errors => errors | inr _ => [] end)
  = ["game_id"; "platform"; "release_date"; "rating"; "description"].
Proof. reflexivity. Qed.


(** ** Sorting by an unknown field *)

(** C2, as the code has it.  For every non-empty sort specifier that, after
    an optional leading ["-"], names neither a column of the resource nor
    anything else the mapped class holds (the bare ["-"], which names the
    empty string, among them), the list call of either resource ends with
    an unhandled [AttributeError], whatever the other parameters and the
    table are. *)
Theorem unknown_sort_field_raises_AttributeError :
  forall (cast_real : Py.float -> string) (m_others : Catalog.other_attributes)
         (g_others : Game.other_attributes) (sort : string),
    Py.bool_str sort = true ->
    (Catalog.getattr m_others (Spec.sort_field sort) = None ->
     forall catalog_id name rarity origin_country search page per_page db,
       Catalog.get_minerals cast_real m_others catalog_id name rarity
         origin_country search (Some sort) page per_page db
       = Http.Unhandled Http.AttributeError)
    /\ (Game.getattr g_others (Spec.sort_field sort) = None ->
        forall game_id name genre platform rating search page per_page db,
          Game.get_games g_others game_id name genre platform rating search
            (Some sort) page per_page db
          = Http.Unhandled Http.AttributeError).
Proof.
  intros cast_real m_others g_others sort Hs. unfold Spec.sort_field.
  split; intros Hattr; intros.
  - unfold Catalog.get_minerals, Catalog.minerals_query, Catalog.sorted.
    rewrite Hs. destruct (Py.startswith_minus sort); now rewrite Hattr.
  - unfold Game.get_games, Game.games_query, Game.sorted.
    rewrite Hs. destruct (Py.startswith_minus sort); now rewrite Hattr.
Qed.

Lemma unknown_sort_field_raises_AttributeError_witness :
  Catalog.get_minerals Spec.show_real Spec.base_attributes None None None None
    None (Some "-colour") 1 10 Spec.three_minerals
  = Http.Unhandled Http.AttributeError
  /\ Game.get_games Spec.base_attributes None None None None None None
       (Some "hardness") 1 10 Spec.two_games
     = Http.Unhandled Http.AttributeError.
Proof.
  split.
  - apply (unknown_sort_field_raises_AttributeError Spec.show_real
             Spec.base_attributes Spec.base_attributes "-colour");
      reflexivity.
  - apply (unknown_sort_field_raises_AttributeError Spec.show_real
             Spec.base_attributes Spec.base_attributes "hardness");
      reflexivity.
Defined.

(** C2, as stated, fails: the bare specifier ["-"] makes both list calls end
    with an unhandled exception, not with an error response. *)
Lemma bare_minus_sort_is_unhandled :
  Catalog.get_minerals Spec.show_real Spec.base_attributes None None None None
    None (Some "-") 1 10 Spec.three_minerals
  = Http.Unhandled Http.AttributeError
  /\ Game.get_games Spec.base_attributes None None None None None None
       (Some "-") 1 10 Spec.two_games
     = Http.Unhandled Http.AttributeError.
Proof. split; reflexivity. Qed.

(** A name the class holds besides its columns is found by [getattr]: for
    [__doc__], which holds [None], the ascending sort orders nothing and the
    call answers, and [metadata] is refused by [order_by]. *)
Example sort_by_another_attribute_of_the_class :
  Spec.minerals_of
    (Catalog.get_minerals Spec.show_real Spec.base_attributes None None None
       None None (Some "__doc__") 1 10 Spec.three_minerals)
  = Spec.three_minerals
  /\ Game.get_games Spec.base_attributes None None None None None None
       (Some "metadata") 1 10 Spec.two_games
     = Http.Unhandled Http.ArgumentError.
Proof. split; reflexivity. Qed.

(** ** Create, then read by identifier *)

Lemma matched_id_is_not_empty (s : string) :
  Py.re_match_id s = true -> Py.bool_str s = true.
Proof. destruct s; [discriminate | reflexivity]. Qed.

Lemma valid_mineral_has_an_id (body : Catalog.Body.t) (m : Catalog.Mineral.t) :
  Catalog.Mineral.validate body = inr m ->
  Py.bool_str (Catalog.Mineral.catalog_id m) = true.
Proof.
  intros H. pose proof (mineral_validate_cases body) as Hc.
  rewrite H in Hc. destruct Hc as [(Hid & _) Hnone]. rewrite Hid.
  unfold Spec.mineral_checks, Catalog.Mineral.validator_catalog_id in Hnone.
  destruct (Py.re_match_id (Catalog.Body.catalog_id body)) eqn:E.
  - now apply matched_id_is_not_empty.
  - cbn in Hnone. discriminate.
Qed.

Lemma valid_game_has_an_id (now : Py.datetime) (body : Game.Body.t) (g : Game.Games.t) :
  Game.Games.validate now body = inr g ->
  Py.bool_str (Game.Games.game_id g) = true.
Proof.
  intros H. pose proof (game_validate_cases now body) as Hc.
  rewrite H in Hc. destruct Hc as [(Hid & _) Hnone]. rewrite Hid.
  unfold Spec.game_checks, Game.Games.validator_game_id in Hnone.
  destruct (Py.re_match_id (Game.Body.game_id body)) eqn:E.
  - now apply matched_id_is_not_empty.
  - cbn in Hnone. discriminate.
Qed.

Lemma first_page_of_one {A : Type} (per_page : Z) (x : A) :
  1 <= per_page -> Notions.slice ((1 - 1) * per_page) per_page [x] = [x].
Proof.
  intros Hk. rewrite slice_in_range by assumption. simpl.
  destruct (Z.to_nat per_page) eqn:E; [lia | simpl; now rewrite firstn_nil].
Qed.

Lemma mineral_row_holds_the_body (body : Catalog.Body.t)
  (mineral : Catalog.Mineral.t) :
  Spec.mineral_as_sent body mineral ->
  Spec.mineral_row_as_sent body (Catalog.MineralDB_new mineral).
Proof.
  unfold Spec.mineral_as_sent, Spec.mineral_row_as_sent, Catalog.MineralDB_new.
  cbn. tauto.
Qed.

Lemma game_row_holds_the_body (body : Game.Body.t) (game : Game.Games.t) :
  Spec.game_as_sent body game ->
  Spec.game_row_as_sent body (Game.GamesDB_new game).
Proof.
  unfold Spec.game_as_sent, Spec.game_row_as_sent, Game.GamesDB_new.
  cbn. intros (H1 & H2 & H3 & H4 & H5 & H6 & H7).
  repeat split; try assumption. now rewrite H6.
Qed.

(** C9, as the code has it.  When a candidate passes validation and the
    create of the resulting model succeeds, the list call filtered by the
    model's identifier (first page, any [per_page] from 1 that fits 64 bits)
    answers with exactly one row, and every field of that row is the
    candidate's field as it was sent, untrimmed (the enumerated field being
    the member that the literal sent names). *)
Theorem created_record_is_read_back_as_sent :
  forall (cast_real : Py.float -> string) (m_others : Catalog.other_attributes)
         (g_others : Game.other_attributes) (per_page : Z),
    1 <= per_page < 2 ^ 63 ->
    (forall body mineral db response db',
        Catalog.Mineral.validate body = inr mineral ->
        Catalog.create_mineral mineral db = (Http.OK response, db') ->
        exists message row,
          Catalog.get_minerals cast_real m_others
            (Some (Catalog.Body.catalog_id body)) None None None None
            None 1 per_page db'
          = Http.OK (Catalog.mk_listing message [row])
          /\ Spec.mineral_row_as_sent body row)
    /\ (forall now body game db response db',
        Game.Games.validate now body = inr game ->
        Game.create_game game db = (Http.OK response, db') ->
        exists message row,
          Game.get_games g_others (Some (Game.Body.game_id body)) None None
            None None None None 1 per_page db'
          = Http.OK (Game.mk_listing message [row])
          /\ Spec.game_row_as_sent body row).
Proof.
  intros cast_real m_others g_others per_page Hk.
  assert (Ho : Sql.int64 ((1 - 1) * per_page) = true) by (apply int64_iff; lia).
  assert (Hl : Sql.int64 per_page = true) by (apply int64_iff; lia).
  split.
  - intros body mineral db response db' Hvalid Hcreate.
    pose proof (mineral_validate_cases body) as Hc.
    rewrite Hvalid in Hc. destruct Hc as [Hsent _].
    assert (Hid : Catalog.Body.catalog_id body
                  = Catalog.Mineral.catalog_id mineral)
      by (symmetry; apply Hsent).
    rewrite Hid.
    unfold Catalog.create_mineral in Hcreate.
    destruct (Catalog.first_by_id (Catalog.Mineral.catalog_id mineral) db) eqn:Hnone;
      [discriminate|].
    destruct (Catalog.write_error (Catalog.MineralDB_new mineral));
      [discriminate|].
    inversion Hcreate; subst db'; clear Hcreate.
    destruct (mineral_page cast_real m_others
                (Some (Catalog.Mineral.catalog_id mineral)) None None None None
                None 1 per_page
                (db ++ [Catalog.MineralDB_new mineral])%list
                [Catalog.MineralDB_new mineral]) as [message Hget];
      try assumption.
    + unfold Catalog.minerals_query, Py.when_given.
      rewrite (valid_mineral_has_an_id body mineral Hvalid).
      rewrite mineral_created_is_found by assumption.
      reflexivity.
    + exists message, (Catalog.MineralDB_new mineral).
      rewrite Hget, first_page_of_one by lia.
      split; [reflexivity | now apply mineral_row_holds_the_body].
  - intros now body game db response db' Hvalid Hcreate.
    pose proof (game_validate_cases now body) as Hc.
    rewrite Hvalid in Hc. destruct Hc as [Hsent _].
    assert (Hid : Game.Body.game_id body = Game.Games.game_id game)
      by (symmetry; apply Hsent).
    rewrite Hid.
    unfold Game.create_game in Hcreate.
    destruct (Game.first_by_id (Game.Games.game_id game) db) eqn:Hnone;
      [discriminate|].
    inversion Hcreate; subst db'; clear Hcreate.
    destruct (game_page g_others (Some (Game.Games.game_id game)) None None
                None None None None 1 per_page
                (db ++ [Game.GamesDB_new game])%list
                [Game.GamesDB_new game]) as [message Hget];
      try assumption.
    + unfold Game.games_query, Py.when_given.
      rewrite (valid_game_has_an_id now body game Hvalid).
      rewrite game_created_is_found by assumption.
      reflexivity.
    + exists message, (Game.GamesDB_new game).
      rewrite Hget, first_page_of_one by lia.
      split; [reflexivity | now apply game_row_holds_the_body].
Qed.

Lemma created_record_is_read_back_as_sent_witness :
  1 <= 10 < 2 ^ 63
  /\ (exists message row,
        Catalog.get_minerals Spec.show_real Spec.base_attributes
          (Some "AB-1234") None None None None None 1 10
          (tl Spec.three_minerals ++ [Catalog.MineralDB_new Spec.padded_quartz])%list
        = Http.OK (Catalog.mk_listing message [row])
        /\ Spec.mineral_row_as_sent Spec.padded_quartz_body row)
  /\ (exists message row,
        Game.get_games Spec.base_attributes (Some "AB-0001") None None None
          None None None 1 10 [Game.GamesDB_new Spec.tetris]
        = Http.OK (Game.mk_listing message [row])
        /\ Spec.game_row_as_sent Spec.tetris_body row).
Proof.
  assert (H : 1 <= 10 < 2 ^ 63) by lia.
  destruct (created_record_is_read_back_as_sent Spec.show_real
              Spec.base_attributes Spec.base_attributes 10 H) as [Hm Hg].
  split; [exact H | split].
  - apply (Hm Spec.padded_quartz_body Spec.padded_quartz
              (tl Spec.three_minerals) ("Минерал добавлен", Spec.padded_quartz));
      reflexivity.
  - apply (Hg Spec.noon Spec.tetris_body Spec.tetris []
              ("Игра добавлена", Spec.tetris));
      reflexivity.
Defined.

(** C9, as stated, fails: the padded candidate is accepted and created, and
    the row read back by its identifier holds the padded name, which is not
    the trimmed one. *)
Lemma read_back_is_not_trimmed :
  exists mineral response db' message row,
    Catalog.Mineral.validate Spec.padded_quartz_body = inr mineral
    /\ Catalog.create_mineral mineral [] = (Http.OK response, db')
    /\ Catalog.get_minerals Spec.show_real Spec.base_attributes
         (Some "AB-1234") None None None None None 1 10 db'
       = Http.OK (Catalog.mk_listing message [row])
    /\ Catalog.MineralDB.name row = "  Quartz  "
    /\ Catalog.MineralDB.name row
       <> Py.strip (Catalog.Body.name Spec.padded_quartz_body).
Proof.
  exists Spec.padded_quartz. do 4 eexists.
  repeat split; try reflexivity. discriminate.
Qed.

(** ** Search and exact filters *)

Lemma place_In {A : Type} (cmp : A -> A -> comparison) (x y : A) (l : list A) :
  In x (Sql.place cmp y l) <-> x = y \/ In x l.
Proof.
  induction l as [|z l IH]; simpl.
  - intuition.
  - destruct (cmp y z); simpl; rewrite ?IH; intuition.
Qed.

Lemma order_by_In {A : Type} (cmp : A -> A -> comparison) (x : A) (l : list A) :
  In x (Sql.order_by cmp l) <-> In x l.
Proof.
  unfold Sql.order_by.
  induction l as [|y l IH]; simpl.
  - reflexivity.
  - rewrite place_In, IH. intuition.
Qed.

Lemma mineral_sorted_In (others : Catalog.other_attributes)
  (sort : option string) (q q' : list Catalog.MineralDB.t)
  (x : Catalog.MineralDB.t) :
  Catalog.sorted others sort q = Http.OK q' -> In x q' <-> In x q.
Proof.
  unfold Catalog.sorted, Catalog.order_by_other. intros H.
  repeat match type of H with
         | context [match ?c with _ => _ end] => destruct c
         end;
    inversion H; subst; try apply order_by_In; reflexivity.
Qed.

Lemma game_sorted_In (others : Game.other_attributes)
  (sort : option string) (q q' : list Game.GamesDB.t)
  (x : Game.GamesDB.t) :
  Game.sorted others sort q = Http.OK q' -> In x q' <-> In x q.
Proof.
  unfold Game.sorted, Game.order_by_other. intros H.
  repeat match type of H with
         | context [match ?c with _ => _ end] => destruct c
         end;
    inversion H; subst; try apply order_by_In; reflexivity.
Qed.






Example scenario_search_and_filter :
  Spec.minerals_of
    (Catalog.get_minerals Spec.show_real Spec.base_attributes None None None
       None (Some "Brazil") None 1 10 Spec.three_minerals)
  = map Catalog.MineralDB_new [Spec.quartz; Spec.beryl]
  /\ Catalog.get_minerals Spec.show_real Spec.base_attributes None None None
       (Some "brazil") None None 1 10 Spec.three_minerals
     = Http.OK (Catalog.mk_listing "Найдено 0 минералов на странице 1" [])
  /\ Spec.minerals_of
       (Catalog.get_minerals Spec.show_real Spec.base_attributes None None None
          None (Some "brazil") None 1 10 Spec.three_minerals)
     = map Catalog.MineralDB_new [Spec.quartz; Spec.beryl].
Proof. repeat split; reflexivity. Qed.

(** *** LIKE patterns built from a search string *)

Lemma like_cons (p : ascii) (pattern text : string) :
  Sql.match_like (String p pattern) text
  = if Ascii.eqb p "%" then
      Sql.match_like pattern text
      || match text with
         | EmptyString => false
         | String _ text' => Sql.match_like (String p pattern) text'
         end
    else if Ascii.eqb p "_" then
      match text with
      | EmptyString => false
      | String _ text' => Sql.match_like pattern text'
      end
    else
      match text with
      | EmptyString => false
      | String c text' =>
          Ascii.eqb (Sql.lower_char p) (Sql.lower_char c)
          && Sql.match_like pattern text'
      end.
Proof.
  cbn [Sql.match_like].
  destruct (Ascii.eqb p "%") eqn:E.
  - destruct text; reflexivity.
  - destruct (Ascii.eqb p "_"); reflexivity.
Qed.

Lemma like_percent_all (text : string) : Sql.match_like "%" text = true.
Proof.
  induction text as [|c text IH].
  - reflexivity.
  - rewrite like_cons. cbn [Ascii.eqb Bool.eqb]. cbn. exact IH.
Qed.

Ltac by_character a :=
  destruct a as [b0 b1 b2 b3 b4 b5 b6 b7];
  destruct b0, b1, b2, b3, b4, b5, b6, b7; reflexivity.

Lemma lower_char_percent (a : ascii) :
  Ascii.eqb (Sql.lower_char a) "%" = Ascii.eqb a "%".
Proof. by_character a. Qed.

Lemma lower_char_underscore (a : ascii) :
  Ascii.eqb (Sql.lower_char a) "_" = Ascii.eqb a "_".
Proof. by_character a. Qed.

Lemma lower_char_twice (a : ascii) :
  Sql.lower_char (Sql.lower_char a) = Sql.lower_char a.
Proof. by_character a. Qed.

Lemma lower_append (s t : string) :
  Sql.lower (s ++ t) = Sql.lower s ++ Sql.lower t.
Proof.
  induction s as [|c s IH]; simpl; [reflexivity | now rewrite IH].
Qed.

Lemma lower_char_nul (a : ascii) :
  (N_of_ascii (Sql.lower_char a) =? 0)%N = (N_of_ascii a =? 0)%N.
Proof. by_character a. Qed.

Lemma until_nul_lower (s : string) :
  Sql.until_nul (Sql.lower s) = Sql.lower (Sql.until_nul s).
Proof.
  induction s as [|c s IH]; [reflexivity|].
  cbn [Sql.lower Sql.until_nul]. rewrite lower_char_nul.
  destruct (N_of_ascii c =? 0)%N; [reflexivity|].
  cbn [Sql.lower]. now rewrite IH.
Qed.

Lemma until_nul_plain (s t : string) :
  Spec.plain s = true -> Sql.until_nul (s ++ t) = s ++ Sql.until_nul t.
Proof.
  induction s as [|c s IH]; intros H; [reflexivity|].
  cbn [Spec.plain] in H.
  apply andb_true_iff in H as [H Hs]. apply andb_true_iff in H as [_ Hnul].
  apply negb_true_iff in Hnul.
  cbn [append Sql.until_nul]. rewrite Hnul. now rewrite IH.
Qed.

(** The two characters that [Spec.same_letter] relates are the ones that
    [lower()] sends to one character: checked on every pair of characters. *)
Lemma same_letter_lower (a b : ascii) :
  Spec.same_letter a b = Ascii.eqb (Sql.lower_char a) (Sql.lower_char b).
Proof.
  assert (H : forallb
                (fun x =>
                   forallb
                     (fun y =>
                        Bool.eqb (Spec.same_letter x y)
                          (Ascii.eqb (Sql.lower_char x) (Sql.lower_char y)))
                     (map ascii_of_nat (seq 0 256)))
                (map ascii_of_nat (seq 0 256))
              = true)
    by (vm_compute; reflexivity).
  assert (Hall : forall c, In c (map ascii_of_nat (seq 0 256))).
  { intros c. apply in_map_iff. exists (nat_of_ascii c). split.
    - apply ascii_nat_embedding.
    - apply in_seq. pose proof (nat_ascii_bounded c). lia. }
  rewrite forallb_forall in H. specialize (H a (Hall a)).
  rewrite forallb_forall in H. specialize (H b (Hall b)).
  now apply Bool.eqb_prop in H.
Qed.

Lemma like_plain_prefix (needle text : string) :
  Spec.plain needle = true ->
  Sql.match_like (Sql.lower needle ++ "%") (Sql.lower text)
  = Spec.prefix_nocase needle text.
Proof.
  revert text. induction needle as [|a needle IH]; intros text Hplain.
  - simpl. apply like_percent_all.
  - simpl in Hplain.
    apply andb_true_iff in Hplain as [Ha Hplain].
    apply andb_true_iff in Ha as [Ha _].
    apply andb_true_iff in Ha as [Hpercent Hunder].
    apply negb_true_iff in Hpercent, Hunder.
    cbn [Sql.lower append]. rewrite like_cons.
    rewrite lower_char_percent, lower_char_underscore, Hpercent, Hunder.
    destruct text as [|c text]; [reflexivity|].
    cbn [Sql.lower Spec.prefix_nocase].
    now rewrite !lower_char_twice, IH, same_letter_lower.
Qed.

Lemma match_plain_contains (needle text : string) :
  Spec.plain needle = true ->
  Sql.match_like ("%" ++ Sql.lower needle ++ "%") (Sql.lower text)
  = Spec.contains_nocase needle text.
Proof.
  intros Hplain.
  induction text as [|c text IH].
  - cbn [Sql.lower append]. rewrite like_cons. cbn [Ascii.eqb Bool.eqb].
    change (Sql.match_like (Sql.lower needle ++ "%") "")
      with (Sql.match_like (Sql.lower needle ++ "%") (Sql.lower "")).
    rewrite like_plain_prefix by assumption.
    reflexivity.
  - cbn [Sql.lower append]. rewrite like_cons. cbn [Ascii.eqb Bool.eqb].
    change (String (Sql.lower_char c) (Sql.lower text))
      with (Sql.lower (String c text)).
    rewrite like_plain_prefix by assumption.
    cbn [Spec.contains_nocase]. f_equal. exact IH.
Qed.

Lemma ilike_plain_contains (needle text : string) :
  Spec.plain needle = true ->
  Sql.ilike text ("%" ++ needle ++ "%")
  = Spec.contains_nocase needle (Sql.until_nul text).
Proof.
  intros Hplain. unfold Sql.ilike, Sql.like.
  rewrite !until_nul_lower.
  change (Sql.until_nul ("%" ++ needle ++ "%"))
    with ("%" ++ Sql.until_nul (needle ++ "%")).
  rewrite until_nul_plain by assumption.
  change (Sql.until_nul "%") with "%".
  rewrite lower_append, lower_append.
  change (Sql.lower "%") with "%".
  now apply match_plain_contains.
Qed.

(** What the search stage does for a search string free of the two LIKE
    wildcards and of NUL: a mineral is kept exactly when one of its eight
    fields, cast to text and read up to its first NUL if it has one,
    contains the string up to the case of the 26 letters; a game is kept
    exactly when one of its fields other than the release date does. *)
Theorem plain_search_is_a_substring_search :
  forall (cast_real : Py.float -> string) (search : string),
    Spec.plain search = true ->
    (forall r,
        Catalog.search_clause cast_real ("%" ++ search ++ "%") r
        = Spec.search_includes search
            (map Sql.until_nul (Spec.mineral_texts cast_real r)))
    /\ (forall r,
        Game.search_clause ("%" ++ search ++ "%") r
        = Spec.search_includes search
            (map Sql.until_nul (Spec.game_texts_but_date r))).
Proof.
  intros cast_real search Hplain. split; intros r.
  - unfold Catalog.search_clause, Spec.search_includes, Spec.mineral_texts.
    rewrite !ilike_plain_contains by assumption.
    cbn [existsb map]. rewrite orb_false_r, !orb_assoc. reflexivity.
  - unfold Game.search_clause, Spec.search_includes, Spec.game_texts_but_date,
      Sql.ilike_null.
    rewrite !ilike_plain_contains by assumption.
    destruct (Game.rating_text r) as [t|];
      cbn [existsb Spec.text_if_any app map].
    + rewrite ilike_plain_contains by assumption.
      rewrite orb_false_r, !orb_assoc. reflexivity.
    + rewrite !orb_assoc. reflexivity.
Qed.

Lemma plain_search_is_a_substring_search_witness :
  Catalog.search_clause Spec.show_real ("%" ++ "RAZ" ++ "%")
    (Catalog.MineralDB_new Spec.quartz)
  = Spec.search_includes "RAZ"
      (map Sql.until_nul
         (Spec.mineral_texts Spec.show_real (Catalog.MineralDB_new Spec.quartz)))
  /\ Game.search_clause ("%" ++ "pegi" ++ "%") (Game.GamesDB_new Spec.tetris)
     = Spec.search_includes "pegi"
         (map Sql.until_nul
            (Spec.game_texts_but_date (Game.GamesDB_new Spec.tetris))).
Proof.
  destruct (plain_search_is_a_substring_search Spec.show_real "RAZ" eq_refl)
    as [Hm _].
  destruct (plain_search_is_a_substring_search Spec.show_real "pegi" eq_refl)
    as [_ Hg].
  split; [exact (Hm (Catalog.MineralDB_new Spec.quartz))
         | exact (Hg (Game.GamesDB_new Spec.tetris))].
Defined.

(** C3, the input on which the code departs from it.  The stored game
    "Tetris" was released in 1989: its release date, cast to text, contains
    ["1989"], so some field of the record contains the search string, yet the
    list call with [search="1989"] answers with no record, because the search
    filter of [get_games] has no condition on [release_date]. *)
Theorem games_search_misses_the_release_date :
  Spec.search_includes "1989" (Spec.game_texts (Game.GamesDB_new Spec.tetris)) = true
  /\ Spec.contains_nocase "1989"
       (Sql.DATETIME_text (Game.GamesDB.release_date (Game.GamesDB_new Spec.tetris)))
     = true
  /\ forall g_others : Game.other_attributes,
       Game.get_games g_others None None None None None (Some "1989") None 1 10
         [Game.GamesDB_new Spec.tetris]
       = Http.OK (Game.mk_listing "Найдено 0 игр на странице 1" []).
Proof. repeat split; reflexivity. Qed.

Example wildcards_in_search :
  Spec.minerals_of
    (Catalog.get_minerals Spec.show_real Spec.base_attributes None None None
       None (Some "%") None 1 10 Spec.three_minerals)
  = Spec.three_minerals
  /\ Spec.search_includes "%"
       (Spec.mineral_texts Spec.show_real (Catalog.MineralDB_new Spec.quartz))
     = false.
Proof. split; reflexivity. Qed.

Example rating_is_searched_by_name :
  Spec.games_of
    (Game.get_games Spec.base_attributes None None None None None
       (Some "PEGI 3") None 1 10 Spec.two_games)
  = []
  /\ Spec.games_of
       (Game.get_games Spec.base_attributes None None None None None
          (Some "pegi_3") None 1 10 Spec.two_games)
     = [Game.GamesDB_new Spec.tetris].
Proof. split; reflexivity. Qed.

(** A NUL ends what LIKE reads of a text and of a pattern: a name with a
    NUL in it is searched up to the NUL only, and a search string is used
    up to its first NUL. *)
Example search_reads_up_to_a_NUL :
  Sql.ilike (String "a" (String (ascii_of_N 0) "quartz")) "%quartz%" = false
  /\ Sql.ilike "silica" (String "%" (String "a" (String (ascii_of_N 0) "zzz%")))
     = true.
Proof. split; reflexivity. Qed.

(** ** The primary key is kept by every call *)

Lemma mineral_absent_id (id : string) (db : Catalog.table) :
  Catalog.first_by_id id db = None ->
  ~ In id (map Catalog.MineralDB.catalog_id db).
Proof.
  unfold Catalog.first_by_id. intros H. apply first_nil_iff in H.
  induction db as [|r db IH]; simpl in *.
  - tauto.
  - destruct (String.eqb (Catalog.MineralDB.catalog_id r) id) eqn:E;
      [discriminate|].
    apply String.eqb_neq in E. intros [Hr | Hin]; [contradiction | now apply IH].
Qed.

Lemma game_absent_id (id : string) (db : Game.table) :
  Game.first_by_id id db = None ->
  ~ In id (map Game.GamesDB.game_id db).
Proof.
  unfold Game.first_by_id. intros H. apply first_nil_iff in H.
  induction db as [|r db IH]; simpl in *.
  - tauto.
  - destruct (String.eqb (Game.GamesDB.game_id r) id) eqn:E; [discriminate|].
    apply String.eqb_neq in E. intros [Hr | Hin]; [contradiction | now apply IH].
Qed.

Lemma mineral_update_row_ids (id : string)
  (f : Catalog.MineralDB.t -> Catalog.MineralDB.t) (db : Catalog.table) :
  (forall r, Catalog.MineralDB.catalog_id (f r) = id) ->
  map Catalog.MineralDB.catalog_id (Catalog.update_row id f db)
  = map Catalog.MineralDB.catalog_id db.
Proof.
  intros Hf. induction db as [|r db IH]; simpl.
  - reflexivity.
  - destruct (String.eqb (Catalog.MineralDB.catalog_id r) id) eqn:E; simpl.
    + apply String.eqb_eq in E. now rewrite Hf, E.
    + now rewrite IH.
Qed.

Lemma game_update_row_ids (id : string)
  (f : Game.GamesDB.t -> Game.GamesDB.t) (db : Game.table) :
  (forall r, Game.GamesDB.game_id (f r) = id) ->
  map Game.GamesDB.game_id (Game.update_row id f db)
  = map Game.GamesDB.game_id db.
Proof.
  intros Hf. induction db as [|r db IH]; simpl.
  - reflexivity.
  - destruct (String.eqb (Game.GamesDB.game_id r) id) eqn:E; simpl.
    + apply String.eqb_eq in E. now rewrite Hf, E.
    + now rewrite IH.
Qed.

Lemma mineral_delete_row_ids (id x : string) (db : Catalog.table) :
  In x (map Catalog.MineralDB.catalog_id (Catalog.delete_row id db)) ->
  In x (map Catalog.MineralDB.catalog_id db).
Proof.
  induction db as [|r db IH]; simpl; [tauto|].
  destruct (String.eqb (Catalog.MineralDB.catalog_id r) id); simpl; tauto.
Qed.

Lemma game_delete_row_ids (id x : string) (db : Game.table) :
  In x (map Game.GamesDB.game_id (Game.delete_row id db)) ->
  In x (map Game.GamesDB.game_id db).
Proof.
  induction db as [|r db IH]; simpl; [tauto|].
  destruct (String.eqb (Game.GamesDB.game_id r) id); simpl; tauto.
Qed.

(** Whatever call is made on a table whose identifiers are pairwise distinct,
    the identifiers of the table it leaves are pairwise distinct. *)
Theorem every_call_keeps_the_primary_key :
  (forall (c : Catalog.call) (db : Catalog.table),
      Catalog.primary_key db -> Catalog.primary_key (Catalog.table_after c db))
  /\ (forall (c : Game.call) (db : Game.table),
      Game.primary_key db -> Game.primary_key (Game.table_after c db)).
Proof.
  split.
  - unfold Catalog.primary_key. intros c db Hkey.
    destruct c as [ | |mineral|id mineral|id]; simpl; try assumption.
    + unfold Catalog.create_mineral.
      destruct (Catalog.first_by_id (Catalog.Mineral.catalog_id mineral) db) eqn:E;
        simpl; [assumption|].
      destruct (Catalog.write_error (Catalog.MineralDB_new mineral));
        cbn [snd]; [assumption|].
      rewrite map_app. apply NoDup_app; [assumption | repeat constructor; tauto |].
      intros a Ha [<- | []]. now apply (mineral_absent_id _ _ E).
    + unfold Catalog.update_mineral.
      destruct (String.eqb id (Catalog.Mineral.catalog_id mineral)) eqn:E;
        cbn [negb snd]; [|assumption].
      destruct (Catalog.first_by_id id db); cbn [snd]; [|assumption].
      cbv zeta. destruct (Catalog.write_error _); cbn [snd]; [assumption|].
      rewrite mineral_update_row_ids; [assumption|].
      intros r. rewrite mineral_assign_all. apply String.eqb_eq in E.
      now rewrite E.
    + unfold Catalog.delete_mineral.
      destruct (Catalog.first_by_id id db); cbn [snd]; [|assumption].
      clear -Hkey. induction db as [|r db IH]; simpl; [constructor|].
      simpl in Hkey. apply NoDup_cons_iff in Hkey as [Hr Hdb].
      destruct (String.eqb (Catalog.MineralDB.catalog_id r) id); [assumption|].
      simpl. constructor; [|now apply IH].
      intros Hin. apply Hr. eapply mineral_delete_row_ids; eauto.
  - unfold Game.primary_key. intros c db Hkey.
    destruct c as [ | |game|id game|id]; simpl; try assumption.
    + unfold Game.create_game.
      destruct (Game.first_by_id (Game.Games.game_id game) db) eqn:E;
        simpl; [assumption|].
      rewrite map_app. apply NoDup_app; [assumption | repeat constructor; tauto |].
      intros a Ha [<- | []]. now apply (game_absent_id _ _ E).
    + unfold Game.update_game.
      destruct (String.eqb id (Game.Games.game_id game)) eqn:E;
        cbn [negb snd]; [|assumption].
      destruct (Game.first_by_id id db); cbn [snd]; [|assumption].
      rewrite game_update_row_ids; [assumption|].
      intros r. rewrite game_assign_all. apply String.eqb_eq in E.
      now rewrite E.
    + unfold Game.delete_game.
      destruct (Game.first_by_id id db); cbn [snd]; [|assumption].
      clear -Hkey. induction db as [|r db IH]; simpl; [constructor|].
      simpl in Hkey. apply NoDup_cons_iff in Hkey as [Hr Hdb].
      destruct (String.eqb (Game.GamesDB.game_id r) id); [assumption|].
      simpl. constructor; [|now apply IH].
      intros Hin. apply Hr. eapply game_delete_row_ids; eauto.
Qed.

Lemma every_call_keeps_the_primary_key_witness :
  Catalog.primary_key
    (Catalog.table_after (Catalog.Create_mineral Spec.quartz)
       (tl Spec.three_minerals))
  /\ Game.primary_key
       (Game.table_after (Game.Delete_game "AB-0001") Spec.two_games).
Proof.
  destruct every_call_keeps_the_primary_key as [Hm Hg]. split.
  - apply Hm. unfold Catalog.primary_key. simpl.
    repeat constructor; simpl; intuition discriminate.
  - apply Hg. unfold Game.primary_key. simpl.
    repeat constructor; simpl; intuition discriminate.
Defined.

Example scenario_create_twice :
  Catalog.Mineral.validate Spec.quartz_body = inr Spec.quartz
  /\ Catalog.create_mineral Spec.quartz []
     = (Http.OK ("Минерал добавлен", Spec.quartz),
        [Catalog.MineralDB_new Spec.quartz])
  /\ fst (Catalog.create_mineral Spec.quartz [Catalog.MineralDB_new Spec.quartz])
     = Http.HTTPException 400 "Минерал с таким ID уже существует".
Proof. repeat split; reflexivity. Qed.

(** * Further properties of the handlers *)

(** ** The query is one conjunctive filter, then the sort *)

Lemma filter_all {A : Type} (l : list A) : filter (fun _ => true) l = l.
Proof. induction l as [|x l IH]; simpl; [reflexivity | now rewrite IH]. Qed.

Lemma filter_and {A : Type} (f g : A -> bool) (l : list A) :
  filter g (filter f l) = filter (fun x => f x && g x) l.
Proof.
  induction l as [|x l IH]; simpl; [reflexivity|].
  destruct (f x); simpl; [destruct (g x)|]; now rewrite IH.
Qed.

Lemma when_given_passes {A : Type} (p : option string) (field : A -> string)
  (q : list A) :
  Py.when_given p (fun v => filter (fun r => String.eqb (field r) v)) q
  = filter (fun r => Notions.passes p (field r)) q.
Proof.
  unfold Py.when_given, Notions.passes.
  destruct p as [v|]; [destruct (Py.bool_str v)|];
    first [reflexivity | now rewrite filter_all].
Qed.

Lemma when_given_found {A : Type} (search : option string)
  (clause : string -> A -> bool) (q : list A) :
  Py.when_given search (fun s => filter (clause ("%" ++ s ++ "%"))) q
  = filter (Notions.found search clause) q.
Proof.
  unfold Py.when_given, Notions.found.
  destruct search as [v|]; [destruct (Py.bool_str v)|];
    first [reflexivity | now rewrite filter_all].
Qed.

Lemma mineral_query_as_filter (cast_real : Py.float -> string)
  (others : Catalog.other_attributes) (catalog_id name : option string) (rarity : option Catalog.RarityType)
  (origin_country search sort : option string) (db : Catalog.table) :
  Catalog.minerals_query cast_real others catalog_id name rarity
    origin_country search sort db
  = Catalog.sorted others sort
      (filter (Notions.mineral_selected cast_real catalog_id name rarity
                 origin_country search) db).
Proof.
  unfold Catalog.minerals_query, Notions.mineral_selected.
  rewrite when_given_found.
  rewrite (when_given_passes catalog_id Catalog.MineralDB.catalog_id).
  rewrite (when_given_passes name Catalog.MineralDB.name).
  rewrite (when_given_passes origin_country Catalog.MineralDB.origin_country).
  f_equal. destruct rarity as [v|]; rewrite !filter_and;
    apply filter_ext; intros r;
    rewrite ?andb_true_r, ?andb_assoc; reflexivity.
Qed.

Lemma game_query_as_filter (others : Game.other_attributes)
  (game_id name genre platform : option string)
  (rating : option Game.RatingType) (search sort : option string)
  (db : Game.table) :
  Game.games_query others game_id name genre platform rating search sort db
  = Game.sorted others sort
      (filter (Notions.game_selected game_id name genre platform rating search)
              db).
Proof.
  unfold Game.games_query, Notions.game_selected.
  rewrite when_given_found.
  rewrite (when_given_passes game_id Game.GamesDB.game_id).
  rewrite (when_given_passes name Game.GamesDB.name).
  rewrite (when_given_passes genre Game.GamesDB.genre).
  rewrite (when_given_passes platform Game.GamesDB.platform).
  f_equal. destruct rating as [v|]; rewrite !filter_and;
    apply filter_ext; intros r;
    rewrite ?andb_true_r, ?andb_assoc; reflexivity.
Qed.

(** The search and the exact filters of either list endpoint amount to one
    filter by the conjunction of the conditions supplied, applied to the
    table in its own order, followed by the sort: the order in which the
    conditions are chained does not matter. *)
Theorem query_is_one_conjunctive_filter :
  forall (cast_real : Py.float -> string) (m_others : Catalog.other_attributes)
         (g_others : Game.other_attributes),
    (forall catalog_id name rarity origin_country search sort db,
        Catalog.minerals_query cast_real m_others catalog_id name rarity
          origin_country search sort db
        = Catalog.sorted m_others sort
            (filter (Notions.mineral_selected cast_real catalog_id name rarity
                       origin_country search) db))
    /\ (forall game_id name genre platform rating search sort db,
        Game.games_query g_others game_id name genre platform rating search
          sort db
        = Game.sorted g_others sort
            (filter (Notions.game_selected game_id name genre platform rating
                       search) db)).
Proof.
  intros cast_real m_others g_others. split; intros.
  - apply mineral_query_as_filter.
  - apply game_query_as_filter.
Qed.

(** Every row a list call answers with is a row of the table that passes
    the search and every exact filter supplied with the call, whatever the
    sort and the page are. *)
Theorem listed_rows_are_stored_and_selected :
  forall (cast_real : Py.float -> string) (m_others : Catalog.other_attributes)
         (g_others : Game.other_attributes),
    (forall catalog_id name rarity origin_country search sort page per_page db
            listing r,
        Catalog.get_minerals cast_real m_others catalog_id name rarity
          origin_country search sort page per_page db = Http.OK listing ->
        In r (Catalog.data listing) ->
        In r db
        /\ Notions.mineral_selected cast_real catalog_id name rarity
             origin_country search r = true)
    /\ (forall game_id name genre platform rating search sort page per_page db
               listing r,
        Game.get_games g_others game_id name genre platform rating search sort
          page per_page db = Http.OK listing ->
        In r (Game.data listing) ->
        In r db
        /\ Notions.game_selected game_id name genre platform rating search r
           = true).
Proof.
  intros cast_real m_others g_others. split.
  - intros cid name rarity oc search sort page per_page db listing r H Hr.
    apply mineral_page_inv in H as (q & Hq & _ & _ & Hdata).
    rewrite Hdata in Hr. apply slice_incl in Hr.
    rewrite mineral_query_as_filter in Hq.
    apply (mineral_sorted_In _ _ _ _ r Hq) in Hr.
    now apply filter_In in Hr.
  - intros gid name genre platform rating search sort page per_page db listing
      r H Hr.
    apply game_page_inv in H as (q & Hq & _ & _ & Hdata).
    rewrite Hdata in Hr. apply slice_incl in Hr.
    rewrite game_query_as_filter in Hq.
    apply (game_sorted_In _ _ _ _ r Hq) in Hr.
    now apply filter_In in Hr.
Qed.

Lemma listed_rows_are_stored_and_selected_witness :
  (In (Catalog.MineralDB_new Spec.beryl) Spec.three_minerals
   /\ Notions.mineral_selected Spec.show_real None None (Some Catalog.RARE)
        (Some "Brazil") (Some "be") (Catalog.MineralDB_new Spec.beryl) = true)
  /\ (In (Game.GamesDB_new Spec.doom) Spec.two_games
      /\ Notions.game_selected None None (Some "Shooter") None None (Some "mars")
           (Game.GamesDB_new Spec.doom) = true).
Proof.
  destruct (listed_rows_are_stored_and_selected Spec.show_real
              Spec.base_attributes Spec.base_attributes) as [Hm Hg].
  split.
  - eapply (Hm None None (Some Catalog.RARE) (Some "Brazil") (Some "be")
              (Some "-name") 1 10 Spec.three_minerals).
    + reflexivity.
    + simpl. now left.
  - eapply (Hg None None (Some "Shooter") None None (Some "mars") None 1 10
              Spec.two_games).
    + reflexivity.
    + simpl. now left.
Defined.


(** ** The sort step *)

Section Ordering.
Context {A : Type} (cmp : A -> A -> comparison).
Hypothesis cmp_antisym : forall a b, cmp a b = CompOpp (cmp b a).

Lemma place_permutation (x : A) (l : list A) :
  Permutation (x :: l) (Sql.place cmp x l).
Proof.
  induction l as [|y l IH]; simpl.
  - apply Permutation_refl.
  - destruct (cmp x y); try apply Permutation_refl.
    eapply perm_trans; [apply perm_swap | now apply perm_skip].
Qed.

Lemma order_by_permutation (l : list A) : Permutation l (Sql.order_by cmp l).
Proof.
  unfold Sql.order_by. induction l as [|x l IH]; simpl.
  - apply perm_nil.
  - eapply perm_trans; [apply perm_skip, IH | apply place_permutation].
Qed.

Lemma place_sorted (x : A) (l : list A) :
  Sorted (fun a b => cmp a b <> Gt) l ->
  Sorted (fun a b => cmp a b <> Gt) (Sql.place cmp x l).
Proof.
  induction l as [|y l IH]; simpl; intros Hs.
  - repeat constructor.
  - destruct (cmp x y) eqn:E.
    + constructor; [assumption | constructor; rewrite E; discriminate].
    + constructor; [assumption | constructor; rewrite E; discriminate].
    + assert (Hyx : cmp y x <> Gt).
      { rewrite cmp_antisym, E. discriminate. }
      apply Sorted_inv in Hs as [Hl Hy].
      constructor; [now apply IH|].
      destruct l as [|z l]; simpl.
      * now constructor.
      * apply HdRel_inv in Hy.
        destruct (cmp x z); now constructor.
Qed.

Lemma order_by_sorted (l : list A) :
  Sorted (fun a b => cmp a b <> Gt) (Sql.order_by cmp l).
Proof.
  unfold Sql.order_by. induction l as [|x l IH]; simpl.
  - constructor.
  - now apply place_sorted.
Qed.

End Ordering.

Lemma desc_antisym {A : Type} (cmp : A -> A -> comparison) :
  (forall a b, cmp a b = CompOpp (cmp b a)) ->
  forall a b, Sql.desc cmp a b = CompOpp (Sql.desc cmp b a).
Proof. intros H a b. unfold Sql.desc. now rewrite (H a b). Qed.

Lemma order_by_desc_sorted {A : Type} (cmp : A -> A -> comparison) (l : list A) :
  (forall a b, cmp a b = CompOpp (cmp b a)) ->
  Sorted (fun a b => cmp a b <> Lt) (Sql.order_by (Sql.desc cmp) l).
Proof.
  intros H.
  pose proof (order_by_sorted (Sql.desc cmp) (desc_antisym cmp H) l) as Hs.
  induction Hs as [|a l' Hl IH Hh]; constructor; [assumption|].
  destruct Hh as [|b l'' Hab]; constructor.
  unfold Sql.desc in Hab. destruct (cmp a b); simpl in Hab; congruence.
Qed.

Lemma null_compare_antisym (a b : option string) :
  Sql.compare_null a b = CompOpp (Sql.compare_null b a).
Proof.
  destruct a, b; simpl; try reflexivity. apply String.compare_antisym.
Qed.

Lemma real_compare_antisym (a b : Py.float) :
  Sql.compare_real a b = CompOpp (Sql.compare_real b a).
Proof.
  destruct a as [x|[|]|], b as [y|[|]|]; simpl; try reflexivity.
  symmetry. apply Qcompare_antisym.
Qed.

Lemma mineral_compare_antisym (c : Catalog.column) (a b : Catalog.MineralDB.t) :
  Catalog.compare_on c a b = CompOpp (Catalog.compare_on c b a).
Proof.
  destruct c; simpl;
    first [apply String.compare_antisym | apply Z.compare_antisym
          | apply real_compare_antisym].
Qed.

Lemma game_compare_antisym (c : Game.column) (a b : Game.GamesDB.t) :
  Game.compare_on c a b = CompOpp (Game.compare_on c b a).
Proof.
  destruct c; simpl;
    first [apply String.compare_antisym | apply null_compare_antisym].
Qed.


(** A non-empty sort specifier that names a column, after an optional ["-"],
    never fails: the sort step answers with a rearrangement of the rows it
    was given in which every row and its successor are in the order asked
    for, ascending for a plain name, descending after ["-"]. *)
Theorem sort_orders_the_rows :
  forall (m_others : Catalog.other_attributes)
         (g_others : Game.other_attributes) (sort : string),
    Py.bool_str sort = true ->
    (forall c q,
        Catalog.getattr m_others (Spec.sort_field sort)
        = Some (Catalog.Column c) ->
        exists q',
          Catalog.sorted m_others (Some sort) q = Http.OK q'
          /\ Permutation q q'
          /\ Sorted (Notions.in_order sort (Catalog.compare_on c)) q')
    /\ (forall c q,
        Game.getattr g_others (Spec.sort_field sort) = Some (Game.Column c) ->
        exists q',
          Game.sorted g_others (Some sort) q = Http.OK q'
          /\ Permutation q q'
          /\ Sorted (Notions.in_order sort (Game.compare_on c)) q').
Proof.
  intros m_others g_others sort Hs. unfold Spec.sort_field, Notions.in_order.
  split; intros c q Hattr.
  - unfold Catalog.sorted. rewrite Hs.
    destruct (Py.startswith_minus sort); rewrite Hattr; eexists;
      (split; [reflexivity | split; [apply order_by_permutation|]]).
    + apply order_by_desc_sorted, mineral_compare_antisym.
    + apply order_by_sorted, mineral_compare_antisym.
  - unfold Game.sorted. rewrite Hs.
    destruct (Py.startswith_minus sort); rewrite Hattr; eexists;
      (split; [reflexivity | split; [apply order_by_permutation|]]).
    + apply order_by_desc_sorted, game_compare_antisym.
    + apply order_by_sorted, game_compare_antisym.
Qed.

Lemma sort_orders_the_rows_witness :
  (exists q',
      Catalog.sorted Spec.base_attributes (Some "-hardness") Spec.three_minerals
      = Http.OK q'
      /\ Permutation Spec.three_minerals q'
      /\ Sorted (Notions.in_order "-hardness"
                   (Catalog.compare_on Catalog.Col_hardness)) q')
  /\ (exists q',
         Game.sorted Spec.base_attributes (Some "name") Spec.two_games
         = Http.OK q'
         /\ Permutation Spec.two_games q'
         /\ Sorted (Notions.in_order "name" (Game.compare_on Game.Col_name)) q').
Proof.
  destruct (sort_orders_the_rows Spec.base_attributes Spec.base_attributes
              "-hardness" eq_refl) as [Hm _].
  destruct (sort_orders_the_rows Spec.base_attributes Spec.base_attributes
              "name" eq_refl) as [_ Hg].
  split.
  - apply Hm. reflexivity.
  - apply Hg. reflexivity.
Defined.

(** ** Pages at and beyond the bounds *)

Lemma slice_length {A : Type} (offset n : Z) (l : list A) :
  0 <= n -> Z.of_nat (List.length (Notions.slice offset n l)) <= n.
Proof.
  intros Hn. unfold Notions.slice.
  destruct (n <? 0) eqn:E; [apply Z.ltb_lt in E; lia|].
  pose proof (firstn_le_length (Z.to_nat n) (skipn (Z.to_nat offset) l)). lia.
Qed.

Lemma slice_past_the_end {A : Type} (offset n : Z) (l : list A) :
  Z.of_nat (List.length l) <= offset -> Notions.slice offset n l = [].
Proof.
  intros Hn. unfold Notions.slice. rewrite skipn_all2 by lia.
  destruct (n <? 0); [reflexivity | apply firstn_nil].
Qed.

(** With a [per_page >= 0] and an offset [(page - 1) * per_page] that both
    fit 64 bits, a page never holds more than [per_page] rows, and a page
    that starts at or beyond the end of the result is answered like any
    other, with no rows: asking past the last page is not an error. *)
Theorem page_size_is_bounded :
  forall (cast_real : Py.float -> string) (m_others : Catalog.other_attributes)
         (g_others : Game.other_attributes) (page per_page : Z),
    0 <= per_page < 2 ^ 63 ->
    - 2 ^ 63 <= (page - 1) * per_page < 2 ^ 63 ->
    (forall catalog_id name rarity origin_country search sort db query,
        Catalog.minerals_query cast_real m_others catalog_id name rarity
          origin_country search sort db = Http.OK query ->
        exists listing,
          Catalog.get_minerals cast_real m_others catalog_id name rarity
            origin_country search sort page per_page db = Http.OK listing
          /\ Z.of_nat (List.length (Catalog.data listing)) <= per_page
          /\ (Z.of_nat (List.length query) <= (page - 1) * per_page ->
              Catalog.data listing = []))
    /\ (forall game_id name genre platform rating search sort db query,
        Game.games_query g_others game_id name genre platform rating search
          sort db = Http.OK query ->
        exists listing,
          Game.get_games g_others game_id name genre platform rating search
            sort page per_page db = Http.OK listing
          /\ Z.of_nat (List.length (Game.data listing)) <= per_page
          /\ (Z.of_nat (List.length query) <= (page - 1) * per_page ->
              Game.data listing = [])).
Proof.
  intros cast_real m_others g_others page per_page Hk Hoff.
  assert (Ho : Sql.int64 ((page - 1) * per_page) = true)
    by (apply int64_iff; lia).
  assert (Hl : Sql.int64 per_page = true) by (apply int64_iff; lia).
  split.
  - intros cid name rarity oc search sort db query Hq.
    destruct (mineral_page _ _ _ _ _ _ _ _ page per_page _ _ Hq Ho Hl)
      as [message Hget].
    eexists. split; [exact Hget|]. cbn [Catalog.data]. split.
    + apply slice_length. lia.
    + intros Hend. now apply slice_past_the_end.
  - intros gid name genre platform rating search sort db query Hq.
    destruct (game_page _ _ _ _ _ _ _ _ page per_page _ _ Hq Ho Hl)
      as [message Hget].
    eexists. split; [exact Hget|]. cbn [Game.data]. split.
    + apply slice_length. lia.
    + intros Hend. now apply slice_past_the_end.
Qed.

Lemma page_size_is_bounded_witness :
  0 <= 2 < 2 ^ 63
  /\ - 2 ^ 63 <= (3 - 1) * 2 < 2 ^ 63
  /\ (exists listing,
         Catalog.get_minerals Spec.show_real Spec.base_attributes None None
           None None None None 3 2 Spec.three_minerals = Http.OK listing
         /\ Z.of_nat (List.length (Catalog.data listing)) <= 2
         /\ (Z.of_nat (List.length Spec.three_minerals) <= (3 - 1) * 2 ->
             Catalog.data listing = []))
  /\ (exists listing,
         Game.get_games Spec.base_attributes None None None None None None
           None 3 2 Spec.two_games
         = Http.OK listing
         /\ Z.of_nat (List.length (Game.data listing)) <= 2
         /\ (Z.of_nat (List.length Spec.two_games) <= (3 - 1) * 2 ->
             Game.data listing = [])).
Proof.
  assert (H : 0 <= 2 < 2 ^ 63) by lia.
  assert (H' : - 2 ^ 63 <= (3 - 1) * 2 < 2 ^ 63) by lia.
  destruct (page_size_is_bounded Spec.show_real Spec.base_attributes
              Spec.base_attributes 3 2 H H') as [Hm Hg].
  split; [exact H | split; [exact H' | split]].
  - apply (Hm None None None None None None Spec.three_minerals). reflexivity.
  - apply (Hg None None None None None None None Spec.two_games). reflexivity.
Defined.

(** What non-positive page parameters do, there being no check on them, as
    long as [per_page] and the offset [(page - 1) * per_page] fit 64 bits
    (a call with one that does not ends with an unhandled [OverflowError]):
    a page number below 1 is answered with the rows of page 1, the first
    [per_page] rows of the result; [per_page = 0] is answered with no rows,
    whatever the page; a negative [per_page] removes the limit, so that
    every page from 1 on is answered with the whole result. *)
Theorem non_positive_page_parameters :
  forall (cast_real : Py.float -> string) (m_others : Catalog.other_attributes)
         (g_others : Game.other_attributes),
    (forall catalog_id name rarity origin_country search sort db query,
        Catalog.minerals_query cast_real m_others catalog_id name rarity
          origin_country search sort db = Http.OK query ->
        let answer page per_page :=
          Catalog.get_minerals cast_real m_others catalog_id name rarity
            origin_country search sort page per_page db in
        (forall page per_page,
            page <= 1 -> 0 <= per_page < 2 ^ 63 ->
            - 2 ^ 63 <= (page - 1) * per_page ->
            exists message message',
              answer page per_page
              = Http.OK (Catalog.mk_listing message
                           (firstn (Z.to_nat per_page) query))
              /\ answer 1 per_page
                 = Http.OK (Catalog.mk_listing message'
                              (firstn (Z.to_nat per_page) query)))
        /\ (forall page,
               exists message,
                 answer page 0 = Http.OK (Catalog.mk_listing message []))
        /\ (forall page per_page,
               1 <= page -> - 2 ^ 63 <= per_page < 0 ->
               - 2 ^ 63 <= (page - 1) * per_page ->
               exists message,
                 answer page per_page
                 = Http.OK (Catalog.mk_listing message query))
        /\ (forall page per_page,
               Sql.int64 ((page - 1) * per_page) && Sql.int64 per_page = false ->
               answer page per_page = Http.Unhandled Http.OverflowError))
    /\ (forall game_id name genre platform rating search sort db query,
        Game.games_query g_others game_id name genre platform rating search
          sort db = Http.OK query ->
        let answer page per_page :=
          Game.get_games g_others game_id name genre platform rating search
            sort page per_page db in
        (forall page per_page,
            page <= 1 -> 0 <= per_page < 2 ^ 63 ->
            - 2 ^ 63 <= (page - 1) * per_page ->
            exists message message',
              answer page per_page
              = Http.OK (Game.mk_listing message
                           (firstn (Z.to_nat per_page) query))
              /\ answer 1 per_page
                 = Http.OK (Game.mk_listing message'
                              (firstn (Z.to_nat per_page) query)))
        /\ (forall page,
               exists message,
                 answer page 0 = Http.OK (Game.mk_listing message []))
        /\ (forall page per_page,
               1 <= page -> - 2 ^ 63 <= per_page < 0 ->
               - 2 ^ 63 <= (page - 1) * per_page ->
               exists message,
                 answer page per_page
                 = Http.OK (Game.mk_listing message query))
        /\ (forall page per_page,
               Sql.int64 ((page - 1) * per_page) && Sql.int64 per_page = false ->
               answer page per_page = Http.Unhandled Http.OverflowError)).
Proof.
  intros cast_real m_others g_others.
  assert (Hlow : forall (A : Type) (q : list A) page per_page,
             page <= 1 -> 0 <= per_page ->
             Notions.slice ((page - 1) * per_page) per_page q
             = firstn (Z.to_nat per_page) q).
  { intros A q page per_page Hp Hk. unfold Notions.slice.
    replace (Z.to_nat ((page - 1) * per_page)) with 0%nat by nia.
    destruct (per_page <? 0) eqn:E; [apply Z.ltb_lt in E; lia | reflexivity]. }
  assert (Hzero : forall (A : Type) (q : list A) page,
             Notions.slice ((page - 1) * 0) 0 q = []).
  { intros A q page. unfold Notions.slice. reflexivity. }
  assert (Hneg : forall (A : Type) (q : list A) page per_page,
             1 <= page -> per_page < 0 ->
             Notions.slice ((page - 1) * per_page) per_page q = q).
  { intros A q page per_page Hp Hk. unfold Notions.slice.
    apply Z.ltb_lt in Hk as Hk'. rewrite Hk'.
    replace (Z.to_nat ((page - 1) * per_page)) with 0%nat by nia.
    reflexivity. }
  split.
  - intros cid name rarity oc search sort db query Hq answer. subst answer.
    cbv beta. split; [|split; [|split]].
    + intros page per_page Hp Hk Hoff.
      assert (Hnp : (page - 1) * per_page <= 0) by nia.
      assert (Ho : Sql.int64 ((page - 1) * per_page) = true)
        by (apply int64_iff; lia).
      assert (Ho' : Sql.int64 ((1 - 1) * per_page) = true)
        by (apply int64_iff; lia).
      assert (Hl : Sql.int64 per_page = true) by (apply int64_iff; lia).
      destruct (mineral_page _ _ _ _ _ _ _ _ page per_page _ _ Hq Ho Hl)
        as [message Hget].
      destruct (mineral_page _ _ _ _ _ _ _ _ 1 per_page _ _ Hq Ho' Hl)
        as [message' Hget'].
      exists message, message'.
      rewrite Hget, Hget', !Hlow by lia. split; reflexivity.
    + intros page.
      assert (Ho : Sql.int64 ((page - 1) * 0) = true)
        by (apply int64_iff; lia).
      assert (Hl : Sql.int64 0 = true) by reflexivity.
      destruct (mineral_page _ _ _ _ _ _ _ _ page 0 _ _ Hq Ho Hl)
        as [message Hget].
      exists message. now rewrite Hget, Hzero.
    + intros page per_page Hp Hk Hoff.
      assert (Hnp : (page - 1) * per_page <= 0) by nia.
      assert (Ho : Sql.int64 ((page - 1) * per_page) = true)
        by (apply int64_iff; lia).
      assert (Hl : Sql.int64 per_page = true) by (apply int64_iff; lia).
      destruct (mineral_page _ _ _ _ _ _ _ _ page per_page _ _ Hq Ho Hl)
        as [message Hget].
      exists message. now rewrite Hget, Hneg by lia.
    + intros page per_page Hover. eapply mineral_page_overflow; eauto.
  - intros gid name genre platform rating search sort db query Hq answer.
    subst answer. cbv beta. split; [|split; [|split]].
    + intros page per_page Hp Hk Hoff.
      assert (Hnp : (page - 1) * per_page <= 0) by nia.
      assert (Ho : Sql.int64 ((page - 1) * per_page) = true)
        by (apply int64_iff; lia).
      assert (Ho' : Sql.int64 ((1 - 1) * per_page) = true)
        by (apply int64_iff; lia).
      assert (Hl : Sql.int64 per_page = true) by (apply int64_iff; lia).
      destruct (game_page _ _ _ _ _ _ _ _ page per_page _ _ Hq Ho Hl)
        as [message Hget].
      destruct (game_page _ _ _ _ _ _ _ _ 1 per_page _ _ Hq Ho' Hl)
        as [message' Hget'].
      exists message, message'.
      rewrite Hget, Hget', !Hlow by lia. split; reflexivity.
    + intros page.
      assert (Ho : Sql.int64 ((page - 1) * 0) = true)
        by (apply int64_iff; lia).
      assert (Hl : Sql.int64 0 = true) by reflexivity.
      destruct (game_page _ _ _ _ _ _ _ _ page 0 _ _ Hq Ho Hl)
        as [message Hget].
      exists message. now rewrite Hget, Hzero.
    + intros page per_page Hp Hk Hoff.
      assert (Hnp : (page - 1) * per_page <= 0) by nia.
      assert (Ho : Sql.int64 ((page - 1) * per_page) = true)
        by (apply int64_iff; lia).
      assert (Hl : Sql.int64 per_page = true) by (apply int64_iff; lia).
      destruct (game_page _ _ _ _ _ _ _ _ page per_page _ _ Hq Ho Hl)
        as [message Hget].
      exists message. now rewrite Hget, Hneg by lia.
    + intros page per_page Hover. eapply game_page_overflow; eauto.
Qed.

Lemma non_positive_page_parameters_witness :
  (exists message message',
      Catalog.get_minerals Spec.show_real Spec.base_attributes None None None
        None None None (-3) 2 Spec.three_minerals
      = Http.OK (Catalog.mk_listing message
                   (firstn (Z.to_nat 2) Spec.three_minerals))
      /\ Catalog.get_minerals Spec.show_real Spec.base_attributes None None
           None None None None 1 2 Spec.three_minerals
         = Http.OK (Catalog.mk_listing message'
                      (firstn (Z.to_nat 2) Spec.three_minerals)))
  /\ (exists message,
         Game.get_games Spec.base_attributes None None None None None None
           None 2 (-1) Spec.two_games
         = Http.OK (Game.mk_listing message Spec.two_games))
  /\ Game.get_games Spec.base_attributes None None None None None None None
       (- 2 ^ 62) 4 Spec.two_games
     = Http.Unhandled Http.OverflowError.
Proof.
  destruct (non_positive_page_parameters Spec.show_real Spec.base_attributes
              Spec.base_attributes) as [Hm Hg].
  split; [|split].
  - destruct (Hm None None None None None None Spec.three_minerals
                 Spec.three_minerals eq_refl) as (Hlow & _ & _).
    apply Hlow; lia.
  - destruct (Hg None None None None None None None Spec.two_games
                 Spec.two_games eq_refl) as (_ & _ & Hneg & _).
    apply Hneg; lia.
  - destruct (Hg None None None None None None None Spec.two_games
                 Spec.two_games eq_refl) as (_ & _ & _ & Hover).
    apply Hover. reflexivity.
Defined.

(** ** More on the search stage *)

Lemma ilike_same_lower (column s1 s2 : string) :
  Sql.lower s1 = Sql.lower s2 ->
  Sql.ilike column ("%" ++ s1 ++ "%") = Sql.ilike column ("%" ++ s2 ++ "%").
Proof.
  intros H. unfold Sql.ilike. now rewrite !lower_append, H.
Qed.

Lemma lower_empty (s1 s2 : string) :
  Sql.lower s1 = Sql.lower s2 -> Py.bool_str s1 = Py.bool_str s2.
Proof. destruct s1, s2; simpl; intros H; try reflexivity; discriminate. Qed.

(** The search does not see the ASCII case of the search string: two search
    strings that differ in the case of their letters only give the same
    answer, with the same filters, sort and page. *)
Theorem search_ignores_the_case_of_the_search_string :
  forall (cast_real : Py.float -> string) (m_others : Catalog.other_attributes)
         (g_others : Game.other_attributes) (s1 s2 : string),
    Sql.lower s1 = Sql.lower s2 ->
    (forall catalog_id name rarity origin_country sort page per_page db,
        Catalog.get_minerals cast_real m_others catalog_id name rarity
          origin_country (Some s1) sort page per_page db
        = Catalog.get_minerals cast_real m_others catalog_id name rarity
            origin_country (Some s2) sort page per_page db)
    /\ (forall game_id name genre platform rating sort page per_page db,
        Game.get_games g_others game_id name genre platform rating (Some s1)
          sort page per_page db
        = Game.get_games g_others game_id name genre platform rating (Some s2)
            sort page per_page db).
Proof.
  intros cast_real m_others g_others s1 s2 H.
  pose proof (lower_empty s1 s2 H) as He.
  split; intros.
  - unfold Catalog.get_minerals. rewrite !mineral_query_as_filter.
    rewrite (filter_ext
               (Notions.mineral_selected cast_real catalog_id name rarity
                  origin_country (Some s1))
               (Notions.mineral_selected cast_real catalog_id name rarity
                  origin_country (Some s2))); [reflexivity|].
    intros r. unfold Notions.mineral_selected, Notions.found.
    rewrite He. destruct (Py.bool_str s2); [|reflexivity].
    unfold Catalog.search_clause.
    now rewrite !(fun c => ilike_same_lower c s1 s2 H).
  - unfold Game.get_games. rewrite !game_query_as_filter.
    rewrite (filter_ext
               (Notions.game_selected game_id name genre platform rating
                  (Some s1))
               (Notions.game_selected game_id name genre platform rating
                  (Some s2))); [reflexivity|].
    intros r. unfold Notions.game_selected, Notions.found.
    rewrite He. destruct (Py.bool_str s2); [|reflexivity].
    unfold Game.search_clause, Sql.ilike_null.
    rewrite !(fun c => ilike_same_lower c s1 s2 H).
    destruct (Game.rating_text r) as [t|]; [|reflexivity].
    now rewrite (ilike_same_lower t s1 s2 H).
Qed.

Lemma search_ignores_the_case_of_the_search_string_witness :
  Catalog.get_minerals Spec.show_real Spec.base_attributes None None None None
    (Some "BRAZIL") None 1 10 Spec.three_minerals
  = Catalog.get_minerals Spec.show_real Spec.base_attributes None None None
      None (Some "brazil") None 1 10 Spec.three_minerals
  /\ Game.get_games Spec.base_attributes None None None None None
       (Some "MaRs") None 1 10 Spec.two_games
     = Game.get_games Spec.base_attributes None None None None None
         (Some "mars") None 1 10 Spec.two_games.
Proof.
  split.
  - apply (search_ignores_the_case_of_the_search_string Spec.show_real
             Spec.base_attributes Spec.base_attributes "BRAZIL" "brazil"
             eq_refl).
  - apply (search_ignores_the_case_of_the_search_string Spec.show_real
             Spec.base_attributes Spec.base_attributes "MaRs" "mars" eq_refl).
Defined.


Lemma like_percents (p text : string) :
  Notions.percents p = true -> Py.bool_str p = true ->
  Sql.match_like p text = true.
Proof.
  induction p as [|c p IH]; intros Hp Hne; [discriminate|].
  cbn [Notions.percents] in Hp.
  apply andb_true_iff in Hp as [Hc Hp].
  destruct p as [|d p].
  - apply Ascii.eqb_eq in Hc. subst c. apply like_percent_all.
  - rewrite like_cons, Hc. now rewrite IH.
Qed.

Lemma lower_percents (p : string) :
  Notions.percents p = true -> Sql.lower p = p.
Proof.
  induction p as [|c p IH]; simpl; intros Hp; [reflexivity|].
  apply andb_true_iff in Hp as [Hc Hp]. apply Ascii.eqb_eq in Hc. subst c.
  now rewrite IH.
Qed.

Lemma percents_wrapped (s : string) :
  Notions.percents s = true -> Notions.percents ("%" ++ s ++ "%") = true.
Proof.
  intros H. simpl. induction s as [|c s IH]; simpl in *; [reflexivity|].
  apply andb_true_iff in H as [Hc Hs]. now rewrite Hc, IH.
Qed.

Lemma until_nul_percents (p : string) :
  Notions.percents p = true -> Sql.until_nul p = p.
Proof.
  induction p as [|c p IH]; simpl; intros Hp; [reflexivity|].
  apply andb_true_iff in Hp as [Hc Hp]. apply Ascii.eqb_eq in Hc. subst c.
  cbn. now rewrite IH.
Qed.

Lemma ilike_percents (column s : string) :
  Notions.percents s = true -> Sql.ilike column ("%" ++ s ++ "%") = true.
Proof.
  intros H. unfold Sql.ilike, Sql.like.
  rewrite lower_percents by now apply percents_wrapped.
  rewrite until_nul_percents by now apply percents_wrapped.
  apply like_percents; [now apply percents_wrapped | reflexivity].
Qed.

(** The search string is put into the LIKE pattern as it is: a non-empty
    search made of [%] signs only is a pattern that every text matches, so
    the search keeps every row of the table. *)
Theorem search_of_percent_signs_keeps_every_row :
  forall (cast_real : Py.float -> string) (m_others : Catalog.other_attributes)
         (g_others : Game.other_attributes) (search : string),
    Py.bool_str search = true ->
    Notions.percents search = true ->
    (forall db,
        Catalog.minerals_query cast_real m_others None None None None
          (Some search) None db = Http.OK db)
    /\ (forall db,
        Game.games_query g_others None None None None None (Some search) None
          db
        = Http.OK db).
Proof.
  intros cast_real m_others g_others search Hne Hp. split; intros db.
  - unfold Catalog.minerals_query, Py.when_given. rewrite Hne.
    cbn [Catalog.sorted].
    rewrite (filter_ext _ (fun _ => true)); [now rewrite filter_all|].
    intros r. unfold Catalog.search_clause.
    now rewrite (ilike_percents (Catalog.MineralDB.catalog_id r) search Hp).
  - unfold Game.games_query, Py.when_given. rewrite Hne.
    cbn [Game.sorted].
    rewrite (filter_ext _ (fun _ => true)); [now rewrite filter_all|].
    intros r. unfold Game.search_clause.
    now rewrite (ilike_percents (Game.GamesDB.game_id r) search Hp).
Qed.

Lemma search_of_percent_signs_keeps_every_row_witness :
  Catalog.minerals_query Spec.show_real Spec.base_attributes None None None
    None (Some "%%") None Spec.three_minerals = Http.OK Spec.three_minerals
  /\ Game.games_query Spec.base_attributes None None None None None (Some "%")
       None Spec.two_games
     = Http.OK Spec.two_games.
Proof.
  split.
  - apply (search_of_percent_signs_keeps_every_row Spec.show_real
             Spec.base_attributes Spec.base_attributes "%%");
      reflexivity.
  - apply (search_of_percent_signs_keeps_every_row Spec.show_real
             Spec.base_attributes Spec.base_attributes "%");
      reflexivity.
Defined.

(** ** More on the handlers that take an identifier *)

Lemma mineral_first_none_iff (id : string) (db : Catalog.table) :
  Catalog.first_by_id id db = None
  <-> ~ In id (map Catalog.MineralDB.catalog_id db).
Proof.
  split; [apply mineral_absent_id|].
  unfold Catalog.first_by_id. intros H. apply first_nil_iff.
  induction db as [|r db IH]; simpl in *; [reflexivity|].
  destruct (String.eqb (Catalog.MineralDB.catalog_id r) id) eqn:E.
  - apply String.eqb_eq in E. tauto.
  - apply IH. tauto.
Qed.

Lemma mineral_first_some (id : string) (db : Catalog.table)
  (r : Catalog.MineralDB.t) :
  Catalog.first_by_id id db = Some r ->
  In r db /\ Catalog.MineralDB.catalog_id r = id.
Proof.
  unfold Catalog.first_by_id. intros H.
  assert (Hin : In r (filter (fun x => String.eqb (Catalog.MineralDB.catalog_id x) id)
                             db)).
  { destruct (filter _ db); simpl in H; inversion H. now left. }
  apply filter_In in Hin as [Hin E]. apply String.eqb_eq in E. now split.
Qed.

Lemma mineral_others_all (id : string) (db : Catalog.table) :
  ~ In id (map Catalog.MineralDB.catalog_id db) ->
  filter (fun r => negb (String.eqb (Catalog.MineralDB.catalog_id r) id)) db = db
  /\ filter (fun r => String.eqb (Catalog.MineralDB.catalog_id r) id) db = [].
Proof.
  induction db as [|r db IH]; simpl; intros H; [now split|].
  destruct (String.eqb (Catalog.MineralDB.catalog_id r) id) eqn:E.
  - apply String.eqb_eq in E. tauto.
  - simpl. destruct IH as [IH1 IH2]; [tauto|]. now rewrite IH1, IH2.
Qed.

Lemma mineral_delete_row_filter (id : string) (db : Catalog.table) :
  Catalog.primary_key db ->
  Catalog.delete_row id db
  = filter (fun r => negb (String.eqb (Catalog.MineralDB.catalog_id r) id)) db.
Proof.
  unfold Catalog.primary_key.
  induction db as [|r db IH]; simpl; intros Hkey; [reflexivity|].
  apply NoDup_cons_iff in Hkey as [Hr Hdb].
  destruct (String.eqb (Catalog.MineralDB.catalog_id r) id) eqn:E; simpl.
  - apply String.eqb_eq in E. rewrite E in Hr.
    symmetry. now apply mineral_others_all.
  - now rewrite IH.
Qed.

Lemma mineral_filter_by_key (id : string) (db : Catalog.table) :
  Catalog.primary_key db ->
  filter (fun r => String.eqb (Catalog.MineralDB.catalog_id r) id) db
  = match Catalog.first_by_id id db with
    | Some r => [r]
    | None => []
    end.
Proof.
  unfold Catalog.primary_key, Catalog.first_by_id.
  induction db as [|r db IH]; simpl; intros Hkey; [reflexivity|].
  apply NoDup_cons_iff in Hkey as [Hr Hdb].
  destruct (String.eqb (Catalog.MineralDB.catalog_id r) id) eqn:E; simpl.
  - apply String.eqb_eq in E. rewrite E in Hr.
    f_equal. now apply mineral_others_all.
  - now apply IH.
Qed.

Lemma mineral_delete_appended (db : Catalog.table) (new : Catalog.MineralDB.t) :
  ~ In (Catalog.MineralDB.catalog_id new) (map Catalog.MineralDB.catalog_id db) ->
  Catalog.delete_row (Catalog.MineralDB.catalog_id new) (db ++ [new])%list = db.
Proof.
  induction db as [|r db IH]; simpl; intros H.
  - now rewrite String.eqb_refl.
  - destruct (String.eqb (Catalog.MineralDB.catalog_id r)
                         (Catalog.MineralDB.catalog_id new)) eqn:E.
    + apply String.eqb_eq in E. tauto.
    + rewrite IH; [reflexivity | tauto].
Qed.

Lemma mineral_delete_row_length (id : string) (db : Catalog.table)
  (r : Catalog.MineralDB.t) :
  Catalog.first_by_id id db = Some r ->
  List.length db = S (List.length (Catalog.delete_row id db)).
Proof.
  unfold Catalog.first_by_id.
  induction db as [|x db IH]; simpl; intros H; [discriminate|].
  destruct (String.eqb (Catalog.MineralDB.catalog_id x) id); simpl.
  - reflexivity.
  - now rewrite <- IH.
Qed.

Lemma game_first_none_iff (id : string) (db : Game.table) :
  Game.first_by_id id db = None
  <-> ~ In id (map Game.GamesDB.game_id db).
Proof.
  split; [apply game_absent_id|].
  unfold Game.first_by_id. intros H. apply first_nil_iff.
  induction db as [|r db IH]; simpl in *; [reflexivity|].
  destruct (String.eqb (Game.GamesDB.game_id r) id) eqn:E.
  - apply String.eqb_eq in E. tauto.
  - apply IH. tauto.
Qed.

Lemma game_first_some (id : string) (db : Game.table)
  (r : Game.GamesDB.t) :
  Game.first_by_id id db = Some r ->
  In r db /\ Game.GamesDB.game_id r = id.
Proof.
  unfold Game.first_by_id. intros H.
  assert (Hin : In r (filter (fun x => String.eqb (Game.GamesDB.game_id x) id)
                             db)).
  { destruct (filter _ db); simpl in H; inversion H. now left. }
  apply filter_In in Hin as [Hin E]. apply String.eqb_eq in E. now split.
Qed.

Lemma game_others_all (id : string) (db : Game.table) :
  ~ In id (map Game.GamesDB.game_id db) ->
  filter (fun r => negb (String.eqb (Game.GamesDB.game_id r) id)) db = db
  /\ filter (fun r => String.eqb (Game.GamesDB.game_id r) id) db = [].
Proof.
  induction db as [|r db IH]; simpl; intros H; [now split|].
  destruct (String.eqb (Game.GamesDB.game_id r) id) eqn:E.
  - apply String.eqb_eq in E. tauto.
  - simpl. destruct IH as [IH1 IH2]; [tauto|]. now rewrite IH1, IH2.
Qed.

Lemma game_delete_row_filter (id : string) (db : Game.table) :
  Game.primary_key db ->
  Game.delete_row id db
  = filter (fun r => negb (String.eqb (Game.GamesDB.game_id r) id)) db.
Proof.
  unfold Game.primary_key.
  induction db as [|r db IH]; simpl; intros Hkey; [reflexivity|].
  apply NoDup_cons_iff in Hkey as [Hr Hdb].
  destruct (String.eqb (Game.GamesDB.game_id r) id) eqn:E; simpl.
  - apply String.eqb_eq in E. rewrite E in Hr.
    symmetry. now apply game_others_all.
  - now rewrite IH.
Qed.

Lemma game_filter_by_key (id : string) (db : Game.table) :
  Game.primary_key db ->
  filter (fun r => String.eqb (Game.GamesDB.game_id r) id) db
  = match Game.first_by_id id db with
    | Some r => [r]
    | None => []
    end.
Proof.
  unfold Game.primary_key, Game.first_by_id.
  induction db as [|r db IH]; simpl; intros Hkey; [reflexivity|].
  apply NoDup_cons_iff in Hkey as [Hr Hdb].
  destruct (String.eqb (Game.GamesDB.game_id r) id) eqn:E; simpl.
  - apply String.eqb_eq in E. rewrite E in Hr.
    f_equal. now apply game_others_all.
  - now apply IH.
Qed.

Lemma game_delete_appended (db : Game.table) (new : Game.GamesDB.t) :
  ~ In (Game.GamesDB.game_id new) (map Game.GamesDB.game_id db) ->
  Game.delete_row (Game.GamesDB.game_id new) (db ++ [new])%list = db.
Proof.
  induction db as [|r db IH]; simpl; intros H.
  - now rewrite String.eqb_refl.
  - destruct (String.eqb (Game.GamesDB.game_id r)
                         (Game.GamesDB.game_id new)) eqn:E.
    + apply String.eqb_eq in E. tauto.
    + rewrite IH; [reflexivity | tauto].
Qed.

Lemma game_delete_row_length (id : string) (db : Game.table)
  (r : Game.GamesDB.t) :
  Game.first_by_id id db = Some r ->
  List.length db = S (List.length (Game.delete_row id db)).
Proof.
  unfold Game.first_by_id.
  induction db as [|x db IH]; simpl; intros H; [discriminate|].
  destruct (String.eqb (Game.GamesDB.game_id x) id); simpl.
  - reflexivity.
  - now rewrite <- IH.
Qed.

(** Create, then delete: when a create succeeds, deleting the identifier of
    the model right after it succeeds too and gives back the table as it was
    before the create. *)
Theorem delete_undoes_create :
  (forall mineral db response db',
     Catalog.create_mineral mineral db = (Http.OK response, db') ->
     Catalog.delete_mineral (Catalog.Mineral.catalog_id mineral) db'
     = (Http.OK ("Минерал удалён", Catalog.Mineral.catalog_id mineral), db))
  /\ (forall game db response db',
       Game.create_game game db = (Http.OK response, db') ->
       Game.delete_game (Game.Games.game_id game) db'
       = (Http.OK ("Игра удалена", Game.Games.game_id game), db)).
Proof.
  split.
  - intros mineral db response db' H. unfold Catalog.create_mineral in H.
    destruct (Catalog.first_by_id (Catalog.Mineral.catalog_id mineral) db) eqn:E;
      [discriminate|].
    destruct (Catalog.write_error (Catalog.MineralDB_new mineral));
      [discriminate|].
    inversion H; subst db'; clear H.
    unfold Catalog.delete_mineral, Catalog.first_by_id.
    rewrite mineral_created_is_found by assumption. cbn [Sql.first].
    apply mineral_first_none_iff in E.
    change (Catalog.Mineral.catalog_id mineral)
      with (Catalog.MineralDB.catalog_id (Catalog.MineralDB_new mineral)).
    now rewrite mineral_delete_appended.
  - intros game db response db' H. unfold Game.create_game in H.
    destruct (Game.first_by_id (Game.Games.game_id game) db) eqn:E;
      [discriminate|].
    inversion H; subst db'; clear H.
    unfold Game.delete_game, Game.first_by_id.
    rewrite game_created_is_found by assumption. cbn [Sql.first].
    apply game_first_none_iff in E.
    change (Game.Games.game_id game)
      with (Game.GamesDB.game_id (Game.GamesDB_new game)).
    now rewrite game_delete_appended.
Qed.

Lemma delete_undoes_create_witness :
  Catalog.delete_mineral "AB-1234"
    (tl Spec.three_minerals ++ [Catalog.MineralDB_new Spec.quartz])%list
  = (Http.OK ("Минерал удалён", "AB-1234"), tl Spec.three_minerals)
  /\ Game.delete_game "AB-0002" Spec.two_games
     = (Http.OK ("Игра удалена", "AB-0002"), [Game.GamesDB_new Spec.tetris]).
Proof.
  destruct delete_undoes_create as [Hm Hg]. split.
  - apply (Hm Spec.quartz (tl Spec.three_minerals)
              ("Минерал добавлен", Spec.quartz)).
    reflexivity.
  - apply (Hg Spec.doom [Game.GamesDB_new Spec.tetris]
              ("Игра добавлена", Spec.doom)).
    reflexivity.
Defined.

(** Delete on a table with a primary key.  When a row has the identifier,
    the call answers with the identifier and leaves exactly the rows with
    other identifiers, in their order; no row with the identifier is left,
    so that a second delete of it ends with the 404 error and changes
    nothing. *)
Theorem delete_removes_the_record :
  (forall catalog_id db,
     Catalog.primary_key db ->
     In catalog_id (map Catalog.MineralDB.catalog_id db) ->
     let db' :=
       filter (fun r => negb (String.eqb (Catalog.MineralDB.catalog_id r) catalog_id))
              db in
     Catalog.delete_mineral catalog_id db
     = (Http.OK ("Минерал удалён", catalog_id), db')
     /\ List.length db = S (List.length db')
     /\ ~ In catalog_id (map Catalog.MineralDB.catalog_id db')
     /\ Catalog.delete_mineral catalog_id db'
        = (Http.HTTPException 404 "Минерал не найден", db'))
  /\ (forall game_id db,
       Game.primary_key db ->
       In game_id (map Game.GamesDB.game_id db) ->
       let db' :=
         filter (fun r => negb (String.eqb (Game.GamesDB.game_id r) game_id))
                db in
       Game.delete_game game_id db
       = (Http.OK ("Игра удалена", game_id), db')
       /\ List.length db = S (List.length db')
       /\ ~ In game_id (map Game.GamesDB.game_id db')
       /\ Game.delete_game game_id db'
          = (Http.HTTPException 404 "Игра не найдена", db')).
Proof.
  split.
  - intros catalog_id db Hkey Hin db'. subst db'.
    rewrite <- mineral_delete_row_filter by assumption.
    assert (Hgone : ~ In catalog_id
                        (map Catalog.MineralDB.catalog_id
                           (Catalog.delete_row catalog_id db))).
    { rewrite mineral_delete_row_filter by assumption.
      rewrite in_map_iff. intros (r & Hid & Hr).
      apply filter_In in Hr as [_ Hr]. rewrite Hid, String.eqb_refl in Hr.
      discriminate. }
    unfold Catalog.delete_mineral at 1.
    destruct (Catalog.first_by_id catalog_id db) eqn:E.
    + split; [reflexivity|]. split; [now apply (mineral_delete_row_length _ _ _ E)|].
      split; [assumption|].
      unfold Catalog.delete_mineral.
      apply mineral_first_none_iff in Hgone. now rewrite Hgone.
    + apply mineral_first_none_iff in E. contradiction.
  - intros game_id db Hkey Hin db'. subst db'.
    rewrite <- game_delete_row_filter by assumption.
    assert (Hgone : ~ In game_id
                        (map Game.GamesDB.game_id
                           (Game.delete_row game_id db))).
    { rewrite game_delete_row_filter by assumption.
      rewrite in_map_iff. intros (r & Hid & Hr).
      apply filter_In in Hr as [_ Hr]. rewrite Hid, String.eqb_refl in Hr.
      discriminate. }
    unfold Game.delete_game at 1.
    destruct (Game.first_by_id game_id db) eqn:E.
    + split; [reflexivity|]. split; [now apply (game_delete_row_length _ _ _ E)|].
      split; [assumption|].
      unfold Game.delete_game.
      apply game_first_none_iff in Hgone. now rewrite Hgone.
    + apply game_first_none_iff in E. contradiction.
Qed.

Lemma delete_removes_the_record_witness :
  Catalog.delete_mineral "CD-0002" Spec.three_minerals
  = (Http.OK ("Минерал удалён", "CD-0002"),
     map Catalog.MineralDB_new [Spec.quartz; Spec.topaz])
  /\ Game.delete_game "AB-0001" Spec.two_games
     = (Http.OK ("Игра удалена", "AB-0001"), [Game.GamesDB_new Spec.doom]).
Proof.
  destruct delete_removes_the_record as [Hm Hg]. split.
  - apply (Hm "CD-0002" Spec.three_minerals).
    + unfold Catalog.primary_key. simpl.
      repeat constructor; simpl; intuition discriminate.
    + simpl. now right; left.
  - apply (Hg "AB-0001" Spec.two_games).
    + unfold Game.primary_key. simpl.
      repeat constructor; simpl; intuition discriminate.
    + simpl. now left.
Defined.

Lemma mineral_no_match_before (id : string) (pre : Catalog.table) :
  Forall (fun r => Catalog.MineralDB.catalog_id r <> id) pre ->
  filter (fun r => String.eqb (Catalog.MineralDB.catalog_id r) id) pre = [].
Proof.
  induction 1 as [|r pre Hr _ IH]; simpl; [reflexivity|].
  apply String.eqb_neq in Hr. now rewrite Hr.
Qed.

Lemma game_no_match_before (id : string) (pre : Game.table) :
  Forall (fun r => Game.GamesDB.game_id r <> id) pre ->
  filter (fun r => String.eqb (Game.GamesDB.game_id r) id) pre = [].
Proof.
  induction 1 as [|r pre Hr _ IH]; simpl; [reflexivity|].
  apply String.eqb_neq in Hr. now rewrite Hr.
Qed.

(** Update, then look up.  When an update succeeds, the path identifier is
    the body's, the answer carries the body, the first row found under the
    identifier afterwards is the row of the body's fields, the identifiers
    of the table and their order are unchanged, and the same update made
    again succeeds and changes nothing more. *)
Theorem update_is_read_back_and_idempotent :
  (forall catalog_id mineral db response db',
     Catalog.update_mineral catalog_id mineral db = (Http.OK response, db') ->
     catalog_id = Catalog.Mineral.catalog_id mineral
     /\ response = ("Минерал обновлён", mineral)
     /\ Catalog.first_by_id catalog_id db' = Some (Catalog.MineralDB_new mineral)
     /\ map Catalog.MineralDB.catalog_id db' = map Catalog.MineralDB.catalog_id db
     /\ Catalog.update_mineral catalog_id mineral db' = (Http.OK response, db'))
  /\ (forall game_id game db response db',
       Game.update_game game_id game db = (Http.OK response, db') ->
       game_id = Game.Games.game_id game
       /\ response = ("Игра обновлена", game)
       /\ Game.first_by_id game_id db' = Some (Game.GamesDB_new game)
       /\ map Game.GamesDB.game_id db' = map Game.GamesDB.game_id db
       /\ Game.update_game game_id game db' = (Http.OK response, db')).
Proof.
  split.
  - intros catalog_id mineral db response db' H.
    unfold Catalog.update_mineral in H.
    destruct (String.eqb catalog_id (Catalog.Mineral.catalog_id mineral)) eqn:Eid;
      cbn [negb] in H; [|discriminate].
    destruct (Catalog.first_by_id catalog_id db) as [old|] eqn:E; [|discriminate].
    apply String.eqb_eq in Eid as Hid.
    pose (assign := fun db_mineral : Catalog.MineralDB.t =>
                      fold_left (fun row kv => Catalog.setattr row (fst kv) (snd kv))
                                (Catalog.Mineral.dict mineral) db_mineral).
    assert (Hassign : forall r, assign r = Catalog.MineralDB_new mineral)
      by (intros r; apply mineral_assign_all).
    cbv zeta in H. rewrite mineral_assign_all in H.
    destruct (Catalog.write_error (Catalog.MineralDB_new mineral)) eqn:Ew;
      [discriminate|].
    injection H as Hresp Hdb'. symmetry in Hresp, Hdb'.
    change (db' = Catalog.update_row catalog_id assign db) in Hdb'.
    destruct (mineral_update_row_split catalog_id assign db old E)
      as (pre & post & Hdb & Hpre & Hup).
    assert (Hfound : Catalog.first_by_id catalog_id db'
                     = Some (Catalog.MineralDB_new mineral)).
    { rewrite Hdb', Hup, Hassign. unfold Catalog.first_by_id.
      rewrite filter_app, mineral_no_match_before by assumption.
      cbn [app filter Catalog.MineralDB_new Catalog.MineralDB.catalog_id].
      rewrite <- Hid, String.eqb_refl. reflexivity. }
    split; [assumption|]. split; [assumption|]. split; [assumption|]. split.
    + rewrite Hdb'. apply mineral_update_row_ids. intros r. now rewrite Hassign.
    + unfold Catalog.update_mineral. rewrite Eid. cbn [negb]. rewrite Hfound.
      cbv zeta. rewrite mineral_assign_all, Ew.
      rewrite Hresp. f_equal.
      change (Catalog.update_row catalog_id assign db' = db').
      destruct (mineral_update_row_split catalog_id assign _ _ Hfound)
        as (pre' & post' & Hdb'' & _ & Hup').
      now rewrite Hup', Hassign, <- Hdb''.
  - intros game_id game db response db' H.
    unfold Game.update_game in H.
    destruct (String.eqb game_id (Game.Games.game_id game)) eqn:Eid;
      cbn [negb] in H; [|discriminate].
    destruct (Game.first_by_id game_id db) as [old|] eqn:E; [|discriminate].
    apply String.eqb_eq in Eid as Hid.
    pose (assign := fun db_game : Game.GamesDB.t =>
                      fold_left (fun row kv => Game.setattr row (fst kv) (snd kv))
                                (Game.Games.dict game) db_game).
    assert (Hassign : forall r, assign r = Game.GamesDB_new game)
      by (intros r; apply game_assign_all).
    injection H as Hresp Hdb'. symmetry in Hresp, Hdb'.
    change (db' = Game.update_row game_id assign db) in Hdb'.
    destruct (game_update_row_split game_id assign db old E)
      as (pre & post & Hdb & Hpre & Hup).
    assert (Hfound : Game.first_by_id game_id db'
                     = Some (Game.GamesDB_new game)).
    { rewrite Hdb', Hup, Hassign. unfold Game.first_by_id.
      rewrite filter_app, game_no_match_before by assumption.
      cbn [app filter Game.GamesDB_new Game.GamesDB.game_id].
      rewrite <- Hid, String.eqb_refl. reflexivity. }
    split; [assumption|]. split; [assumption|]. split; [assumption|]. split.
    + rewrite Hdb'. apply game_update_row_ids. intros r. now rewrite Hassign.
    + unfold Game.update_game. rewrite Eid. cbn [negb]. rewrite Hfound.
      rewrite Hresp. f_equal.
      change (Game.update_row game_id assign db' = db').
      destruct (game_update_row_split game_id assign _ _ Hfound)
        as (pre' & post' & Hdb'' & _ & Hup').
      now rewrite Hup', Hassign, <- Hdb''.
Qed.

Lemma update_is_read_back_and_idempotent_witness :
  Catalog.first_by_id "AB-1234"
    (snd (Catalog.update_mineral "AB-1234" Spec.padded_quartz Spec.three_minerals))
  = Some (Catalog.MineralDB_new Spec.padded_quartz)
  /\ Game.first_by_id "AB-0002"
       (snd (Game.update_game "AB-0002" Spec.doom Spec.two_games))
     = Some (Game.GamesDB_new Spec.doom).
Proof.
  destruct update_is_read_back_and_idempotent as [Hm Hg]. split.
  - apply (Hm "AB-1234" Spec.padded_quartz Spec.three_minerals
              ("Минерал обновлён", Spec.padded_quartz)).
    reflexivity.
  - apply (Hg "AB-0002" Spec.doom Spec.two_games ("Игра обновлена", Spec.doom)).
    reflexivity.
Defined.




Example qr_text_of_the_scenario_record :
  Catalog.get_mineral_qr Spec.show_real Spec.qr_holds "AB-1234"
    Spec.three_minerals
  = Http.OK
      ("Catalog ID: AB-1234" ++ Py.nl ++ "Name: Quartz" ++ Py.nl
       ++ "Chemical Formula: SiO2" ++ Py.nl ++ "Hardness: 7/1" ++ Py.nl
       ++ "Weight (carats): 5/2" ++ Py.nl ++ "Rarity: COMMON" ++ Py.nl
       ++ "Origin Country: Brazil" ++ Py.nl ++ "Specimens Count: 5").
Proof. reflexivity. Qed.

(** Read by identifier on a table with a primary key.  The list call filtered
    by a non-empty identifier alone (first page, a [per_page] from 1 that
    fits 64 bits) answers with at most one row: with none when no row has
    the identifier, and otherwise with the one row of the table that has
    it. *)
Theorem read_by_identifier_gives_at_most_one_row :
  forall (cast_real : Py.float -> string) (m_others : Catalog.other_attributes)
         (g_others : Game.other_attributes) (id : string) (per_page : Z),
    Py.bool_str id = true ->
    1 <= per_page < 2 ^ 63 ->
    (forall db,
        Catalog.primary_key db ->
        exists listing,
          Catalog.get_minerals cast_real m_others (Some id) None None None None
            None 1 per_page db = Http.OK listing
          /\ ((~ In id (map Catalog.MineralDB.catalog_id db)
               /\ Catalog.data listing = [])
              \/ (exists r,
                     In r db /\ Catalog.MineralDB.catalog_id r = id
                     /\ Catalog.data listing = [r])))
    /\ (forall db,
        Game.primary_key db ->
        exists listing,
          Game.get_games g_others (Some id) None None None None None None 1
            per_page db
          = Http.OK listing
          /\ ((~ In id (map Game.GamesDB.game_id db) /\ Game.data listing = [])
              \/ (exists r,
                     In r db /\ Game.GamesDB.game_id r = id
                     /\ Game.data listing = [r]))).
Proof.
  intros cast_real m_others g_others id per_page Hid Hk.
  assert (Ho : Sql.int64 ((1 - 1) * per_page) = true) by (apply int64_iff; lia).
  assert (Hl : Sql.int64 per_page = true) by (apply int64_iff; lia).
  split; intros db Hkey.
  - destruct (mineral_page cast_real m_others (Some id) None None None None
                None 1 per_page db
                (match Catalog.first_by_id id db with
                 | Some r => [r]
                 | None => []
                 end)) as [message Hget]; try assumption.
    { unfold Catalog.minerals_query, Py.when_given.
      rewrite Hid, mineral_filter_by_key by assumption. reflexivity. }
    eexists. split; [exact Hget|]. cbn [Catalog.data].
    destruct (Catalog.first_by_id id db) as [r|] eqn:E.
    + right. exists r. apply mineral_first_some in E as [Hin Hr].
      repeat split; try assumption. apply first_page_of_one. lia.
    + left. split; [now apply mineral_first_none_iff|].
      now apply slice_past_the_end.
  - destruct (game_page g_others (Some id) None None None None None None 1
                per_page db
                (match Game.first_by_id id db with
                 | Some r => [r]
                 | None => []
                 end)) as [message Hget]; try assumption.
    { unfold Game.games_query, Py.when_given.
      rewrite Hid, game_filter_by_key by assumption. reflexivity. }
    eexists. split; [exact Hget|]. cbn [Game.data].
    destruct (Game.first_by_id id db) as [r|] eqn:E.
    + right. exists r. apply game_first_some in E as [Hin Hr].
      repeat split; try assumption. apply first_page_of_one. lia.
    + left. split; [now apply game_first_none_iff|].
      now apply slice_past_the_end.
Qed.

Lemma read_by_identifier_gives_at_most_one_row_witness :
  Py.bool_str "CD-0002" = true
  /\ 1 <= 10 < 2 ^ 63
  /\ (exists listing,
         Catalog.get_minerals Spec.show_real Spec.base_attributes
           (Some "CD-0002") None None None None None 1 10 Spec.three_minerals
         = Http.OK listing
         /\ ((~ In "CD-0002" (map Catalog.MineralDB.catalog_id Spec.three_minerals)
              /\ Catalog.data listing = [])
             \/ (exists r,
                    In r Spec.three_minerals
                    /\ Catalog.MineralDB.catalog_id r = "CD-0002"
                    /\ Catalog.data listing = [r])))
  /\ (exists listing,
         Game.get_games Spec.base_attributes (Some "CD-0002") None None None
           None None None 1 10 Spec.two_games = Http.OK listing
         /\ ((~ In "CD-0002" (map Game.GamesDB.game_id Spec.two_games)
              /\ Game.data listing = [])
             \/ (exists r,
                    In r Spec.two_games /\ Game.GamesDB.game_id r = "CD-0002"
                    /\ Game.data listing = [r]))).
Proof.
  assert (H : 1 <= 10 < 2 ^ 63) by lia.
  destruct (read_by_identifier_gives_at_most_one_row Spec.show_real
              Spec.base_attributes Spec.base_attributes "CD-0002" 10 eq_refl H)
    as [Hm Hg].
  split; [reflexivity | split; [exact H | split]].
  - apply Hm. unfold Catalog.primary_key. simpl.
    repeat constructor; simpl; intuition discriminate.
  - apply Hg. unfold Game.primary_key. simpl.
    repeat constructor; simpl; intuition discriminate.
Defined.

(** ** More on validation *)

Lemma validator_release_date_iff (now d v : Py.datetime) :
  Game.Games.validator_release_date now d = Py.Return v
  <-> Py.datetime_compare d now <> Gt /\ v = d.
Proof.
  unfold Game.Games.validator_release_date, Py.datetime_gt.
  destruct (Py.datetime_compare d now); split; intros H;
    try discriminate; try (inversion H; split; [discriminate | reflexivity]);
    try (destruct H; subst; reflexivity).
  destruct H as [H _]. congruence.
Qed.


Lemma game_validate_inr_iff (now : Py.datetime) (body : Game.Body.t)
  (g : Game.Games.t) :
  Game.Games.validate now body = inr g
  <-> Game.Games.validator_game_id (Game.Body.game_id body)
      = Py.Return (Game.Games.game_id g)
      /\ Game.Games.validator_name (Game.Body.name body)
         = Py.Return (Game.Games.name g)
      /\ Game.Games.validator_genre (Game.Body.genre body)
         = Py.Return (Game.Games.genre g)
      /\ Game.Games.validator_platform (Game.Body.platform body)
         = Py.Return (Game.Games.platform g)
      /\ Game.Games.validator_release_date now (Game.Body.release_date body)
         = Py.Return (Game.Games.release_date g)
      /\ Game.Games.enum_member (Game.Body.rating body)
         = Py.Return (Game.Games.rating g)
      /\ Game.Games.validator_description (Game.Body.description body)
         = Py.Return (Game.Games.description g).
Proof.
  unfold Game.Games.validate. split.
  - destruct (Game.Games.validator_game_id _); [cbn; discriminate|].
    destruct (Game.Games.validator_name _); [cbn; discriminate|].
    destruct (Game.Games.validator_genre _); [cbn; discriminate|].
    destruct (Game.Games.validator_platform _); [cbn; discriminate|].
    destruct (Game.Games.validator_release_date _ _); [cbn; discriminate|].
    destruct (Game.Games.enum_member _); [cbn; discriminate|].
    destruct (Game.Games.validator_description _); [cbn; discriminate|].
    intros H. injection H as <-. cbn. repeat split; reflexivity.
  - intros (H1 & H2 & H3 & H4 & H5 & H6 & H7).
    rewrite H1, H2, H3, H4, H5, H6, H7. destruct g. reflexivity.
Qed.


(** Validation is idempotent: when a body is accepted, the body made of the
    fields of the model it returned is that same body, and validating it
    returns the same model again (for a game, with the clock unchanged). *)
Theorem accepted_model_validates_to_itself :
  (forall body m,
      Catalog.Mineral.validate body = inr m ->
      Notions.mineral_body m = body
      /\ Catalog.Mineral.validate (Notions.mineral_body m) = inr m)
  /\ (forall now body g,
      Game.Games.validate now body = inr g ->
      Notions.game_body g = body
      /\ Game.Games.validate now (Notions.game_body g) = inr g).
Proof.
  split.
  - intros body m H.
    assert (Hb : Notions.mineral_body m = body).
    { pose proof (mineral_validate_cases body) as Hc. rewrite H in Hc.
      destruct Hc as [(H1 & H2 & H3 & H4 & H5 & H6 & H7 & H8) _].
      destruct body. unfold Notions.mineral_body. simpl in *. congruence. }
    split; [assumption | now rewrite Hb].
  - intros now body g H.
    assert (Hb : Notions.game_body g = body).
    { pose proof (game_validate_cases now body) as Hc. rewrite H in Hc.
      destruct Hc as [(H1 & H2 & H3 & H4 & H5 & H6 & H7) _].
      destruct body. unfold Notions.game_body. simpl in *. congruence. }
    split; [assumption | now rewrite Hb].
Qed.

Lemma accepted_model_validates_to_itself_witness :
  Catalog.Mineral.validate (Notions.mineral_body Spec.padded_quartz)
  = inr Spec.padded_quartz
  /\ Game.Games.validate Spec.noon (Notions.game_body Spec.tetris)
     = inr Spec.tetris.
Proof.
  destruct accepted_model_validates_to_itself as [Hm Hg]. split.
  - apply (Hm Spec.padded_quartz_body). reflexivity.
  - apply (Hg Spec.noon Spec.tetris_body). reflexivity.
Defined.

Lemma lex_compare_le_trans (xs ys zs : list Z) :
  Py.lex_compare xs ys <> Gt ->
  Py.lex_compare ys zs <> Gt ->
  Py.lex_compare xs zs <> Gt.
Proof.
  revert ys zs. induction xs as [|x xs IH]; intros ys zs Hxy Hyz.
  - destruct zs; discriminate.
  - destruct ys as [|y ys]; [now contradiction Hxy|].
    destruct zs as [|z zs]; [now contradiction Hyz|].
    simpl in *.
    destruct (Z.compare_spec x y), (Z.compare_spec y z);
      try (now contradiction Hxy); try (now contradiction Hyz); subst.
    + rewrite Z.compare_refl. now apply (IH ys).
    + rewrite (proj2 (Z.compare_lt_iff _ _)) by assumption. discriminate.
    + rewrite (proj2 (Z.compare_lt_iff _ _)) by assumption. discriminate.
    + rewrite (proj2 (Z.compare_lt_iff _ _)) by lia. discriminate.
Qed.

(** The release date check depends on the clock, and only in one direction:
    a game body accepted at one instant is accepted, with the same model, at
    every later one. *)
Theorem game_accepted_once_is_accepted_later :
  forall now later body g,
    Py.datetime_compare now later <> Gt ->
    Game.Games.validate now body = inr g ->
    Game.Games.validate later body = inr g.
Proof.
  intros now later body g Hclock H.
  apply game_validate_inr_iff in H as (H1 & H2 & H3 & H4 & H5 & H6 & H7).
  apply game_validate_inr_iff. repeat split; try assumption.
  apply validator_release_date_iff in H5 as [Hd Hv].
  apply validator_release_date_iff. split; [|assumption].
  unfold Py.datetime_compare in *. eapply lex_compare_le_trans; eauto.
Qed.

Lemma game_accepted_once_is_accepted_later_witness :
  Game.Games.validate (Py.mk_datetime 2030 1 1 0 0 0 0) Spec.tetris_body
  = inr Spec.tetris.
Proof.
  apply (game_accepted_once_is_accepted_later Spec.noon); [discriminate|].
  reflexivity.
Defined.

Example a_future_release_date_is_accepted_once_the_clock_passes_it :
  let body :=
    Game.Body.mk "AB-0003" "Pong" "Sports" "Arcade"
      (Py.mk_datetime 2025 4 6 12 0 0 1) "PEGI 3"
      "Two paddles and a ball on a screen" in
  (exists errors,
      Game.Games.validate Spec.noon body = inl errors
      /\ map Http.loc errors = ["release_date"])
  /\ exists g,
      Game.Games.validate (Py.mk_datetime 2025 4 6 12 0 0 1) body = inr g.
Proof. split; eexists; [split|]; reflexivity. Qed.


(** A NaN passes the two range checks, every comparison with it being
    false, and the row it gives cannot be written: the create ends with an
    unhandled [IntegrityError] and stores nothing. *)
Example a_NaN_passes_validation_and_is_not_stored :
  exists mineral,
    Catalog.Mineral.validate
      (Catalog.Body.mk "AB-1234" "Quartz" "SiO2" Py.NaN (Py.Finite (5 # 2))
         "COMMON" "Brazil" 5)
    = inr mineral
    /\ Catalog.create_mineral mineral []
       = (Http.Unhandled Http.IntegrityError, []).
Proof. eexists. split; reflexivity. Qed.

Lemma blank_strips_to_nothing (s : string) :
  Notions.blank s = true -> Py.strip s = EmptyString.
Proof.
  intros H. unfold Py.strip.
  assert (Hl : Py.lstrip s = EmptyString).
  { induction s as [|c s IH]; simpl in *; [reflexivity|].
    apply andb_true_iff in H as [Hc Hs]. rewrite Hc. now apply IH. }
  now rewrite Hl.
Qed.

(** Blanks do not count towards a minimum length: whatever its length, a
    text made of whitespace only is rejected by each of the checks on names
    (name and country of a mineral; name, genre, platform and description of
    a game). *)
Theorem blank_text_is_rejected :
  forall (s : string),
    Notions.blank s = true ->
    Spec.raised (Catalog.Mineral.validator_name s) = true
    /\ Spec.raised (Catalog.Mineral.validator_country s) = true
    /\ Spec.raised (Game.Games.validator_name s) = true
    /\ Spec.raised (Game.Games.validator_genre s) = true
    /\ Spec.raised (Game.Games.validator_platform s) = true
    /\ Spec.raised (Game.Games.validator_description s) = true.
Proof.
  intros s H.
  unfold Catalog.Mineral.validator_name, Catalog.Mineral.validator_country,
    Game.Games.validator_name, Game.Games.validator_genre,
    Game.Games.validator_platform, Game.Games.validator_description.
  rewrite (blank_strips_to_nothing s H). repeat split; reflexivity.
Qed.

Lemma blank_text_is_rejected_witness :
  Spec.raised (Catalog.Mineral.validator_name "      ") = true
  /\ Spec.raised (Game.Games.validator_description
                    "                         ") = true.
Proof.
  destruct (blank_text_is_rejected "      " eq_refl) as (H1 & _).
  destruct (blank_text_is_rejected "                         " eq_refl)
    as (_ & _ & _ & _ & _ & H6).
  split; assumption.
Defined.


(** ** More on the export *)

Lemma game_update_row_forall (P : Game.GamesDB.t -> Prop) (id : string)
  (f : Game.GamesDB.t -> Game.GamesDB.t) (db : Game.table) :
  (forall r, P (f r)) -> Forall P db -> Forall P (Game.update_row id f db).
Proof.
  intros Hf. induction 1 as [|r db Hr Hdb IH]; simpl; [constructor|].
  destruct (String.eqb (Game.GamesDB.game_id r) id); constructor; auto.
Qed.

Lemma game_delete_row_forall (P : Game.GamesDB.t -> Prop) (id : string)
  (db : Game.table) :
  Forall P db -> Forall P (Game.delete_row id db).
Proof.
  induction 1 as [|r db Hr Hdb IH]; simpl; [constructor|].
  destruct (String.eqb (Game.GamesDB.game_id r) id); [assumption|].
  now constructor.
Qed.

(** The [rating] column may hold NULL, but no call puts one there: on a
    table in which every row has a rating, every call leaves such a table,
    and the export of such a table has no empty cell. *)
Theorem no_call_stores_a_null_rating :
  forall (db : Game.table),
    Notions.rated db ->
    (forall c, Notions.rated (Game.table_after c db))
    /\ (forall header lines,
           Game.export_games "csv" db = Http.OK (Game.Csv (header :: lines)) ->
           Forall (Forall (fun cell => cell <> Game.Null)) lines).
Proof.
  intros db Hdb. unfold Notions.rated in *. split.
  - intros c. destruct c as [ | |game|id game|id]; simpl; try assumption.
    + unfold Game.create_game.
      destruct (Game.first_by_id (Game.Games.game_id game) db); simpl;
        [assumption|].
      apply Forall_app. split; [assumption|].
      repeat constructor. discriminate.
    + unfold Game.update_game.
      destruct (negb (String.eqb id (Game.Games.game_id game)));
        cbn [snd]; [assumption|].
      destruct (Game.first_by_id id db); cbn [snd]; [|assumption].
      apply game_update_row_forall; [|assumption].
      intros r. rewrite game_assign_all. discriminate.
    + unfold Game.delete_game.
      destruct (Game.first_by_id id db); cbn [snd]; [|assumption].
      now apply game_delete_row_forall.
  - intros header lines H. unfold Game.export_games in H.
    cbn [String.eqb Ascii.eqb Bool.eqb] in H. injection H as _ <-.
    apply Forall_forall. intros line Hline.
    apply in_map_iff in Hline as (game & <- & Hgame).
    rewrite Forall_forall in Hdb. specialize (Hdb game Hgame).
    unfold Game.rating_cell.
    destruct (Game.GamesDB.rating game); [|contradiction].
    repeat constructor; discriminate.
Qed.

Lemma no_call_stores_a_null_rating_witness :
  Notions.rated (Game.table_after (Game.Create_game Spec.doom)
                   [Game.GamesDB_new Spec.tetris])
  /\ Forall (Forall (fun cell => cell <> Game.Null))
       [[Game.Text "AB-0001"; Game.Text "Tetris"; Game.Text "Puzzle";
         Game.Text "Game Boy"; Game.Text "1989-06-14T00:00:00";
         Game.Text "PEGI 3";
         Game.Text "Falling blocks to be stacked in rows"]].
Proof.
  assert (H : Notions.rated [Game.GamesDB_new Spec.tetris]).
  { repeat constructor. discriminate. }
  destruct (no_call_stores_a_null_rating _ H) as [Hcalls Hexport]. split.
  - apply Hcalls.
  - apply (Hexport (map Game.Text Notions.export_header)). reflexivity.
Defined.


Example spreadsheet_refuses_control_characters :
  let game :=
    Game.GamesDB.mk "AB-0003" (String (ascii_of_N 7) "Pong") "Sports" "Arcade"
      (Py.mk_datetime 1972 11 29 0 0 0 0) (Some Game.PEGI_3)
      "Two paddles and a ball on a screen" in
  Game.export_games "xlsx" [game] = Http.Unhandled Http.IllegalCharacterError
  /\ exists lines, Game.export_games "csv" [game] = Http.OK (Game.Csv lines).
Proof. split; [reflexivity | eexists; reflexivity]. Qed.

(** ** Exact filters against the search *)

Lemma like_own_text (p : string) :
  Sql.match_like (Sql.lower (Sql.until_nul (p ++ "%")))
    (Sql.lower (Sql.until_nul p))
  = true.
Proof.
  induction p as [|c p IH]; [reflexivity|].
  cbn [append Sql.until_nul].
  destruct (N_of_ascii c =? 0)%N; [reflexivity|].
  cbn [Sql.lower]. rewrite like_cons.
  destruct (Ascii.eqb (Sql.lower_char c) "%") eqn:E1.
  - apply orb_true_iff. right.
    rewrite like_cons, E1, IH. reflexivity.
  - destruct (Ascii.eqb (Sql.lower_char c) "_"); [exact IH|].
    now rewrite Ascii.eqb_refl, IH.
Qed.

Lemma ilike_own_text (s : string) : Sql.ilike s ("%" ++ s ++ "%") = true.
Proof.
  unfold Sql.ilike, Sql.like. rewrite !until_nul_lower.
  change (Sql.until_nul ("%" ++ s ++ "%"))
    with ("%" ++ Sql.until_nul (s ++ "%")).
  rewrite lower_append.
  change (Sql.lower "%") with "%". cbn [append]. rewrite like_cons.
  cbn [Ascii.eqb Bool.eqb]. now rewrite like_own_text.
Qed.

(** A text always matches the search for itself, wildcards or not.  So what
    an exact filter on a text column keeps, the search for the same value
    keeps as well: every row of the query filtered by an identifier, a name,
    a country, a genre or a platform is a row of the query that searches for
    that value. *)
Theorem exact_filter_is_within_the_search :
  forall (cast_real : Py.float -> string) (m_others : Catalog.other_attributes)
         (g_others : Game.other_attributes) (v : string),
    (forall db,
        let found :=
          Notions.rows
            (Catalog.minerals_query cast_real m_others None None None None
               (Some v) None db) in
        incl (Notions.rows
                (Catalog.minerals_query cast_real m_others (Some v) None None
                   None None None db)) found
        /\ incl (Notions.rows
                   (Catalog.minerals_query cast_real m_others None (Some v)
                      None None None None db)) found
        /\ incl (Notions.rows
                   (Catalog.minerals_query cast_real m_others None None None
                      (Some v) None None db)) found)
    /\ (forall db,
        let found :=
          Notions.rows
            (Game.games_query g_others None None None None None (Some v) None
               db) in
        incl (Notions.rows
                (Game.games_query g_others (Some v) None None None None None
                   None db))
             found
        /\ incl (Notions.rows
                   (Game.games_query g_others None (Some v) None None None
                      None None db))
                found
        /\ incl (Notions.rows
                   (Game.games_query g_others None None (Some v) None None
                      None None db))
                found
        /\ incl (Notions.rows
                   (Game.games_query g_others None None None (Some v) None
                      None None db))
                found).
Proof.
  intros cast_real m_others g_others v.
  split; intros db found; subst found.
  - unfold Catalog.minerals_query, Py.when_given.
    destruct (Py.bool_str v); cbn [Catalog.sorted Notions.rows];
      [|repeat split; apply incl_refl].
    repeat split; intros r Hr; apply filter_In in Hr as [Hin Hr];
      apply String.eqb_eq in Hr; apply filter_In; (split; [assumption|]);
      unfold Catalog.search_clause; rewrite Hr, ilike_own_text;
      rewrite ?orb_true_r; reflexivity.
  - unfold Game.games_query, Py.when_given.
    destruct (Py.bool_str v); cbn [Game.sorted Notions.rows];
      [|repeat split; apply incl_refl].
    repeat split; intros r Hr; apply filter_In in Hr as [Hin Hr];
      apply String.eqb_eq in Hr; apply filter_In; (split; [assumption|]);
      unfold Game.search_clause; rewrite Hr, ilike_own_text;
      rewrite ?orb_true_r; reflexivity.
Qed.
